(** * The scene/editing engine of the drawing editor (DrawingApp)

    A shallow embedding of [components/drawing-app.tsx]: the element data
    model, the undo/redo history, the geometry kernel (hit test, handle
    test, box containment) and the pointer/keyboard event handlers, followed
    by the properties the specification states about them.

    React state is threaded explicitly: every handler is a function from the
    state of the render in which it was created to the state after all its
    [set...] calls were applied, in order.  A handler reads [elements] (the
    [history.present] of its render) while its [setHistory] updaters read the
    history as it is when they run; both are kept apart below. *)

From Stdlib Require Import List String Ascii Bool ZArith Lia.
From Stdlib Require Import Reals Lra Floats Uint63.
Import ListNotations.

Local Open Scope string_scope.
Local Open Scope list_scope.

(* ================================================================== *)
(** * 1. JavaScript numbers *)
(* ================================================================== *)

(** The operations on [number] the program uses.  The code is written once
    over this interface and read at two instances: IEEE binary64, which is
    what an engine computes, and exact arithmetic on the reals extended with
    NaN and the infinities, which is what the geometry is meant to compute. *)
Class JSNumber (num : Type) : Type := {
  js_lit : Z -> num;                 (* an integer literal *)
  js_add : num -> num -> num;
  js_sub : num -> num -> num;
  js_mul : num -> num -> num;
  js_div : num -> num -> num;
  js_neg : num -> num;               (* - a *)
  js_lt : num -> num -> bool;        (* a < b *)
  js_le : num -> num -> bool;        (* a <= b *)
  js_eq : num -> num -> bool;        (* a === b on numbers *)
  Math_abs : num -> num;
  Math_sqrt : num -> num;
  ToBoolean : num -> bool;           (* false on 0 and NaN *)
  JSON_number : num -> num           (* JSON.parse(JSON.stringify(a)) *)
}.

(** The functions of [Math] that ECMAScript leaves implementation-approximated,
    with [Math.round] and [Math.PI]. *)
Class JSMath (num : Type) : Type := {
  Math_PI : num;
  Math_atan2 : num -> num -> num;
  Math_cos : num -> num;
  Math_sin : num -> num;
  Math_round : num -> num
}.

Declare Scope js_scope.
Delimit Scope js_scope with js.
Notation "a + b" := (js_add a b) : js_scope.
Notation "a - b" := (js_sub a b) : js_scope.
Notation "a * b" := (js_mul a b) : js_scope.
Notation "a / b" := (js_div a b) : js_scope.
Notation "- a" := (js_neg a) : js_scope.
Notation "a <? b" := (js_lt a b) (at level 70, no associativity) : js_scope.
Notation "a <=? b" := (js_le a b) (at level 70, no associativity) : js_scope.
Notation "a >? b" := (js_lt b a) (at level 70, no associativity) : js_scope.
Notation "a >=? b" := (js_le b a) (at level 70, no associativity) : js_scope.
Notation "a === b" := (js_eq a b) (at level 70, no associativity) : js_scope.
Notation "a !== b" := (negb (js_eq a b)) (at level 70, no associativity) : js_scope.

(** ** Binary64 *)

Definition float_lit (z : Z) : float :=
  match z with
  | Z0 => PrimFloat.zero
  | Zpos _ => PrimFloat.of_uint63 (Uint63.of_Z z)
  | Zneg p => PrimFloat.opp (PrimFloat.of_uint63 (Uint63.of_Z (Zpos p)))
  end.

Definition float_ToBoolean (f : float) : bool :=
  negb (PrimFloat.is_zero f || PrimFloat.is_nan f).

(** JSON has neither NaN nor the infinities: [JSON.stringify] writes them as
    [null], and every arithmetic operation and comparison of the program
    reads [null] as [0]; [-0] is written as [0]. *)
Definition float_JSON (f : float) : float :=
  if PrimFloat.is_finite f
  then (if PrimFloat.is_zero f then PrimFloat.zero else f)
  else PrimFloat.zero.

#[export] Instance float_number : JSNumber float := {
  js_lit := float_lit;
  js_add := PrimFloat.add;
  js_sub := PrimFloat.sub;
  js_mul := PrimFloat.mul;
  js_div := PrimFloat.div;
  js_neg := PrimFloat.opp;
  js_lt := PrimFloat.ltb;
  js_le := PrimFloat.leb;
  js_eq := PrimFloat.eqb;
  Math_abs := PrimFloat.abs;
  Math_sqrt := PrimFloat.sqrt;
  ToBoolean := float_ToBoolean;
  JSON_number := float_JSON
}.

(** ** Exact arithmetic *)

(** A real number, NaN, or an infinity.  There is one zero: the sign of a
    zero, which binary64 keeps, is not represented (a non-zero number
    divided by zero is the infinity of the sign of the numerator). *)
Inductive ideal : Type :=
| INaN
| IInf (negative : bool)
| IFin (r : R).

Definition Rltb (a b : R) : bool := if Rlt_dec a b then true else false.
Definition Rleb (a b : R) : bool := if Rle_dec a b then true else false.
Definition Reqb (a b : R) : bool := if Req_dec_T a b then true else false.

Definition ideal_opp (a : ideal) : ideal :=
  match a with
  | INaN => INaN
  | IInf s => IInf (negb s)
  | IFin r => IFin (- r)
  end.

Definition ideal_add (a b : ideal) : ideal :=
  match a, b with
  | INaN, _ | _, INaN => INaN
  | IInf s, IInf s' => if Bool.eqb s s' then IInf s else INaN
  | IInf s, IFin _ => IInf s
  | IFin _, IInf s => IInf s
  | IFin p, IFin q => IFin (p + q)
  end.

Definition ideal_sub (a b : ideal) : ideal := ideal_add a (ideal_opp b).

Definition ideal_mul (a b : ideal) : ideal :=
  match a, b with
  | INaN, _ | _, INaN => INaN
  | IInf s, IInf s' => IInf (xorb s s')
  | IInf s, IFin r | IFin r, IInf s =>
      if Reqb r 0 then INaN else IInf (xorb s (Rltb r 0))
  | IFin p, IFin q => IFin (p * q)
  end.

Definition ideal_div (a b : ideal) : ideal :=
  match a, b with
  | INaN, _ | _, INaN => INaN
  | IInf _, IInf _ => INaN
  | IInf s, IFin r => IInf (xorb s (Rltb r 0))
  | IFin _, IInf _ => IFin 0
  | IFin p, IFin q =>
      if Reqb q 0
      then (if Reqb p 0 then INaN else IInf (Rltb p 0))
      else IFin (p / q)
  end.

Definition ideal_lt (a b : ideal) : bool :=
  match a, b with
  | INaN, _ | _, INaN => false
  | IInf s, IInf s' => s && negb s'
  | IInf s, IFin _ => s
  | IFin _, IInf s => negb s
  | IFin p, IFin q => Rltb p q
  end.

Definition ideal_le (a b : ideal) : bool :=
  match a, b with
  | INaN, _ | _, INaN => false
  | IInf s, IInf s' => s || negb s'
  | IInf s, IFin _ => s
  | IFin _, IInf s => negb s
  | IFin p, IFin q => Rleb p q
  end.

Definition ideal_eq (a b : ideal) : bool :=
  match a, b with
  | IInf s, IInf s' => Bool.eqb s s'
  | IFin p, IFin q => Reqb p q
  | _, _ => false
  end.

Definition ideal_abs (a : ideal) : ideal :=
  match a with
  | INaN => INaN
  | IInf _ => IInf false
  | IFin r => IFin (Rabs r)
  end.

Definition ideal_sqrt (a : ideal) : ideal :=
  match a with
  | INaN => INaN
  | IInf s => if s then INaN else IInf false
  | IFin r => if Rltb r 0 then INaN else IFin (R_sqrt.sqrt r)
  end.

Definition ideal_ToBoolean (a : ideal) : bool :=
  match a with
  | INaN => false
  | IInf _ => true
  | IFin r => negb (Reqb r 0)
  end.

Definition ideal_JSON (a : ideal) : ideal :=
  match a with
  | IFin r => IFin r
  | _ => IFin 0
  end.

#[export] Instance ideal_number : JSNumber ideal := {
  js_lit := fun z => IFin (IZR z);
  js_add := ideal_add;
  js_sub := ideal_sub;
  js_mul := ideal_mul;
  js_div := ideal_div;
  js_neg := ideal_opp;
  js_lt := ideal_lt;
  js_le := ideal_le;
  js_eq := ideal_eq;
  Math_abs := ideal_abs;
  Math_sqrt := ideal_sqrt;
  ToBoolean := ideal_ToBoolean;
  JSON_number := ideal_JSON
}.

(** The mathematical functions that [Math.atan2], [Math.cos], [Math.sin]
    and [Math.round] approximate. *)
Definition ideal_atan2 (b a : ideal) : ideal :=
  match b, a with
  | INaN, _ | _, INaN => INaN
  | IInf sy, IInf sx =>
      let q := if sx then (3 * PI / 4)%R else (PI / 4)%R in
      IFin (if sy then - q else q)
  | IInf sy, IFin _ => IFin (if sy then - (PI / 2) else PI / 2)
  | IFin v, IInf sx =>
      if sx then IFin (if Rltb v 0 then - PI else PI) else IFin 0
  | IFin v, IFin u =>
      if Rltb 0 u then IFin (atan (v / u))
      else if Rltb u 0
           then IFin (if Rltb v 0 then atan (v / u) - PI else atan (v / u) + PI)
           else if Rltb 0 v then IFin (PI / 2)
                else if Rltb v 0 then IFin (- (PI / 2)) else IFin 0
  end.

Definition ideal_cos (a : ideal) : ideal :=
  match a with IFin r => IFin (cos r) | _ => INaN end.

Definition ideal_sin (a : ideal) : ideal :=
  match a with IFin r => IFin (sin r) | _ => INaN end.

(** [Math.round] rounds to the nearest integer, a tie towards +infinity:
    the floor of [r + 1/2]. *)
Definition ideal_round (a : ideal) : ideal :=
  match a with IFin r => IFin (IZR (up (r + / 2) - 1)) | _ => a end.

#[export] Instance ideal_math : JSMath ideal := {
  Math_PI := IFin PI;
  Math_atan2 := ideal_atan2;
  Math_cos := ideal_cos;
  Math_sin := ideal_sin;
  Math_round := ideal_round
}.

(* ================================================================== *)
(** * 2. Data model *)
(* ================================================================== *)

(** [type ElementType]. *)
Inductive ElementType : Type :=
| selection | rectangle | circle | line | arrow | text | freehand.

Definition ElementType_eqb (a b : ElementType) : bool :=
  match a, b with
  | selection, selection | rectangle, rectangle | circle, circle
  | line, line | arrow, arrow | text, text | freehand, freehand => true
  | _, _ => false
  end.

(** [type HandlePosition]; the constructors stand for the strings
    "top-left", "top", ..., "start", "end", "rotation". *)
Inductive HandlePosition : Type :=
| top_left | top | top_right | left | right
| bottom_left | bottom | bottom_right | start_ | end_ | rotation_.

(** [activeHandle.includes("top")] and [activeHandle.includes("bottom")]. *)
Definition includes_top (h : HandlePosition) : bool :=
  match h with top_left | top | top_right => true | _ => false end.

Definition includes_bottom (h : HandlePosition) : bool :=
  match h with bottom_left | bottom | bottom_right => true | _ => false end.

(** The [action] state: "none" | "drawing" | "moving" | "resizing" | "selecting". *)
Inductive Action : Type :=
| none | drawing | moving | resizing | selecting.

(** [{ x: number; y: number }]. *)
Module Point.
Record t (num : Type) : Type := mk { x : num; y : num }.
Arguments mk {num} _ _.
Arguments x {num} _.
Arguments y {num} _.
End Point.

(** [type Element].  An optional field is an [option]; [None] is
    [undefined]. *)
Module Element.
Record t (num : Type) : Type := mk {
  id : string;
  type : ElementType;
  x : num;
  y : num;
  width : option num;
  height : option num;
  radius : option num;
  points : option (list (Point.t num));
  text : option string;
  fill : string;
  stroke : string;
  strokeWidth : num;
  isDragging : bool;
  selected : option bool;
  rotation : option num
}.
Arguments mk {num} _ _ _ _ _ _ _ _ _ _ _ _ _ _ _.
Arguments id {num} _.
Arguments type {num} _.
Arguments x {num} _.
Arguments y {num} _.
Arguments width {num} _.
Arguments height {num} _.
Arguments radius {num} _.
Arguments points {num} _.
Arguments text {num} _.
Arguments fill {num} _.
Arguments stroke {num} _.
Arguments strokeWidth {num} _.
Arguments isDragging {num} _.
Arguments selected {num} _.
Arguments rotation {num} _.

(** [{ ...el, f: v }] for each field the program overrides. *)
Section Spread.
Context {num : Type}.
Implicit Type el : t num.

Definition with_id (v : string) el : t num :=
  mk v (type el) (x el) (y el) (width el) (height el) (radius el) (points el)
     (text el) (fill el) (stroke el) (strokeWidth el) (isDragging el)
     (selected el) (rotation el).

Definition with_x (v : num) el : t num :=
  mk (id el) (type el) v (y el) (width el) (height el) (radius el) (points el)
     (text el) (fill el) (stroke el) (strokeWidth el) (isDragging el)
     (selected el) (rotation el).

Definition with_y (v : num) el : t num :=
  mk (id el) (type el) (x el) v (width el) (height el) (radius el) (points el)
     (text el) (fill el) (stroke el) (strokeWidth el) (isDragging el)
     (selected el) (rotation el).

Definition with_width (v : option num) el : t num :=
  mk (id el) (type el) (x el) (y el) v (height el) (radius el) (points el)
     (text el) (fill el) (stroke el) (strokeWidth el) (isDragging el)
     (selected el) (rotation el).

Definition with_height (v : option num) el : t num :=
  mk (id el) (type el) (x el) (y el) (width el) v (radius el) (points el)
     (text el) (fill el) (stroke el) (strokeWidth el) (isDragging el)
     (selected el) (rotation el).

Definition with_radius (v : option num) el : t num :=
  mk (id el) (type el) (x el) (y el) (width el) (height el) v (points el)
     (text el) (fill el) (stroke el) (strokeWidth el) (isDragging el)
     (selected el) (rotation el).

Definition with_points (v : option (list (Point.t num))) el : t num :=
  mk (id el) (type el) (x el) (y el) (width el) (height el) (radius el) v
     (text el) (fill el) (stroke el) (strokeWidth el) (isDragging el)
     (selected el) (rotation el).

Definition with_text (v : option string) el : t num :=
  mk (id el) (type el) (x el) (y el) (width el) (height el) (radius el)
     (points el) v (fill el) (stroke el) (strokeWidth el) (isDragging el)
     (selected el) (rotation el).

Definition with_fill (v : string) el : t num :=
  mk (id el) (type el) (x el) (y el) (width el) (height el) (radius el)
     (points el) (text el) v (stroke el) (strokeWidth el) (isDragging el)
     (selected el) (rotation el).

Definition with_stroke (v : string) el : t num :=
  mk (id el) (type el) (x el) (y el) (width el) (height el) (radius el)
     (points el) (text el) (fill el) v (strokeWidth el) (isDragging el)
     (selected el) (rotation el).

Definition with_strokeWidth (v : num) el : t num :=
  mk (id el) (type el) (x el) (y el) (width el) (height el) (radius el)
     (points el) (text el) (fill el) (stroke el) v (isDragging el)
     (selected el) (rotation el).

Definition with_selected (v : option bool) el : t num :=
  mk (id el) (type el) (x el) (y el) (width el) (height el) (radius el)
     (points el) (text el) (fill el) (stroke el) (strokeWidth el)
     (isDragging el) v (rotation el).

Definition with_rotation (v : option num) el : t num :=
  mk (id el) (type el) (x el) (y el) (width el) (height el) (radius el)
     (points el) (text el) (fill el) (stroke el) (strokeWidth el)
     (isDragging el) (selected el) v.

End Spread.
End Element.

(** [type History]. *)
Module History.
Record t (num : Type) : Type := mk {
  past : list (list (Element.t num));
  present : list (Element.t num);
  future : list (list (Element.t num))
}.
Arguments mk {num} _ _ _.
Arguments past {num} _.
Arguments present {num} _.
Arguments future {num} _.
End History.

(** The [selectionBox] state. *)
Module SelectionBox.
Record t (num : Type) : Type := mk {
  startX : num;
  startY : num;
  width : num;
  height : num
}.
Arguments mk {num} _ _ _ _.
Arguments startX {num} _.
Arguments startY {num} _.
Arguments width {num} _.
Arguments height {num} _.
End SelectionBox.

(** What a [saveText] closure of [handleDoubleClick] captured: the
    [elements] and [selectedElement] of the render of the double click, and
    the text element found. *)
Module TextEditor.
Record t (num : Type) : Type := mk {
  elements : list (Element.t num);
  textElement : Element.t num;
  selectedElement : option (Element.t num)
}.
Arguments mk {num} _ _ _.
Arguments elements {num} _.
Arguments textElement {num} _.
Arguments selectedElement {num} _.
End TextEditor.

(** The state of the [DrawingApp] component that the handlers read or write.
    View-only state (canvas size, zoom, grid, theme, the shortcuts dialog)
    is left out: the handlers below receive pointer positions already
    converted by [getMouseCoordinates].  [editors] holds the text areas that
    [handleDoubleClick] opened and that have not saved yet. *)
Module State.
Record t (num : Type) : Type := mk {
  history : History.t num;
  selectedElement : option (Element.t num);
  tool : ElementType;
  color : string;
  strokeWidth : num;
  fill : string;
  action : Action;
  startPoint : option (Point.t num);
  activeHandle : option HandlePosition;
  clipboard : list (Element.t num);
  selectionBox : option (SelectionBox.t num);
  multiSelectMode : bool;
  editors : list (TextEditor.t num)
}.
Arguments mk {num} _ _ _ _ _ _ _ _ _ _ _ _ _.
Arguments history {num} _.
Arguments selectedElement {num} _.
Arguments tool {num} _.
Arguments color {num} _.
Arguments strokeWidth {num} _.
Arguments fill {num} _.
Arguments action {num} _.
Arguments startPoint {num} _.
Arguments activeHandle {num} _.
Arguments clipboard {num} _.
Arguments selectionBox {num} _.
Arguments multiSelectMode {num} _.
Arguments editors {num} _.

(** The state setters.  [setHistory] takes an updater, as every call of it
    in the program does. *)
Section Setters.
Context {num : Type}.
Implicit Type st : t num.

Definition setHistory (f : History.t num -> History.t num) st : t num :=
  mk (f (history st)) (selectedElement st) (tool st) (color st)
     (strokeWidth st) (fill st) (action st) (startPoint st) (activeHandle st)
     (clipboard st) (selectionBox st) (multiSelectMode st) (editors st).

Definition setSelectedElement (v : option (Element.t num)) st : t num :=
  mk (history st) v (tool st) (color st) (strokeWidth st) (fill st)
     (action st) (startPoint st) (activeHandle st) (clipboard st)
     (selectionBox st) (multiSelectMode st) (editors st).

Definition setTool (v : ElementType) st : t num :=
  mk (history st) (selectedElement st) v (color st) (strokeWidth st)
     (fill st) (action st) (startPoint st) (activeHandle st) (clipboard st)
     (selectionBox st) (multiSelectMode st) (editors st).

Definition setColor (v : string) st : t num :=
  mk (history st) (selectedElement st) (tool st) v (strokeWidth st)
     (fill st) (action st) (startPoint st) (activeHandle st) (clipboard st)
     (selectionBox st) (multiSelectMode st) (editors st).

Definition setStrokeWidth (v : num) st : t num :=
  mk (history st) (selectedElement st) (tool st) (color st) v (fill st)
     (action st) (startPoint st) (activeHandle st) (clipboard st)
     (selectionBox st) (multiSelectMode st) (editors st).

Definition setFill (v : string) st : t num :=
  mk (history st) (selectedElement st) (tool st) (color st)
     (strokeWidth st) v (action st) (startPoint st) (activeHandle st)
     (clipboard st) (selectionBox st) (multiSelectMode st) (editors st).

Definition setAction (v : Action) st : t num :=
  mk (history st) (selectedElement st) (tool st) (color st)
     (strokeWidth st) (fill st) v (startPoint st) (activeHandle st)
     (clipboard st) (selectionBox st) (multiSelectMode st) (editors st).

Definition setStartPoint (v : option (Point.t num)) st : t num :=
  mk (history st) (selectedElement st) (tool st) (color st)
     (strokeWidth st) (fill st) (action st) v (activeHandle st)
     (clipboard st) (selectionBox st) (multiSelectMode st) (editors st).

Definition setActiveHandle (v : option HandlePosition) st : t num :=
  mk (history st) (selectedElement st) (tool st) (color st)
     (strokeWidth st) (fill st) (action st) (startPoint st) v
     (clipboard st) (selectionBox st) (multiSelectMode st) (editors st).

Definition setClipboard (v : list (Element.t num)) st : t num :=
  mk (history st) (selectedElement st) (tool st) (color st)
     (strokeWidth st) (fill st) (action st) (startPoint st)
     (activeHandle st) v (selectionBox st) (multiSelectMode st) (editors st).

Definition setSelectionBox (v : option (SelectionBox.t num)) st : t num :=
  mk (history st) (selectedElement st) (tool st) (color st)
     (strokeWidth st) (fill st) (action st) (startPoint st)
     (activeHandle st) (clipboard st) v (multiSelectMode st) (editors st).

Definition setMultiSelectMode (v : bool) st : t num :=
  mk (history st) (selectedElement st) (tool st) (color st)
     (strokeWidth st) (fill st) (action st) (startPoint st)
     (activeHandle st) (clipboard st) (selectionBox st) v (editors st).

Definition setEditors (v : list (TextEditor.t num)) st : t num :=
  mk (history st) (selectedElement st) (tool st) (color st)
     (strokeWidth st) (fill st) (action st) (startPoint st)
     (activeHandle st) (clipboard st) (selectionBox st)
     (multiSelectMode st) v.

End Setters.
End State.

(** A canvas mouse event: the position is the result of
    [getMouseCoordinates], in scene coordinates. *)
Module MouseEvent.
Record t (num : Type) : Type := mk {
  x : num;
  y : num;
  shiftKey : bool;
  altKey : bool
}.
Arguments mk {num} _ _ _ _.
Arguments x {num} _.
Arguments y {num} _.
Arguments shiftKey {num} _.
Arguments altKey {num} _.
End MouseEvent.

(** A [keydown] event on the window.  [target_is_text_field] is
    [e.target instanceof HTMLInputElement || e.target instanceof
    HTMLTextAreaElement]. *)
Module KeyboardEvent.
Record t : Type := mk {
  key : string;
  ctrlKey : bool;
  metaKey : bool;
  altKey : bool;
  shiftKey : bool;
  target_is_text_field : bool
}.
End KeyboardEvent.

(** The calls [updateProperty(property, value)] of the properties panel. *)
Inductive PropertyEdit (num : Type) : Type :=
| prop_x (value : num)
| prop_y (value : num)
| prop_width (value : num)
| prop_height (value : num)
| prop_radius (value : num)
| prop_text (value : string)
| prop_rotation (value : num)
| prop_stroke (value : string)
| prop_strokeWidth (value : num)
| prop_fill (value : string).
Arguments prop_x {num} _.
Arguments prop_y {num} _.
Arguments prop_width {num} _.
Arguments prop_height {num} _.
Arguments prop_radius {num} _.
Arguments prop_text {num} _.
Arguments prop_rotation {num} _.
Arguments prop_stroke {num} _.
Arguments prop_strokeWidth {num} _.
Arguments prop_fill {num} _.

(* ================================================================== *)
(** * 3. The engine *)
(* ================================================================== *)

(** ** Array and string primitives *)

(** [arr.slice(-n)] for a positive [n]: the last [n] elements. *)
Definition slice_last {A : Type} (n : nat) (l : list A) : list A :=
  skipn (List.length l - n) l.

(** [arr.map((el, index) => ...)]. *)
Fixpoint mapi_from {A B : Type} (i : nat) (f : A -> nat -> B) (l : list A)
  : list B :=
  match l with
  | [] => []
  | a :: l' => f a i :: mapi_from (S i) f l'
  end.

Definition mapi {A B : Type} (f : A -> nat -> B) (l : list A) : list B :=
  mapi_from 0 f l.

(** [arr[i] = v] on a copy, for [i < arr.length]. *)
Fixpoint assign {A : Type} (i : nat) (v : A) (l : list A) : list A :=
  match l, i with
  | [], _ => []
  | _ :: l', O => v :: l'
  | a :: l', S i' => a :: assign i' v l'
  end.

(** [s.toLowerCase()], on the letters A to Z. *)
Definition lower_ascii (c : ascii) : ascii :=
  let n := nat_of_ascii c in
  if (65 <=? n)%nat && (n <=? 90)%nat then ascii_of_nat (n + 32) else c.

Fixpoint toLowerCase (s : string) : string :=
  match s with
  | EmptyString => EmptyString
  | String c s' => String (lower_ascii c) (toLowerCase s')
  end.

(** The truth value of an optional boolean field ([undefined] is falsy). *)
Definition truthy (b : option bool) : bool :=
  match b with Some true => true | _ => false end.

(** [s || ""]. *)
Definition orEmpty (s : option string) : string :=
  match s with Some v => v | None => "" end.

Definition MAX_HISTORY_LENGTH : nat := 50.

Section Engine.
Context {num : Type} {NUM : JSNumber num}.

Local Open Scope js_scope.

Local Abbreviation Element := (Element.t num).
Local Abbreviation Point := (Point.t num).
Local Abbreviation History := (History.t num).
Local Abbreviation State := (State.t num).

(** [v || d] on an optional number. *)
Definition orElse (v : option num) (d : num) : num :=
  match v with
  | Some a => if ToBoolean a then a else d
  | None => d
  end.

(** [Math.pow(a, 2)]: the square, which engines compute as [a * a]. *)
Definition Math_pow_2 (a : num) : num := a * a.

(** [Math.max(a, b)]: NaN when an argument is NaN; [+0] is above [-0]. *)
Definition Math_max (a b : num) : num :=
  if a !== a then a
  else if b !== b then b
  else if a === b then (if a === js_lit 0 then a + b else a)
  else if a <? b then b else a.

(** [JSON.parse(JSON.stringify(el))]. *)
Definition JSON_point (p : Point) : Point :=
  Point.mk (JSON_number (Point.x p)) (JSON_number (Point.y p)).

Definition JSON_clone (el : Element) : Element :=
  Element.mk (Element.id el) (Element.type el)
    (JSON_number (Element.x el)) (JSON_number (Element.y el))
    (option_map JSON_number (Element.width el))
    (option_map JSON_number (Element.height el))
    (option_map JSON_number (Element.radius el))
    (option_map (map JSON_point) (Element.points el))
    (Element.text el) (Element.fill el) (Element.stroke el)
    (JSON_number (Element.strokeWidth el)) (Element.isDragging el)
    (Element.selected el)
    (option_map JSON_number (Element.rotation el)).

(** [(element.text || "").length * 8]. *)
Definition textWidth_of (element : Element) : num :=
  js_lit (Z.of_nat (String.length (orEmpty (Element.text element)))) * js_lit 8.

(** ** History *)

Definition updateHistory (newElements : list Element) (prev : History)
  : History :=
  History.mk
    (slice_last MAX_HISTORY_LENGTH (History.past prev ++ [History.present prev]))
    newElements
    [].

Definition handleUndo (prev : History) : History :=
  if (List.length (History.past prev) =? 0)%nat then prev
  else
    match nth_error (History.past prev) (List.length (History.past prev) - 1) with
    | Some newPresent =>
        let newPast :=
          firstn (List.length (History.past prev) - 1) (History.past prev) in
        History.mk newPast newPresent
          (firstn MAX_HISTORY_LENGTH
             (History.present prev :: History.future prev))
    | None => prev (* not reached: the index is in range *)
    end.

Definition handleRedo (prev : History) : History :=
  match History.future prev with
  | [] => prev
  | newPresent :: newFuture =>
      History.mk
        (slice_last MAX_HISTORY_LENGTH
           (History.past prev ++ [History.present prev]))
        newPresent
        newFuture
  end.

(** [setHistory((prev) => ({ ...prev, present: updatedElements }))]. *)
Definition setPresent (updatedElements : list Element) (prev : History)
  : History :=
  History.mk (History.past prev) updatedElements (History.future prev).

(** ** Geometry kernel *)

Definition handleSize : num := js_lit 8.

(** The 8x8 box around a handle at [(hx, hy)]:
    [x >= hx - handleSize / 2 && x <= hx + handleSize / 2 &&
     y >= hy - handleSize / 2 && y <= hy + handleSize / 2]. *)
Definition inHandle (x y hx hy : num) : bool :=
  (x >=? hx - handleSize / js_lit 2) && (x <=? hx + handleSize / js_lit 2) &&
  (y >=? hy - handleSize / js_lit 2) && (y <=? hy + handleSize / js_lit 2).

Definition getHandleAtPosition (x y : num) (element : Element)
  : option HandlePosition :=
  match Element.type element with
  | rectangle =>
      let ex := Element.x element in
      let ey := Element.y element in
      let width := orElse (Element.width element) (js_lit 0) in
      let height := orElse (Element.height element) (js_lit 0) in
      if inHandle x y ex ey then Some top_left
      else if inHandle x y (ex + width / js_lit 2) ey then Some top
      else if inHandle x y (ex + width) ey then Some top_right
      else if inHandle x y ex (ey + height / js_lit 2) then Some left
      else if inHandle x y (ex + width) (ey + height / js_lit 2) then Some right
      else if inHandle x y ex (ey + height) then Some bottom_left
      else if inHandle x y (ex + width / js_lit 2) (ey + height) then Some bottom
      else if inHandle x y (ex + width) (ey + height) then Some bottom_right
      else
        let centerX := ex + width / js_lit 2 in
        let handleX := centerX in
        let handleY := ey - js_lit 30 in
        if inHandle x y handleX handleY then Some rotation_ else None
  | circle =>
      let ex := Element.x element in
      let ey := Element.y element in
      let radius := orElse (Element.radius element) (js_lit 0) in
      if inHandle x y ex (ey - radius) then Some top
      else if inHandle x y (ex + radius) ey then Some right
      else if inHandle x y ex (ey + radius) then Some bottom
      else if inHandle x y (ex - radius) ey then Some left
      else
        let handleX := ex in
        let handleY := ey - radius - js_lit 30 in
        if inHandle x y handleX handleY then Some rotation_ else None
  | line | arrow =>
      match Element.points element with
      | Some (start :: end' :: _) =>
          if inHandle x y (Point.x start) (Point.y start) then Some start_
          else if inHandle x y (Point.x end') (Point.y end') then Some end_
          else None
      | _ => None
      end
  | text =>
      let ex := Element.x element in
      let ey := Element.y element in
      let textWidth := textWidth_of element in
      let textHeight := js_lit 16 in
      if inHandle x y ex (ey - textHeight) then Some top_left
      else if inHandle x y (ex + textWidth) (ey - textHeight) then Some top_right
      else if inHandle x y ex ey then Some bottom_left
      else if inHandle x y (ex + textWidth) ey then Some bottom_right
      else
        let centerX := ex + textWidth / js_lit 2 in
        let handleY := ey - textHeight - js_lit 30 in
        if inHandle x y centerX handleY then Some rotation_ else None
  | _ => None
  end.

Definition isElementInSelectionBox (element : Element)
  (selectionBox : SelectionBox.t num) : bool :=
  let startX := SelectionBox.startX selectionBox in
  let startY := SelectionBox.startY selectionBox in
  let bw := SelectionBox.width selectionBox in
  let bh := SelectionBox.height selectionBox in
  let selectionLeft := if bw >=? js_lit 0 then startX else startX + bw in
  let selectionRight := if bw >=? js_lit 0 then startX + bw else startX in
  let selectionTop := if bh >=? js_lit 0 then startY else startY + bh in
  let selectionBottom := if bh >=? js_lit 0 then startY + bh else startY in
  match Element.type element with
  | rectangle =>
      (Element.x element >=? selectionLeft) &&
      (Element.x element + orElse (Element.width element) (js_lit 0)
         <=? selectionRight) &&
      (Element.y element >=? selectionTop) &&
      (Element.y element + orElse (Element.height element) (js_lit 0)
         <=? selectionBottom)
  | circle =>
      let r := orElse (Element.radius element) (js_lit 0) in
      (Element.x element - r >=? selectionLeft) &&
      (Element.x element + r <=? selectionRight) &&
      (Element.y element - r >=? selectionTop) &&
      (Element.y element + r <=? selectionBottom)
  | text =>
      let textWidth := textWidth_of element in
      let textHeight := js_lit 16 in
      (Element.x element >=? selectionLeft) &&
      (Element.x element + textWidth <=? selectionRight) &&
      (Element.y element - textHeight >=? selectionTop) &&
      (Element.y element <=? selectionBottom)
  | line | arrow =>
      match Element.points element with
      | Some (start :: end' :: _) =>
          (Point.x start >=? selectionLeft) &&
          (Point.x start <=? selectionRight) &&
          (Point.y start >=? selectionTop) &&
          (Point.y start <=? selectionBottom) &&
          (Point.x end' >=? selectionLeft) &&
          (Point.x end' <=? selectionRight) &&
          (Point.y end' >=? selectionTop) &&
          (Point.y end' <=? selectionBottom)
      | _ => false
      end
  | _ => false
  end.

Definition isPointInElement (x y : num) (element : Element) : bool :=
  match Element.type element with
  | rectangle =>
      (x >=? Element.x element) &&
      (x <=? Element.x element + orElse (Element.width element) (js_lit 0)) &&
      (y >=? Element.y element) &&
      (y <=? Element.y element + orElse (Element.height element) (js_lit 0))
  | circle =>
      let dx := x - Element.x element in
      let dy := y - Element.y element in
      let distance := Math_sqrt (dx * dx + dy * dy) in
      distance <=? orElse (Element.radius element) (js_lit 0)
  | line | arrow =>
      match Element.points element with
      | Some (start :: end' :: _) =>
          let lineLength :=
            Math_sqrt (Math_pow_2 (Point.x end' - Point.x start) +
                       Math_pow_2 (Point.y end' - Point.y start)) in
          let distance :=
            Math_abs ((Point.y end' - Point.y start) * x -
                      (Point.x end' - Point.x start) * y +
                      Point.x end' * Point.y start -
                      Point.y end' * Point.x start) / lineLength in
          distance <? js_lit 10
      | _ => false
      end
  | text =>
      let textWidth := textWidth_of element in
      let textHeight := js_lit 16 in
      (x >=? Element.x element) && (x <=? Element.x element + textWidth) &&
      (y >=? Element.y element - textHeight) && (y <=? Element.y element)
  | _ => false
  end.


(** ** Keyboard shortcuts and the toolbar buttons *)

Definition deselectAll (elements : list Element) : list Element :=
  map (Element.with_selected (Some false)) elements.

(** [selectedElements.map((el) => ({ ...JSON.parse(JSON.stringify(el)),
    id: Date.now().toString() + Math.random().toString(36).substr(2, 9) }))].
    [mint i] is the string that the clock and the random generator give for
    the [i]-th element mapped. *)
Definition copyElements (mint : nat -> string) (selectedElements : list Element)
  : list Element :=
  mapi (fun el i => Element.with_id (mint i) (JSON_clone el)) selectedElements.

Definition offsetPoint (point : Point) : Point :=
  Point.mk (Point.x point + js_lit 20) (Point.y point + js_lit 20).

(** The body of [clipboard.map((el) => ...)] of paste and of
    [selectedElements.map((el) => ...)] of duplicate. *)
Definition pasteElement (newId : string) (el : Element) : Element :=
  let newElement :=
    Element.with_y (Element.y el + js_lit 20)
      (Element.with_x (Element.x el + js_lit 20)
         (Element.with_selected (Some true)
            (Element.with_id newId (JSON_clone el)))) in
  match Element.type el, Element.points el with
  | (line | arrow), Some points =>
      Element.with_points (Some (map offsetPoint points)) newElement
  | _, _ => newElement
  end.

Definition pasteElements (mint : nat -> string) (source : list Element)
  : list Element :=
  mapi (fun el i => pasteElement (mint i) el) source.

(** Copy: Ctrl+C and the Copy button. *)
Definition copy (mint : nat -> string) (elements : list Element) (st : State)
  : State :=
  let selectedElements :=
    filter (fun el => truthy (Element.selected el)) elements in
  match selectedElements with
  | [] => st
  | _ => State.setClipboard (copyElements mint selectedElements) st
  end.

(** Cut: Ctrl+X and the Cut button. *)
Definition cut (mint : nat -> string) (elements : list Element) (st : State)
  : State :=
  let selectedElements :=
    filter (fun el => truthy (Element.selected el)) elements in
  match selectedElements with
  | [] => st
  | _ =>
      let copiedElements := copyElements mint selectedElements in
      let updatedElements :=
        filter (fun el => negb (truthy (Element.selected el))) elements in
      State.setSelectedElement None
        (State.setHistory (updateHistory updatedElements)
           (State.setClipboard copiedElements st))
  end.

(** Paste: Ctrl+V and the Paste button. *)
Definition paste (mint : nat -> string) (elements clipboard : list Element)
  (st : State) : State :=
  match clipboard with
  | [] => st
  | _ =>
      let deselectedElements := deselectAll elements in
      let pastedElements := pasteElements mint clipboard in
      let st1 :=
        State.setHistory
          (updateHistory (deselectedElements ++ pastedElements)) st in
      match pastedElements with
      | first :: _ => State.setSelectedElement (Some first) st1
      | [] => st1
      end
  end.

(** Duplicate: Ctrl+D. *)
Definition duplicate (mint : nat -> string) (elements : list Element)
  (st : State) : State :=
  let selectedElements :=
    filter (fun el => truthy (Element.selected el)) elements in
  match selectedElements with
  | [] => st
  | _ =>
      let deselectedElements := deselectAll elements in
      let duplicatedElements := pasteElements mint selectedElements in
      let st1 :=
        State.setHistory
          (updateHistory (deselectedElements ++ duplicatedElements)) st in
      match duplicatedElements with
      | first :: _ => State.setSelectedElement (Some first) st1
      | [] => st1
      end
  end.

Definition handleDeleteSelectedElements (elements : list Element) (st : State)
  : State :=
  let updatedElements :=
    filter (fun el => negb (truthy (Element.selected el))) elements in
  State.setSelectedElement None
    (State.setHistory (updateHistory updatedElements) st).

(** Select all: Ctrl+A. *)
Definition selectAll (elements : list Element)
  (selectedElement : option Element) (st : State) : State :=
  let updatedElements := map (Element.with_selected (Some true)) elements in
  let st1 := State.setHistory (updateHistory updatedElements) st in
  match selectedElement, updatedElements with
  | None, first :: _ => State.setSelectedElement (Some first) st1
  | _, _ => st1
  end.

(** The tool shortcuts and Escape: the [switch (e.key.toLowerCase())].  The
    cases "g", "d" and "?" write view state only; the theme effect that
    follows "d" may call [setColor], which is the event [SetColor] below. *)
Definition toolShortcut (k : string) (elements : list Element) (st : State)
  : State :=
  if (k =? "v")%string then State.setTool selection st
  else if (k =? "r")%string then State.setTool rectangle st
  else if (k =? "c")%string then State.setTool circle st
  else if (k =? "l")%string then State.setTool line st
  else if (k =? "a")%string then State.setTool arrow st
  else if (k =? "t")%string then State.setTool text st
  else if (k =? "p")%string then State.setTool freehand st
  else if (k =? "escape")%string then
    if existsb (fun el => truthy (Element.selected el)) elements
    then State.setSelectedElement None
           (State.setHistory (updateHistory (deselectAll elements)) st)
    else st
  else st.

(** [handleKeyDown].  The blocks run in the order of the source, each on
    the state the previous one left, all reading the [elements],
    [selectedElement] and [clipboard] of the render.  The zoom shortcuts
    write view state only. *)
Definition handleKeyDown (mint : nat -> string) (e : KeyboardEvent.t)
  (st : State) : State :=
  if KeyboardEvent.target_is_text_field e then st
  else
    let elements := History.present (State.history st) in
    let selectedElement := State.selectedElement st in
    let clipboard := State.clipboard st in
    let key := KeyboardEvent.key e in
    let ctrlOrMeta := KeyboardEvent.ctrlKey e || KeyboardEvent.metaKey e in
    let shift := KeyboardEvent.shiftKey e in
    let s1 :=
      if negb (KeyboardEvent.ctrlKey e) && negb (KeyboardEvent.metaKey e) &&
         negb (KeyboardEvent.altKey e)
      then toolShortcut (toLowerCase key) elements st
      else st in
    let s2 :=
      if ctrlOrMeta && (key =? "z")%string && negb shift
      then State.setHistory handleUndo s1 else s1 in
    let s3 :=
      if ctrlOrMeta && ((key =? "y")%string || (shift && (key =? "z")%string))
      then State.setHistory handleRedo s2 else s2 in
    let s4 :=
      if ctrlOrMeta && (key =? "a")%string
      then selectAll elements selectedElement s3 else s3 in
    let s5 :=
      if ctrlOrMeta && (key =? "c")%string then copy mint elements s4 else s4 in
    let s6 :=
      if ctrlOrMeta && (key =? "x")%string then cut mint elements s5 else s5 in
    let s7 :=
      if ctrlOrMeta && (key =? "v")%string
      then paste mint elements clipboard s6 else s6 in
    let s8 :=
      if ctrlOrMeta && (key =? "d")%string
      then duplicate mint elements s7 else s7 in
    if (key =? "Delete")%string || (key =? "Backspace")%string
    then
      if existsb (fun el => truthy (Element.selected el)) elements
      then handleDeleteSelectedElements elements s8 else s8
    else s8.

(** ** Pointer events *)

(** The element a draw gesture starts, by tool; [now] is
    [Date.now().toString()]. *)
Definition newFreehand (now : string) (x y : num) (st : State) : Element :=
  Element.mk now line (js_lit 0) (js_lit 0) None None None
    (Some [Point.mk x y]) None (State.fill st) (State.color st)
    (State.strokeWidth st) false None (Some (js_lit 0)).

Definition newText (now : string) (x y : num) (st : State) : Element :=
  Element.mk now text x y None None None None (Some "Double-click to edit")
    (State.color st) "transparent" (js_lit 0) false (Some true)
    (Some (js_lit 0)).

Definition newShape (now : string) (x y : num) (st : State) : Element :=
  let tool := State.tool st in
  let newElement :=
    Element.mk now tool x y (Some (js_lit 0)) (Some (js_lit 0)) None None None
      (State.fill st) (State.color st) (State.strokeWidth st) false None
      (Some (js_lit 0)) in
  match tool with
  | circle => Element.with_radius (Some (js_lit 0)) newElement
  | line | arrow =>
      Element.with_points (Some [Point.mk x y; Point.mk x y]) newElement
  | _ => newElement
  end.

Definition handleMouseDown (now : string) (e : MouseEvent.t num) (st : State)
  : State :=
  let x := MouseEvent.x e in
  let y := MouseEvent.y e in
  let elements := History.present (State.history st) in
  let selectedElement := State.selectedElement st in
  let isShiftPressed := MouseEvent.shiftKey e in
  let st := State.setMultiSelectMode isShiftPressed st in
  let isAltPressed := MouseEvent.altKey e in
  match match selectedElement with
        | Some sel => getHandleAtPosition x y sel
        | None => None
        end with
  | Some handle =>
      State.setStartPoint (Some (Point.mk x y))
        (State.setActiveHandle (Some handle) (State.setAction resizing st))
  | None =>
      match find (fun element => isPointInElement x y element) elements with
      | Some clickedElement =>
          if isAltPressed then
            let duplicatedElement :=
              Element.with_selected (Some true)
                (Element.with_id now (JSON_clone clickedElement)) in
            let updatedElements :=
              map (fun el =>
                     Element.with_selected
                       (if isShiftPressed then Element.selected el
                        else Some (Element.id el =? Element.id clickedElement)%string)
                       el) elements in
            State.setStartPoint (Some (Point.mk x y))
              (State.setAction moving
                 (State.setSelectedElement (Some duplicatedElement)
                    (State.setHistory
                       (updateHistory (updatedElements ++ [duplicatedElement]))
                       st)))
          else
            let st1 :=
              if negb isShiftPressed &&
                 negb (truthy (Element.selected clickedElement))
              then
                let updatedElements :=
                  map (fun el =>
                         Element.with_selected
                           (Some (Element.id el =? Element.id clickedElement)%string)
                           el) elements in
                State.setSelectedElement (Some clickedElement)
                  (State.setHistory (updateHistory updatedElements) st)
              else
                let updatedElements :=
                  map (fun el =>
                         if (Element.id el =? Element.id clickedElement)%string
                         then
                           Element.with_selected
                             (Some (if isShiftPressed
                                    then negb (truthy (Element.selected el))
                                    else true)) el
                         else
                           Element.with_selected
                             (if isShiftPressed then Element.selected el
                              else Some false) el) elements in
                let st2 := State.setHistory (updateHistory updatedElements) st in
                if negb (truthy (Element.selected clickedElement)) ||
                   negb isShiftPressed
                then State.setSelectedElement (Some clickedElement) st2
                else st2 in
            State.setStartPoint (Some (Point.mk x y))
              (State.setAction moving st1)
      | None =>
          let st1 :=
            if negb isShiftPressed then
              if existsb (fun el => truthy (Element.selected el)) elements
              then State.setSelectedElement None
                     (State.setHistory (updateHistory (deselectAll elements)) st)
              else st
            else st in
          if ElementType_eqb (State.tool st) selection || isShiftPressed then
            State.setSelectionBox
              (Some (SelectionBox.mk x y (js_lit 0) (js_lit 0)))
              (State.setAction selecting st1)
          else
            let st2 :=
              State.setStartPoint (Some (Point.mk x y))
                (State.setAction drawing st1) in
            match State.tool st with
            | freehand =>
                let newElement := newFreehand now x y st in
                State.setHistory (updateHistory (elements ++ [newElement])) st2
            | text =>
                let newElement := newText now x y st in
                let updatedElements := deselectAll elements in
                State.setSelectedElement (Some newElement)
                  (State.setHistory
                     (updateHistory (updatedElements ++ [newElement])) st2)
            | _ =>
                let newElement := newShape now x y st in
                State.setHistory (updateHistory (elements ++ [newElement])) st2
            end
      end
  end.

Definition handleMouseUp (st : State) : State :=
  let elements := History.present (State.history st) in
  let st1 :=
    match State.action st, State.selectionBox st with
    | (drawing | moving | resizing), _ =>
        State.setHistory
          (fun prev =>
             History.mk
               (slice_last MAX_HISTORY_LENGTH
                  (History.past prev ++ [History.present prev]))
               (History.present prev)
               [])
          st
    | selecting, Some selectionBox =>
        let isSelectionTooSmall :=
          (Math_abs (SelectionBox.width selectionBox) <? js_lit 5) &&
          (Math_abs (SelectionBox.height selectionBox) <? js_lit 5) in
        let st2 :=
          if negb isSelectionTooSmall then
            let updatedElements :=
              map (fun el =>
                     let isInside := isElementInSelectionBox el selectionBox in
                     if State.multiSelectMode st then
                       Element.with_selected
                         (if isInside
                          then Some (negb (truthy (Element.selected el)))
                          else Element.selected el) el
                     else Element.with_selected (Some isInside) el) elements in
            let firstSelected :=
              find (fun el => truthy (Element.selected el)) updatedElements in
            State.setSelectedElement firstSelected
              (State.setHistory (updateHistory updatedElements) st)
          else st in
        State.setSelectionBox None st2
    | _, _ => st
    end in
  State.setActiveHandle None
    (State.setStartPoint None (State.setAction none st1)).

Context {MATH : JSMath num}.

(** The direction from [(sx, sy)] to [(x, y)] snapped to a multiple of 45
    degrees, at the same distance: the offsets [distance * Math.cos(snapAngle)]
    and [distance * Math.sin(snapAngle)]. *)
Definition snapOffset (dx dy : num) : num * num :=
  let angle := Math_atan2 dy dx in
  let snapAngle :=
    Math_round (angle / (Math_PI / js_lit 4)) * (Math_PI / js_lit 4) in
  let distance := Math_sqrt (dx * dx + dy * dy) in
  (distance * Math_cos snapAngle, distance * Math_sin snapAngle).

(** The pivot of the rotation handle. *)
Definition rotationCenter (el : Element) : num * num :=
  match Element.type el with
  | rectangle =>
      (Element.x el + orElse (Element.width el) (js_lit 0) / js_lit 2,
       Element.y el + orElse (Element.height el) (js_lit 0) / js_lit 2)
  | circle => (Element.x el, Element.y el)
  | text =>
      (Element.x el + textWidth_of el / js_lit 2, Element.y el - js_lit 8)
  | line | arrow =>
      match Element.points el with
      | Some (start :: end' :: _) =>
          ((Point.x start + Point.x end') / js_lit 2,
           (Point.y start + Point.y end') / js_lit 2)
      | _ => (Element.x el, Element.y el)
      end
  | _ => (Element.x el, Element.y el)
  end.

Definition rotateElement (x y : num) (shiftKey : bool) (el : Element)
  : Element :=
  let '(centerX, centerY) := rotationCenter el in
  let angle :=
    Math_atan2 (y - centerY) (x - centerX) * (js_lit 180 / Math_PI) in
  let rotation := angle + js_lit 90 in
  let rotation :=
    if shiftKey then Math_round (rotation / js_lit 15) * js_lit 15
    else rotation in
  Element.with_rotation (Some rotation) el.

Definition resizeRectangle (x y : num) (shiftKey : bool)
  (activeHandle : HandlePosition) (el : Element) : Element :=
  let w := orElse (Element.width el) (js_lit 0) in
  let h := orElse (Element.height el) (js_lit 0) in
  let '(newX, newY, newWidth, newHeight) :=
    match activeHandle with
    | top_left =>
        (x, y, Element.x el + w - x, Element.y el + h - y)
    | top => (Element.x el, y, w, Element.y el + h - y)
    | top_right => (Element.x el, y, x - Element.x el, Element.y el + h - y)
    | left => (x, Element.y el, Element.x el + w - x, h)
    | right => (Element.x el, Element.y el, x - Element.x el, h)
    | bottom_left => (x, Element.y el, Element.x el + w - x, y - Element.y el)
    | bottom => (Element.x el, Element.y el, w, y - Element.y el)
    | bottom_right =>
        (Element.x el, Element.y el, x - Element.x el, y - Element.y el)
    | _ => (Element.x el, Element.y el, w, h)
    end in
  let '(newWidth, newHeight) :=
    if shiftKey && (newWidth !== js_lit 0) && (newHeight !== js_lit 0) then
      let aspectRatio :=
        orElse (Element.width el) (js_lit 1) /
        orElse (Element.height el) (js_lit 1) in
      if includes_top activeHandle || includes_bottom activeHandle
      then (newHeight * aspectRatio, newHeight)
      else (newWidth, newWidth / aspectRatio)
    else (newWidth, newHeight) in
  let '(newX, newWidth) :=
    if newWidth <? js_lit 0 then (newX + newWidth, Math_abs newWidth)
    else (newX, newWidth) in
  let '(newY, newHeight) :=
    if newHeight <? js_lit 0 then (newY + newHeight, Math_abs newHeight)
    else (newY, newHeight) in
  Element.with_height (Some newHeight)
    (Element.with_width (Some newWidth)
       (Element.with_y newY (Element.with_x newX el))).

Definition resizeCircle (x y : num) (activeHandle : HandlePosition)
  (el : Element) : Element :=
  let newRadius :=
    match activeHandle with
    | top | bottom => Math_abs (y - Element.y el)
    | right | left => Math_abs (x - Element.x el)
    | _ => orElse (Element.radius el) (js_lit 0)
    end in
  Element.with_radius (Some newRadius) el.

Definition resizeLine (x y : num) (shiftKey : bool)
  (activeHandle : HandlePosition) (points : list Point) (el : Element)
  : Element :=
  let points' :=
    match activeHandle, points with
    | start_, _ :: rest =>
        match (if shiftKey then rest else []) with
        | end' :: _ =>
            let '(ox, oy) := snapOffset (Point.x end' - x) (Point.y end' - y) in
            assign 0 (Point.mk (Point.x end' - ox) (Point.y end' - oy)) points
        | [] => assign 0 (Point.mk x y) points
        end
    | end_, start :: _ :: _ =>
        if shiftKey then
          let '(ox, oy) := snapOffset (x - Point.x start) (y - Point.y start) in
          assign 1 (Point.mk (Point.x start + ox) (Point.y start + oy)) points
        else assign 1 (Point.mk x y) points
    | _, _ => points
    end in
  Element.with_points (Some points') el.

Definition resizeText (x y : num) (activeHandle : HandlePosition)
  (el : Element) : Element :=
  let newX :=
    match activeHandle with
    | top_left | bottom_left => x
    | _ => Element.x el
    end in
  let newY :=
    match activeHandle with
    | top_left | top_right => y + js_lit 16
    | _ => Element.y el
    end in
  Element.with_y newY (Element.with_x newX el).

(** The body of the [elements.map] of the resize branch, for the element
    whose id is the selected element's. *)
Definition resizeElement (x y : num) (shiftKey : bool)
  (activeHandle : HandlePosition) (el : Element) : Element :=
  match Element.type el, Element.points el with
  | rectangle, _ => resizeRectangle x y shiftKey activeHandle el
  | circle, _ => resizeCircle x y activeHandle el
  | (line | arrow), Some points => resizeLine x y shiftKey activeHandle points el
  | text, _ => resizeText x y activeHandle el
  | _, _ => el
  end.

(** The body of the [elements.map] of the move branch. *)
Definition moveElement (constrainedDx constrainedDy : num) (el : Element)
  : Element :=
  if truthy (Element.selected el) then
    match Element.type el, Element.points el with
    | (rectangle | text), _ | circle, _ =>
        Element.with_y (Element.y el + constrainedDy)
          (Element.with_x (Element.x el + constrainedDx) el)
    | (line | arrow), Some points =>
        Element.with_points
          (Some (map (fun point =>
                        Point.mk (Point.x point + constrainedDx)
                                 (Point.y point + constrainedDy)) points))
          el
    | _, _ => el
    end
  else el.

(** The body of the [elements.map] of the draw branch, for the last
    element, by tool. *)
Definition drawFreehand (x y : num) (el : Element) : Element :=
  Element.with_points
    (Some (match Element.points el with Some ps => ps | None => [] end
           ++ [Point.mk x y])) el.

Definition drawRectangle (x y : num) (shiftKey : bool) (el : Element)
  : Element :=
  if shiftKey then
    let width := x - Element.x el in
    let height := y - Element.y el in
    let size := Math_max (Math_abs width) (Math_abs height) in
    Element.with_height
      (Some (if height >=? js_lit 0 then size else - size))
      (Element.with_width
         (Some (if width >=? js_lit 0 then size else - size)) el)
  else
    Element.with_height (Some (y - Element.y el))
      (Element.with_width (Some (x - Element.x el)) el).

Definition drawCircle (x y : num) (el : Element) : Element :=
  let dx := x - Element.x el in
  let dy := y - Element.y el in
  let radius := Math_sqrt (dx * dx + dy * dy) in
  Element.with_radius (Some radius) el.

Definition drawLine (x y : num) (shiftKey : bool) (el : Element) : Element :=
  let start :=
    match Element.points el with
    | Some (p :: _) => p
    | _ => Point.mk (js_lit 0) (js_lit 0)
    end in
  if shiftKey then
    let '(ox, oy) := snapOffset (x - Point.x start) (y - Point.y start) in
    Element.with_points
      (Some [start; Point.mk (Point.x start + ox) (Point.y start + oy)]) el
  else Element.with_points (Some [start; Point.mk x y]) el.

(** [elements.map((el, index) => index === elements.length - 1 ? f(el) : el)]. *)
Definition mapLast (f : Element -> Element) (elements : list Element)
  : list Element :=
  mapi (fun el index =>
          if (index =? List.length elements - 1)%nat then f el else el)
       elements.

Definition handleMouseMove (e : MouseEvent.t num) (st : State) : State :=
  let elements := History.present (State.history st) in
  let selectedElement := State.selectedElement st in
  match State.action st, State.startPoint st with
  | none, _ | _, None => st
  | selecting, Some _ =>
      match State.selectionBox st with
      | Some selectionBox =>
          State.setSelectionBox
            (Some (SelectionBox.mk
                     (SelectionBox.startX selectionBox)
                     (SelectionBox.startY selectionBox)
                     (MouseEvent.x e - SelectionBox.startX selectionBox)
                     (MouseEvent.y e - SelectionBox.startY selectionBox)))
            st
      | None => st
      end
  | drawing, Some _ =>
      let x := MouseEvent.x e in
      let y := MouseEvent.y e in
      match nth_error elements (List.length elements - 1) with
      | None => st
      | Some lastElement =>
          match State.tool st, Element.points lastElement with
          | freehand, Some _ =>
              State.setHistory
                (setPresent (mapLast (drawFreehand x y) elements)) st
          | rectangle, _ =>
              State.setHistory
                (setPresent
                   (mapLast (drawRectangle x y (MouseEvent.shiftKey e)) elements))
                st
          | circle, _ =>
              State.setHistory
                (setPresent (mapLast (drawCircle x y) elements)) st
          | (line | arrow), Some _ =>
              State.setHistory
                (setPresent
                   (mapLast (drawLine x y (MouseEvent.shiftKey e)) elements))
                st
          | _, _ => st
          end
      end
  | moving, Some startPoint =>
      let x := MouseEvent.x e in
      let y := MouseEvent.y e in
      let dx := x - Point.x startPoint in
      let dy := y - Point.y startPoint in
      let constrainedDx :=
        if MouseEvent.shiftKey e
        then (if Math_abs dx >? Math_abs dy then dx else js_lit 0)
        else dx in
      let constrainedDy :=
        if MouseEvent.shiftKey e
        then (if Math_abs dy >? Math_abs dx then dy else js_lit 0)
        else dy in
      let updatedElements :=
        map (moveElement constrainedDx constrainedDy) elements in
      let st1 := State.setHistory (setPresent updatedElements) st in
      let st2 :=
        match selectedElement with
        | Some sel =>
            if truthy (Element.selected sel) then
              match find (fun el => (Element.id el =? Element.id sel)%string)
                         updatedElements with
              | Some updatedSelectedElement =>
                  State.setSelectedElement (Some updatedSelectedElement) st1
              | None => st1
              end
            else st1
        | None => st1
        end in
      State.setStartPoint (Some (Point.mk x y)) st2
  | resizing, Some _ =>
      let x := MouseEvent.x e in
      let y := MouseEvent.y e in
      match selectedElement, State.activeHandle st with
      | Some sel, Some activeHandle =>
          let updatedElements :=
            map (fun el =>
                   if (Element.id el =? Element.id sel)%string then
                     match activeHandle with
                     | rotation_ => rotateElement x y (MouseEvent.shiftKey e) el
                     | _ => resizeElement x y (MouseEvent.shiftKey e)
                              activeHandle el
                     end
                   else el) elements in
          let st1 := State.setHistory (setPresent updatedElements) st in
          match find (fun el => (Element.id el =? Element.id sel)%string)
                     updatedElements with
          | Some updatedElement =>
              State.setSelectedElement (Some updatedElement) st1
          | None => st1
          end
      | _, _ => st
      end
  end.

(** ** Text editing, the properties panel, file import *)

(** [handleDoubleClick]: a text area opens on the first text element under
    the pointer; its [saveText] closure keeps the values of this render. *)
Definition handleDoubleClick (e : MouseEvent.t num) (st : State) : State :=
  let elements := History.present (State.history st) in
  match find (fun element =>
                ElementType_eqb (Element.type element) text &&
                isPointInElement (MouseEvent.x e) (MouseEvent.y e) element)
             elements with
  | None => st
  | Some textElement =>
      State.setEditors
        (State.editors st ++
           [TextEditor.mk elements textElement (State.selectedElement st)])
        st
  end.

(** [saveText] of the [n]-th open text area, on blur or Enter; [value] is
    [textarea.value]. *)
Definition saveText (n : nat) (value : string) (st : State) : State :=
  match nth_error (State.editors st) n with
  | None => st
  | Some editor =>
      let newText := value in
      let textElement := TextEditor.textElement editor in
      let updatedElements :=
        map (fun el =>
               if (Element.id el =? Element.id textElement)%string
               then Element.with_text (Some newText) el else el)
            (TextEditor.elements editor) in
      let st1 :=
        State.setEditors
          (firstn n (State.editors st) ++ skipn (S n) (State.editors st))
          (State.setHistory (updateHistory updatedElements) st) in
      match TextEditor.selectedElement editor with
      | Some sel =>
          if (Element.id sel =? Element.id textElement)%string
          then State.setSelectedElement
                 (Some (Element.with_text (Some newText) sel)) st1
          else st1
      | None => st1
      end
  end.

(** [{ ...el, [property]: value }]. *)
Definition assignProperty (p : PropertyEdit num) (el : Element) : Element :=
  match p with
  | prop_x v => Element.with_x v el
  | prop_y v => Element.with_y v el
  | prop_width v => Element.with_width (Some v) el
  | prop_height v => Element.with_height (Some v) el
  | prop_radius v => Element.with_radius (Some v) el
  | prop_text v => Element.with_text (Some v) el
  | prop_rotation v => Element.with_rotation (Some v) el
  | prop_stroke v => Element.with_stroke v el
  | prop_strokeWidth v => Element.with_strokeWidth v el
  | prop_fill v => Element.with_fill v el
  end.

Definition updateElementProperty (p : PropertyEdit num) (st : State) : State :=
  let elements := History.present (State.history st) in
  if negb (existsb (fun el => truthy (Element.selected el)) elements) then st
  else
    let updatedElements :=
      map (fun el =>
             if truthy (Element.selected el) then assignProperty p el else el)
          elements in
    let st1 := State.setHistory (updateHistory updatedElements) st in
    match State.selectedElement st with
    | Some sel => State.setSelectedElement (Some (assignProperty p sel)) st1
    | None => st1
    end.

(** [handleImport], once the file is read and parsed: the document replaces
    the scene as it is. *)
Definition handleImport (importedElements : list Element) (st : State)
  : State :=
  State.setHistory (updateHistory importedElements) st.

(** ** The editor as a machine *)

(** What the user does on the canvas, the keyboard, the header buttons, the
    toolbar and the properties panel.  [MouseUp] is also [onMouseLeave].
    Importing a file is not among them: it puts an arbitrary document in
    place of the scene; [FileEvent] below adds it. *)
Inductive Event : Type :=
| MouseDown (now : string) (e : MouseEvent.t num)
| MouseMove (e : MouseEvent.t num)
| MouseUp
| DoubleClick (e : MouseEvent.t num)
| SaveText (n : nat) (value : string)
| KeyDown (mint : nat -> string) (e : KeyboardEvent.t)
| ClickUndo
| ClickRedo
| ClickCopy (mint : nat -> string)
| ClickCut (mint : nat -> string)
| ClickPaste (mint : nat -> string)
| ClickDelete
| UpdateProperty (p : PropertyEdit num)
| SetTool (tool : ElementType)
| SetColor (color : string)
| SetStrokeWidth (width : num)
| SetFill (fill : string).

Definition step (st : State) (ev : Event) : State :=
  let elements := History.present (State.history st) in
  match ev with
  | MouseDown now e => handleMouseDown now e st
  | MouseMove e => handleMouseMove e st
  | MouseUp => handleMouseUp st
  | DoubleClick e => handleDoubleClick e st
  | SaveText n value => saveText n value st
  | KeyDown mint e => handleKeyDown mint e st
  | ClickUndo => State.setHistory handleUndo st
  | ClickRedo => State.setHistory handleRedo st
  | ClickCopy mint => copy mint elements st
  | ClickCut mint => cut mint elements st
  | ClickPaste mint => paste mint elements (State.clipboard st) st
  | ClickDelete => handleDeleteSelectedElements elements st
  | UpdateProperty p => updateElementProperty p st
  | SetTool tool => State.setTool tool st
  | SetColor color => State.setColor color st
  | SetStrokeWidth width => State.setStrokeWidth width st
  | SetFill fill => State.setFill fill st
  end.

Definition run (st : State) (evs : list Event) : State :=
  fold_left step evs st.

(** The state of the first render: an empty history, the selection tool,
    stroke width 2, no fill.  [color] is the theme's default stroke color. *)
Definition initialState (color : string) : State :=
  State.mk (History.mk [] [] []) None selection color (js_lit 2) "transparent"
    none None None [] None false [].

End Engine.

(** ** The editor with its files *)

Section Files.
Context {num : Type} {NUM : JSNumber num} {MATH : JSMath num}.




End Files.

(* ================================================================== *)
(** * 4. Notions of the specification *)
(* ================================================================== *)

Section Notions.
Context {num : Type} {NUM : JSNumber num}.

Definition ids (scene : list (Element.t num)) : list string :=
  map Element.id scene.

Definition not_freehand (el : Element.t num) : bool :=
  negb (ElementType_eqb (Element.type el) freehand).

Definition is_line_or_arrow (el : Element.t num) : bool :=
  match Element.type el with line | arrow => true | _ => false end.

(** The selection a plain click on [clicked] leaves: it alone is selected. *)
Definition selectOnly (clicked : Element.t num) (scene : list (Element.t num))
  : list (Element.t num) :=
  map (fun el =>
         Element.with_selected
           (Some (Element.id el =? Element.id clicked)%string) el) scene.

(** The element of a freehand stroke begun at [(x, y)] after the pointer
    moved through [pts]. *)
Definition stroke (now : string) (x y : num) (st : State.t num)
  (pts : list (Point.t num)) : Element.t num :=
  fold_left (fun el p => drawFreehand (Point.x p) (Point.y p) el) pts
    (newFreehand now x y st).

(** The rectangle covering the same region with its origin at the min
    corner and a non-negative width and height. *)
Definition normalized (el : Element.t num) : Element.t num :=
  let w := orElse (Element.width el) (js_lit 0) in
  let h := orElse (Element.height el) (js_lit 0) in
  let el1 :=
    if js_lt w (js_lit 0)
    then Element.with_width (Some (Math_abs w))
           (Element.with_x (js_add (Element.x el) w) el)
    else el in
  if js_lt h (js_lit 0)
  then Element.with_height (Some (Math_abs h))
         (Element.with_y (js_add (Element.y el1) h) el1)
  else el1.


(** No two elements of the scene share an id. *)
Definition uniqueIds (scene : list (Element.t num)) : Prop :=
  NoDup (ids scene).

(** Strings pairwise different. *)
Fixpoint distinct (l : list string) : bool :=
  match l with
  | [] => true
  | a :: l' => negb (existsb (String.eqb a) l') && distinct l'
  end.

(** The first [n] ids a source yields. *)
Definition minted (mint : nat -> string) (n : nat) : list string :=
  map mint (seq 0 n).

Context {MATH : JSMath num}.

(** The ids [new] are different from every id of [scene] and from one
    another. *)
Definition fresh_ids (scene : list (Element.t num)) (new : list string)
  : bool :=
  distinct new &&
  forallb (fun i => negb (existsb (String.eqb i) (ids scene))) new.

(** The event is the shortcut Ctrl+[k] (or Cmd+[k]) outside a text field. *)
Definition shortcut (e : KeyboardEvent.t) (k : string) : bool :=
  negb (KeyboardEvent.target_is_text_field e) &&
  (KeyboardEvent.ctrlKey e || KeyboardEvent.metaKey e) &&
  (KeyboardEvent.key e =? k)%string.

(** The ids that the clock and the random generator give to an event are
    new: the clock reading of a pointer-down, the ids minted for the copies
    that a paste or a duplicate adds.  (The ids copy and cut mint stay in
    the clipboard.) *)
Definition fresh_event (st : State.t num) (ev : @Event num) : bool :=
  let scene := History.present (State.history st) in
  match ev with
  | MouseDown now _ => fresh_ids scene [now]
  | ClickPaste mint =>
      fresh_ids scene (minted mint (List.length (State.clipboard st)))
  | KeyDown mint e =>
      (if shortcut e "v"
       then fresh_ids scene (minted mint (List.length (State.clipboard st)))
       else true) &&
      (if shortcut e "d"
       then fresh_ids scene
              (minted mint
                 (List.length
                    (filter (fun el => truthy (Element.selected el)) scene)))
       else true)
  | _ => true
  end.

Fixpoint fresh_run (st : State.t num) (evs : list (@Event num)) : bool :=
  match evs with
  | [] => true
  | ev :: evs' => fresh_event st ev && fresh_run (step st ev) evs'
  end.

(** A drag: pointer down, the pointer moves, pointer up. *)
Definition dragGesture (now : string) (down : MouseEvent.t num)
  (moves : list (MouseEvent.t num)) (st : State.t num) : State.t num :=
  handleMouseUp
    (fold_left (fun s e => handleMouseMove e s) moves
       (handleMouseDown now down st)).

End Notions.

(** ** Invariants of the scenes the editor holds *)

(** What an invariant about ids or kinds sees of an element. *)
Definition sig {num : Type} (el : Element.t num) : string * ElementType :=
  (Element.id el, Element.type el).

Section Invariants.
Context {num : Type} {NUM : JSNumber num} {MATH : JSMath num}.

(** [P] holds of a scene, [Pc] of the clipboard, [fresh scene new] of the
    ids [new] minted over [scene]. *)
Variable P : list (Element.t num) -> Prop.
Variable Pc : list (Element.t num) -> Prop.
Variable fresh : list (Element.t num) -> list string -> Prop.

Definition HistoryInvariant (h : History.t num) : Prop :=
  P (History.present h) /\ Forall P (History.past h) /\
  Forall P (History.future h).

(** Every scene the state holds, in the history or in the closure of an
    open text area, satisfies [P]. *)
Definition Invariant (st : State.t num) : Prop :=
  HistoryInvariant (State.history st) /\
  Forall (fun ed => P (TextEditor.elements ed)) (State.editors st) /\
  Pc (State.clipboard st).

Definition freshFor (st : State.t num) (ev : @Event num) : Prop :=
  let scene := History.present (State.history st) in
  match ev with
  | MouseDown now _ => fresh scene [now]
  | ClickPaste mint =>
      fresh scene (minted mint (List.length (State.clipboard st)))
  | KeyDown mint e =>
      (shortcut e "v" = true ->
       fresh scene (minted mint (List.length (State.clipboard st)))) /\
      (shortcut e "d" = true ->
       fresh scene
         (minted mint
            (List.length
               (filter (fun el => truthy (Element.selected el)) scene))))
  | _ => True
  end.

Fixpoint freshAlong (st : State.t num) (evs : list (@Event num)) : Prop :=
  match evs with
  | [] => True
  | ev :: evs' => freshFor st ev /\ freshAlong (step st ev) evs'
  end.

End Invariants.


(** No handle of the selected element is under the pointer. *)
Definition noHandleHit {num : Type} {NUM : JSNumber num}
  (e : MouseEvent.t num) (st : State.t num) : Prop :=
  match State.selectedElement st with
  | Some sel => getHandleAtPosition (MouseEvent.x e) (MouseEvent.y e) sel
  | None => None
  end = None.

(** A binary64 number that is [+0] or NaN; one that is a zero or NaN. *)
Definition zero_or_nan (f : float) : Prop :=
  Prim2SF f = S754_zero false \/ Prim2SF f = S754_nan.

Definition signed_zero_or_nan (f : float) : Prop :=
  (exists s, Prim2SF f = S754_zero s) \/ Prim2SF f = S754_nan.

(** Two points coincide: they are the same point, or their coordinates are
    equal as numbers ([===], for which [+0] and [-0] are equal). *)
Definition coincide (p q : Point.t float) : Prop :=
  p = q \/
  (PrimFloat.eqb (Point.x p) (Point.x q) &&
   PrimFloat.eqb (Point.y p) (Point.y q) = true).

(** The distance from [(px, py)] to the point of parameter [t] of the line
    through [(x0, y0)] and [(x1, y1)]; [t] ranges over all reals, beyond the
    segment too. *)
Definition distanceToLinePoint (x0 y0 x1 y1 px py t : R) : R :=
  R_sqrt.sqrt (Rsqr (px - (x0 + t * (x1 - x0))) + Rsqr (py - (y0 + t * (y1 - y0)))).

(** ** Scenes used as examples *)

Definition flt (z : Z) : float := js_lit z.

Definition rectF (id : string) (x y w h : Z) (sel : option bool)
  : Element.t float :=
  Element.mk id rectangle (flt x) (flt y) (Some (flt w)) (Some (flt h)) None
    None None "transparent" "#000000" (flt 2) false sel (Some (flt 0)).

Definition lineF (id : string) (x0 y0 x1 y1 : Z) : Element.t float :=
  Element.mk id line (flt x0) (flt y0) (Some (flt 0)) (Some (flt 0)) None
    (Some [Point.mk (flt x0) (flt y0); Point.mk (flt x1) (flt y1)]) None
    "transparent" "#000000" (flt 2) false None (Some (flt 0)).

Definition mouseF (x y : Z) : MouseEvent.t float :=
  MouseEvent.mk (flt x) (flt y) false false.

(** The binary64 number just below ten times the square root of two,
    7961314590657215 / 2^49 (14.142135623730949 in decimal), the powers
    2^300 and 2^600, and the line from (0,0) to [(x1, y1)]. *)
Definition belowTenRootTwo : float := 0x1.c48c6001f0abfp+3%float.
Definition twoTo300 : float := 0x1p+300%float.
Definition twoTo600 : float := 0x1p+600%float.

Definition lineTo (x1 y1 : float) : Element.t float :=
  Element.mk "1" line (flt 0) (flt 0) (Some (flt 0)) (Some (flt 0)) None
    (Some [Point.mk (flt 0) (flt 0); Point.mk x1 y1]) None
    "transparent" "#000000" (flt 2) false None (Some (flt 0)).

Definition sceneF (scene : list (Element.t float)) : State.t float :=
  State.setHistory (setPresent scene) (initialState "#000000").

Definition idl (z : Z) : ideal := js_lit z.

Definition rectI (id : string) (x y w h : Z) (sel : option bool)
  : Element.t ideal :=
  Element.mk id rectangle (idl x) (idl y) (Some (idl w)) (Some (idl h)) None
    None None "transparent" "#000000" (idl 2) false sel (Some (idl 0)).

Definition mouseI (x y : Z) : MouseEvent.t ideal :=
  MouseEvent.mk (idl x) (idl y) false false.

Definition sceneI (scene : list (Element.t ideal)) : State.t ideal :=
  State.setHistory (setPresent scene) (initialState "#000000").

Definition ctrlKey (k : string) : KeyboardEvent.t :=
  KeyboardEvent.mk k true false false false false.

Definition letters (n : nat) : string :=
  match n with
  | O => "m0"
  | 1%nat => "m1"
  | 2%nat => "m2"
  | _ => "m3"
  end.

Definition lineI (id : string) (x0 y0 x1 y1 : Z) : Element.t ideal :=
  Element.mk id line (idl x0) (idl y0) (Some (idl 0)) (Some (idl 0)) None
    (Some [Point.mk (idl x0) (idl y0); Point.mk (idl x1) (idl y1)]) None
    "transparent" "#000000" (idl 2) false None (Some (idl 0)).



(** The element that a pointer-down with the line tool seeds at (7, 7). *)
Definition seededLine : Element.t float :=
  newShape "1700000000000" (flt 7) (flt 7)
    (State.setTool line (initialState "#000000")).

(** A rectangle drawn from (10, 10) up and to the left by 5, one drawn by
    20, and a selection box from (0, 0) to (20, 20). *)
Definition negativeRect : Element.t float := rectF "r" 10 10 (-5) (-5) None.

Definition negativeRect20 : Element.t float := rectF "r" 10 10 (-20) (-20) None.

Definition box20 : SelectionBox.t float :=
  SelectionBox.mk (flt 0) (flt 0) (flt 20) (flt 20).

(** A clipboard holding a copy of a rectangle at (5, 5), over an empty
    scene. *)
Definition clipboardAt5 : State.t float :=
  State.setClipboard [rectF "c" 5 5 10 10 (Some true)] (sceneF []).

(** A selected line from (5,5) to (30,45) on the clipboard of an empty
    scene. *)
Definition clipboardLineAt5 : State.t float :=
  State.setClipboard
    [Element.with_selected (Some true) (lineF "l" 5 5 30 45)] (sceneF []).

(** Three rectangles, drawn in this order: "a" away from the others, "b"
    over (0,0)-(100,100) and "c" over (50,50)-(150,150), which overlaps "b"
    and is painted above it. *)
Definition rectA : Element.t float := rectF "a" 300 300 10 10 None.
Definition rectB : Element.t float := rectF "b" 0 0 100 100 None.
Definition rectC : Element.t float := rectF "c" 50 50 100 100 None.
Definition overlapping : State.t float := sceneF [rectA; rectB; rectC].

(** A square over (0,0)-(100,100) in exact arithmetic, a pointer-down in
    it and two moves. *)
Definition squareI : Element.t ideal := rectI "a" 0 0 100 100 None.
Definition oneSquare : State.t ideal := sceneI [squareI].
Definition twoMoves : list (MouseEvent.t ideal) := [mouseI 60 60; mouseI 70 70].

(** Two pointer-downs with the rectangle tool, at (10,10) and at (200,200),
    during which the clock reads the same millisecond. *)
Definition sameMillisecond : State.t float :=
  handleMouseDown "1700000000000" (mouseF 200 200)
    (handleMouseUp
       (handleMouseDown "1700000000000" (mouseF 10 10)
          (State.setTool rectangle (initialState "#000000")))).

Definition digits (n : nat) : string :=
  match n with
  | O => "d0"
  | 1%nat => "d1"
  | _ => "d2"
  end.

(** A rectangle is drawn, then: select all, copy, paste, duplicate, cut,
    undo, redo. *)
Definition session : list (@Event ideal) :=
  [SetTool rectangle; MouseDown "a" (mouseI 5 5); MouseMove (mouseI 15 25);
   MouseUp; KeyDown letters (ctrlKey "a"); KeyDown letters (ctrlKey "c");
   KeyDown letters (ctrlKey "v"); KeyDown digits (ctrlKey "d");
   KeyDown letters (ctrlKey "x"); KeyDown letters (ctrlKey "z");
   KeyDown letters (ctrlKey "y")].

(** ** Notions for the further properties *)

Section HistoryNotions.
Context {num : Type}.

(** One operation on the history: a commit, a live edit, an undo, a redo.
    (The commit of a gesture on pointer-up is [updateHistory] of the present
    scene.) *)
Inductive historyOp : History.t num -> History.t num -> Prop :=
| op_commit : forall S h, historyOp h (updateHistory S h)
| op_live : forall S h, historyOp h (setPresent S h)
| op_undo : forall h, historyOp h (handleUndo h)
| op_redo : forall h, historyOp h (handleRedo h).

Inductive historyOps : History.t num -> History.t num -> Prop :=
| ops_none : forall h, historyOps h h
| ops_then : forall h h1 h2,
    historyOps h h1 -> historyOp h1 h2 -> historyOps h h2.

(** Neither [past] nor [future] holds more than [MAX_HISTORY_LENGTH] scenes. *)
Definition bounded (h : History.t num) : Prop :=
  (List.length (History.past h) <= MAX_HISTORY_LENGTH)%nat /\
  (List.length (History.future h) <= MAX_HISTORY_LENGTH)%nat.

(** The history after a handler ran is the history of before, or one commit
    away from it; for a key event, one undo or one redo away as well. *)
Definition commit_or_same (h h' : History.t num) : Prop :=
  h' = h \/ exists S, h' = updateHistory S h.

Definition one_step (h h' : History.t num) : Prop :=
  commit_or_same h h' \/ h' = handleUndo h \/ h' = handleRedo h.

(** The scenes [scenes] committed one after the other. *)
Definition commitAll (scenes : list (list (Element.t num))) (h : History.t num)
  : History.t num :=
  fold_left (fun h S => updateHistory S h) scenes h.

End HistoryNotions.

Section GestureNotions.
Context {num : Type} {NUM : JSNumber num} {MATH : JSMath num}.

(** What a pointer-move does to the element being drawn, by tool. *)
Definition drawStep (tool : ElementType) (e : MouseEvent.t num)
  (el : Element.t num) : Element.t num :=
  match tool with
  | rectangle =>
      drawRectangle (MouseEvent.x e) (MouseEvent.y e) (MouseEvent.shiftKey e) el
  | circle => drawCircle (MouseEvent.x e) (MouseEvent.y e) el
  | line | arrow =>
      drawLine (MouseEvent.x e) (MouseEvent.y e) (MouseEvent.shiftKey e) el
  | _ => el
  end.

(** The tools that draw a shape from its first corner, centre or end. *)
Definition is_shape_tool (tool : ElementType) : bool :=
  match tool with rectangle | circle | line | arrow => true | _ => false end.

(** The pointer-down misses every element of the scene. *)
Definition noElementHit (e : MouseEvent.t num) (st : State.t num) : Prop :=
  find (fun element => isPointInElement (MouseEvent.x e) (MouseEvent.y e) element)
       (History.present (State.history st)) = None.

End GestureNotions.

(** The event is the save of a text area. *)
Definition is_save {num : Type} (ev : @Event num) : bool :=
  match ev with SaveText _ _ => true | _ => false end.

(** ** The handles the render effect draws *)

(** The arguments of a call of [ctx.rect]. *)
Module CanvasRect.
Record t (num : Type) : Type := mk { x : num; y : num; w : num; h : num }.
Arguments mk {num} _ _ _ _.
Arguments x {num} _.
Arguments y {num} _.
Arguments w {num} _.
Arguments h {num} _.
End CanvasRect.

Section Handles.
Context {num : Type} {NUM : JSNumber num}.

Local Open Scope js_scope.

(** [drawRectangleHandles]: the squares given to [ctx.rect], in the order
    of the calls (top-left, top-middle, top-right, middle-left, middle-right,
    bottom-left, bottom-middle, bottom-right). *)
Definition drawRectangleHandles (element : Element.t num)
  : list (CanvasRect.t num) :=
  let handleSize := js_lit 8 in
  let x := Element.x element in
  let y := Element.y element in
  let width := orElse (Element.width element) (js_lit 0) in
  let height := orElse (Element.height element) (js_lit 0) in
  [ CanvasRect.mk (x - handleSize / js_lit 2) (y - handleSize / js_lit 2)
      handleSize handleSize;
    CanvasRect.mk (x + width / js_lit 2 - handleSize / js_lit 2)
      (y - handleSize / js_lit 2) handleSize handleSize;
    CanvasRect.mk (x + width - handleSize / js_lit 2)
      (y - handleSize / js_lit 2) handleSize handleSize;
    CanvasRect.mk (x - handleSize / js_lit 2)
      (y + height / js_lit 2 - handleSize / js_lit 2) handleSize handleSize;
    CanvasRect.mk (x + width - handleSize / js_lit 2)
      (y + height / js_lit 2 - handleSize / js_lit 2) handleSize handleSize;
    CanvasRect.mk (x - handleSize / js_lit 2)
      (y + height - handleSize / js_lit 2) handleSize handleSize;
    CanvasRect.mk (x + width / js_lit 2 - handleSize / js_lit 2)
      (y + height - handleSize / js_lit 2) handleSize handleSize;
    CanvasRect.mk (x + width - handleSize / js_lit 2)
      (y + height - handleSize / js_lit 2) handleSize handleSize ].

(** [drawCircleHandles]: top, right, bottom, left. *)
Definition drawCircleHandles (element : Element.t num)
  : list (CanvasRect.t num) :=
  let handleSize := js_lit 8 in
  let x := Element.x element in
  let y := Element.y element in
  let radius := orElse (Element.radius element) (js_lit 0) in
  [ CanvasRect.mk (x - handleSize / js_lit 2)
      (y - radius - handleSize / js_lit 2) handleSize handleSize;
    CanvasRect.mk (x + radius - handleSize / js_lit 2)
      (y - handleSize / js_lit 2) handleSize handleSize;
    CanvasRect.mk (x - handleSize / js_lit 2)
      (y + radius - handleSize / js_lit 2) handleSize handleSize;
    CanvasRect.mk (x - radius - handleSize / js_lit 2)
      (y - handleSize / js_lit 2) handleSize handleSize ].

(** [drawLineHandles]: start, end; nothing when there are fewer than two
    points. *)
Definition drawLineHandles (element : Element.t num)
  : list (CanvasRect.t num) :=
  match Element.points element with
  | Some (start :: end' :: _) =>
      let handleSize := js_lit 8 in
      [ CanvasRect.mk (Point.x start - handleSize / js_lit 2)
          (Point.y start - handleSize / js_lit 2) handleSize handleSize;
        CanvasRect.mk (Point.x end' - handleSize / js_lit 2)
          (Point.y end' - handleSize / js_lit 2) handleSize handleSize ]
  | _ => []
  end.

(** [drawTextHandles]: top-left, top-right, bottom-left, bottom-right. *)
Definition drawTextHandles (element : Element.t num)
  : list (CanvasRect.t num) :=
  let handleSize := js_lit 8 in
  let x := Element.x element in
  let y := Element.y element in
  let textWidth := textWidth_of element in
  let textHeight := js_lit 16 in
  [ CanvasRect.mk (x - handleSize / js_lit 2)
      (y - textHeight - handleSize / js_lit 2) handleSize handleSize;
    CanvasRect.mk (x + textWidth - handleSize / js_lit 2)
      (y - textHeight - handleSize / js_lit 2) handleSize handleSize;
    CanvasRect.mk (x - handleSize / js_lit 2)
      (y - handleSize / js_lit 2) handleSize handleSize;
    CanvasRect.mk (x + textWidth - handleSize / js_lit 2)
      (y - handleSize / js_lit 2) handleSize handleSize ].

(** [drawRotationHandle]: the centre from which the line to the handle is
    drawn, and the centre of the disc of radius [handleSize / 2] drawn for
    the handle; [None] where the function returns without drawing. *)
Definition drawRotationHandle (element : Element.t num)
  : option (Point.t num * Point.t num) :=
  match Element.type element with
  | rectangle =>
      let centerX :=
        Element.x element + orElse (Element.width element) (js_lit 0) / js_lit 2 in
      let centerY :=
        Element.y element + orElse (Element.height element) (js_lit 0) / js_lit 2 in
      let handleX := centerX in
      let handleY := Element.y element - js_lit 30 in
      Some (Point.mk centerX centerY, Point.mk handleX handleY)
  | circle =>
      let centerX := Element.x element in
      let centerY := Element.y element in
      let handleX := centerX in
      let handleY :=
        centerY - orElse (Element.radius element) (js_lit 0) - js_lit 30 in
      Some (Point.mk centerX centerY, Point.mk handleX handleY)
  | text =>
      let textWidth := textWidth_of element in
      let centerX := Element.x element + textWidth / js_lit 2 in
      let centerY := Element.y element - js_lit 8 in
      let handleX := centerX in
      let handleY := centerY - js_lit 30 in
      Some (Point.mk centerX centerY, Point.mk handleX handleY)
  | line | arrow =>
      match Element.points element with
      | Some (start :: end' :: _) =>
          let centerX := (Point.x start + Point.x end') / js_lit 2 in
          let centerY := (Point.y start + Point.y end') / js_lit 2 in
          let handleX := centerX in
          let handleY := centerY - js_lit 30 in
          Some (Point.mk centerX centerY, Point.mk handleX handleY)
      | _ => None
      end
  | _ => None
  end.

Definition is_rotation (h : option HandlePosition) : bool :=
  match h with Some rotation_ => true | _ => false end.

End Handles.

(** What the render effect draws of the selection of one element. *)
Module Selection.
Record t (num : Type) : Type := mk {
  transform : option (num * num * num);
  handles : list (CanvasRect.t num);
  rotationHandle : option (Point.t num * Point.t num)
}.
Arguments mk {num} _ _ _.
Arguments transform {num} _.
Arguments handles {num} _.
Arguments rotationHandle {num} _.
End Selection.

Section SelectionDrawing.
Context {num : Type} {NUM : JSNumber num}.

(** The part of the render effect that follows [if (element.selected)]:
    nothing for an element that is not selected; otherwise the rotation
    applied to the canvas before the handles are drawn (the pivot and the
    angle [element.rotation], in degrees; [None] when [element.rotation] is
    falsy and the canvas is left as it is), the squares of the resize
    handles and the rotation handle. *)
Definition drawSelection (element : Element.t num)
  : option (Selection.t num) :=
  if truthy (Element.selected element) then
    let '(centerX, centerY) := rotationCenter element in
    let transform :=
      match Element.rotation element with
      | Some rotation =>
          if ToBoolean rotation then Some (centerX, centerY, rotation)
          else None
      | None => None
      end in
    let handles :=
      match Element.type element with
      | rectangle => drawRectangleHandles element
      | circle => drawCircleHandles element
      | line | arrow => drawLineHandles element
      | text => drawTextHandles element
      | _ => []
      end in
    Some (Selection.mk transform handles (drawRotationHandle element))
  else None.

(** What a pointer-down at [(x, y)] starts: the action and the active handle
    after it. *)
Definition grab (now : string) (shift alt : bool) (st : State.t num)
  (x y : num) : Action * option HandlePosition :=
  let st' := handleMouseDown now (MouseEvent.mk x y shift alt) st in
  (State.action st', State.activeHandle st').

Definition grabAtCentre (now : string) (shift alt : bool) (st : State.t num)
  (r : CanvasRect.t num) : Action * option HandlePosition :=
  grab now shift alt st
    (js_add (CanvasRect.x r) (js_div (CanvasRect.w r) (js_lit 2)))
    (js_add (CanvasRect.y r) (js_div (CanvasRect.h r) (js_lit 2))).

End SelectionDrawing.

(** The opposite corner of a corner handle of the rectangle at [(ex, ey)]
    of width [w] and height [hh]. *)
Definition is_corner (h : HandlePosition) : bool :=
  match h with
  | top_left | top_right | bottom_left | bottom_right => true
  | _ => false
  end.

Definition oppositeCorner (h : HandlePosition) (ex ey w hh : R) : R * R :=
  match h with
  | top_left => ((ex + w)%R, (ey + hh)%R)
  | top_right => (ex, (ey + hh)%R)
  | bottom_left => ((ex + w)%R, ey)
  | _ => (ex, ey)
  end.

(** The pointer [p] is on the side of the corner [c] on which the corner
    handle [h] lies (the border included). *)
Definition onHandleSide (h : HandlePosition) (p c : R * R) : Prop :=
  match h with
  | top_left => (fst p <= fst c /\ snd p <= snd c)%R
  | top_right => (fst c <= fst p /\ snd p <= snd c)%R
  | bottom_left => (fst p <= fst c /\ snd c <= snd p)%R
  | _ => (fst c <= fst p /\ snd c <= snd p)%R
  end.

(** ** The theme, the zoom, files *)

(** [toggleTheme]: what the key "d" and the theme button give to
    [setTheme].  A theme is the string that [useTheme] holds; the editor
    compares it with "dark" only. *)
Definition toggleTheme (theme : string) : string :=
  if (theme =? "dark")%string then "light" else "dark".

(** The effect "update default colors when theme changes": the stroke color
    and the grid color after its calls of [setColor] and [setGridColor]. *)
Definition themeEffect (theme color gridColor : string) : string * string :=
  if (theme =? "dark")%string then
    (if (color =? "#000000")%string then "#ffffff" else color,
     if (gridColor =? "#cccccc")%string then "#333333" else gridColor)
  else
    (if (color =? "#ffffff")%string then "#000000" else color,
     if (gridColor =? "#333333")%string then "#cccccc" else gridColor).

Section View.
Context {num : Type} {NUM : JSNumber num}.

Local Open Scope js_scope.

(** [Math.min(a, b)]: NaN when an argument is NaN; [-0] is below [+0]. *)
Definition Math_min (a b : num) : num :=
  if a !== a then a
  else if b !== b then b
  else if a === b then (if a === js_lit 0 then - ((- a) + (- b)) else a)
  else if a <? b then a else b.

(** The zoom shortcuts of [handleKeyDown]: the zoom after the key.  The
    literals 0.1 and 0.5 are the quotients 1 / 10 and 1 / 2, which binary64
    rounds to the numbers the literals denote. *)
Definition zoomShortcut (e : KeyboardEvent.t) (zoom : num) : num :=
  if KeyboardEvent.target_is_text_field e then zoom
  else
    let ctrlOrMeta := KeyboardEvent.ctrlKey e || KeyboardEvent.metaKey e in
    if ctrlOrMeta && (KeyboardEvent.key e =? "0")%string then js_lit 1
    else if ctrlOrMeta && (KeyboardEvent.key e =? "=")%string
    then Math_min (zoom + js_lit 1 / js_lit 10) (js_lit 3)
    else if ctrlOrMeta && (KeyboardEvent.key e =? "-")%string
    then Math_max (zoom - js_lit 1 / js_lit 10) (js_lit 1 / js_lit 2)
    else zoom.

(** [getMouseCoordinates], for a canvas whose bounding rectangle starts at
    [(left, top)]. *)
Definition getMouseCoordinates (clientX clientY left top zoom : num)
  : Point.t num :=
  Point.mk ((clientX - left) / zoom) ((clientY - top) / zoom).

(** [handleSave] writes [JSON.stringify(elements)] to a file and
    [handleImport] installs [JSON.parse] of the text of a file: the document
    that parsing a saved scene gives. *)
Definition savedDocument (elements : list (Element.t num))
  : list (Element.t num) :=
  map JSON_clone elements.

End View.

(** A key pressed alone, outside a text field; a binary64 number that is
    NaN. *)
Definition plainKey (k : string) : KeyboardEvent.t :=
  KeyboardEvent.mk k false false false false false.

Definition isNaN (f : float) : Prop := Prim2SF f = S754_nan.


(** ** Further examples *)

(** A history with one scene to undo and one to redo. *)
Definition historyF : History.t float :=
  History.mk [[rectA]] [rectA; rectB] [[rectA; rectB; rectC]].

Definition emptyHistoryF : History.t float := History.mk [] [] [].

(** A scene with a selected rectangle, the rectangle tool chosen. *)
Definition selectedRect : Element.t float := rectF "a" 0 0 10 10 (Some true).

Definition drawingOverSelection : State.t float :=
  State.setTool rectangle (sceneF [selectedRect; rectB]).

(** A circle of radius 20 at (50, 50) and the text that the text tool puts
    at (10, 100), in exact arithmetic. *)
Definition circleI : Element.t ideal :=
  Element.mk "c" circle (idl 50) (idl 50) None None (Some (idl 20)) None None
    "transparent" "#000000" (idl 2) false None (Some (idl 0)).

Definition textI : Element.t ideal :=
  newText "t" (idl 10) (idl 100) (initialState "#000000").

Definition oneText : State.t ideal := sceneI [textI].

(** The square, the circle and the text after a click on them, and the
    square after a pointer-down on its top-left handle that follows. *)
Definition clickedSquare : State.t ideal :=
  handleMouseUp (handleMouseDown "t" (mouseI 50 50) oneSquare).

Definition clickedCircle : State.t ideal :=
  handleMouseUp (handleMouseDown "t" (mouseI 50 50) (sceneI [circleI])).

Definition clickedText : State.t ideal :=
  handleMouseUp (handleMouseDown "t" (mouseI 12 95) oneText).

Definition resizingSquare : State.t ideal :=
  handleMouseDown "u" (mouseI 0 0) clickedSquare.

(** The square of [oneSquare] being moved, the pointer having gone down at
    (0, 0). *)
Definition movingSquare : State.t ideal :=
  State.setStartPoint (Some (Point.mk (IFin 0) (IFin 0)))
    (State.setAction moving
       (sceneI [rectI "a" 0 0 100 100 (Some true)])).

(* ================================================================== *)
(** * 5. Properties *)
(* ================================================================== *)

(** ** Lists *)

Lemma slice_last_short : forall (A : Type) (n : nat) (l : list A),
  (List.length l <= n)%nat -> slice_last n l = l.
Proof.
  intros A n l H. unfold slice_last.
  replace (List.length l - n)%nat with 0%nat by lia. reflexivity.
Qed.

Lemma slice_last_length : forall (A : Type) (n : nat) (l : list A),
  (List.length (slice_last n l) <= n)%nat.
Proof.
  intros A n l. unfold slice_last. rewrite length_skipn. lia.
Qed.

Lemma slice_last_snoc : forall (A : Type) (n : nat) (l : list A) (a : A),
  (1 <= n)%nat ->
  slice_last n (l ++ [a]) = slice_last (n - 1) l ++ [a].
Proof.
  intros A n l a Hn. unfold slice_last.
  rewrite length_app, skipn_app. simpl.
  replace (List.length l + 1 - n)%nat with (List.length l - (n - 1))%nat by lia.
  replace (List.length l - (n - 1) - List.length l)%nat with 0%nat by lia.
  reflexivity.
Qed.

Lemma slice_last_Forall : forall (A : Type) (P : A -> Prop) (n : nat)
  (l : list A), Forall P l -> Forall P (slice_last n l).
Proof.
  intros A P n l H. unfold slice_last.
  rewrite <- (firstn_skipn (List.length l - n) l) in H.
  apply Forall_app in H. tauto.
Qed.

Lemma firstn_Forall : forall (A : Type) (P : A -> Prop) (n : nat)
  (l : list A), Forall P l -> Forall P (firstn n l).
Proof.
  intros A P n l H.
  rewrite <- (firstn_skipn n l) in H.
  apply Forall_app in H. tauto.
Qed.

Lemma nth_error_snoc_last : forall (A : Type) (l : list A) (a : A),
  nth_error (l ++ [a]) (List.length (l ++ [a]) - 1) = Some a.
Proof.
  intros A l a. rewrite length_app. simpl.
  replace (List.length l + 1 - 1)%nat with (List.length l) by lia.
  rewrite nth_error_app2 by lia.
  replace (List.length l - List.length l)%nat with 0%nat by lia.
  reflexivity.
Qed.

Lemma firstn_snoc_last : forall (A : Type) (l : list A) (a : A),
  firstn (List.length (l ++ [a]) - 1) (l ++ [a]) = l.
Proof.
  intros A l a. rewrite length_app. simpl.
  replace (List.length l + 1 - 1)%nat with (List.length l) by lia.
  rewrite firstn_app, firstn_all.
  replace (List.length l - List.length l)%nat with 0%nat by lia.
  simpl. apply app_nil_r.
Qed.

(** ** History *)

Section HistoryFacts.
Context {num : Type}.
Implicit Type h : History.t num.
Implicit Type S : list (Element.t num).

Lemma handleUndo_snoc : forall past0 last S fut,
  handleUndo (History.mk (past0 ++ [last]) S fut) =
  History.mk past0 last (firstn MAX_HISTORY_LENGTH (S :: fut)).
Proof.
  intros past0 last S fut. unfold handleUndo. cbn [History.past History.present History.future].
  destruct (Nat.eqb_spec (List.length (past0 ++ [last])) 0) as [E | _].
  - rewrite length_app in E. simpl in E. lia.
  - rewrite nth_error_snoc_last, firstn_snoc_last. reflexivity.
Qed.

Lemma updateHistory_past : forall S h,
  History.past (updateHistory S h) =
  slice_last (MAX_HISTORY_LENGTH - 1) (History.past h) ++ [History.present h].
Proof.
  intros S h. unfold updateHistory. cbn [History.past].
  apply slice_last_snoc. unfold MAX_HISTORY_LENGTH. lia.
Qed.

Lemma handleUndo_updateHistory : forall S h,
  handleUndo (updateHistory S h) =
  History.mk (slice_last (MAX_HISTORY_LENGTH - 1) (History.past h))
    (History.present h) [S].
Proof.
  intros S h.
  pose proof (updateHistory_past S h) as Hp.
  unfold updateHistory in *. cbn [History.past] in Hp. rewrite Hp.
  rewrite handleUndo_snoc. reflexivity.
Qed.

Lemma handleUndo_future : forall h,
  History.future (handleUndo h) =
  match History.past h with
  | [] => History.future h
  | _ :: _ =>
      firstn MAX_HISTORY_LENGTH (History.present h :: History.future h)
  end.
Proof.
  intros [p s f]. destruct p as [ | a p0 _ ] using rev_ind.
  - reflexivity.
  - rewrite handleUndo_snoc. cbn [History.future History.past History.present].
    destruct (p0 ++ [a]) eqn:E; [ destruct p0; discriminate | reflexivity ].
Qed.

Lemma handleRedo_future : forall h,
  History.future (handleRedo h) = tl (History.future h).
Proof.
  intros [p s f]. unfold handleRedo. cbn [History.future].
  destruct f; reflexivity.
Qed.

(** C1: for every history state and every scene [S], committing [S] and
    undoing gives back the present scene of before the commit, and a redo
    after that undo gives back the committed state, whose present scene is
    [S]: the scenes are equal as values, field by field. *)
Theorem undo_redo_inverse : forall h S,
  History.present (handleUndo (updateHistory S h)) = History.present h /\
  History.present (handleRedo (handleUndo (updateHistory S h))) = S /\
  handleRedo (handleUndo (updateHistory S h)) = updateHistory S h.
Proof.
  intros h S. rewrite handleUndo_updateHistory.
  split; [ reflexivity | ].
  assert (E : handleRedo
                (History.mk (slice_last (MAX_HISTORY_LENGTH - 1) (History.past h))
                   (History.present h) [S]) = updateHistory S h).
  { unfold handleRedo. cbn [History.future History.past History.present].
    unfold updateHistory at 1. f_equal.
    rewrite <- updateHistory_past with (S := S).
    apply slice_last_short. unfold updateHistory. cbn [History.past].
    apply slice_last_length. }
  rewrite E. split; reflexivity.
Qed.

End HistoryFacts.

Section Commits.
Context {num : Type} {NUM : JSNumber num}.

(** C5: a commit empties [future], be it [updateHistory] or the commit of
    a gesture on pointer-up; a live edit keeps it; undo leaves it as it is
    (empty past) or puts the present scene in front of it, so never empties
    it; redo removes the one scene it restores and keeps the rest; and
    after an undo followed by a commit, redo changes nothing. *)
Theorem future_cleared_by_commit_only :
  forall (st : State.t num) (h : History.t num) (S : list (Element.t num)),
  History.future (updateHistory S h) = [] /\
  History.future (State.history (handleMouseUp (State.setAction drawing st))) = [] /\
  History.future (State.history (handleMouseUp (State.setAction moving st))) = [] /\
  History.future (State.history (handleMouseUp (State.setAction resizing st))) = [] /\
  History.future (setPresent S h) = History.future h /\
  History.future (handleUndo h) =
    match History.past h with
    | [] => History.future h
    | _ :: _ =>
        History.present h ::
        firstn (MAX_HISTORY_LENGTH - 1) (History.future h)
    end /\
  History.future (handleRedo h) = tl (History.future h) /\
  handleRedo (updateHistory S (handleUndo h)) = updateHistory S (handleUndo h).
Proof.
  intros st h S. repeat split.
  - rewrite handleUndo_future. destruct (History.past h); reflexivity.
  - apply handleRedo_future.
Qed.

End Commits.

(** ** Geometry kernel *)

(** ** Exact arithmetic facts *)

Lemma Rltb_true_iff : forall a b : R, Rltb a b = true <-> (a < b)%R.
Proof.
  intros a b. unfold Rltb. destruct (Rlt_dec a b); split; intros; try easy.
Qed.

Lemma Rleb_true_iff : forall a b : R, Rleb a b = true <-> (a <= b)%R.
Proof.
  intros a b. unfold Rleb. destruct (Rle_dec a b); split; intros; try easy.
Qed.

Lemma Rltb_false : forall a b : R, (b <= a)%R -> Rltb a b = false.
Proof.
  intros a b H. unfold Rltb. destruct (Rlt_dec a b); [ lra | reflexivity ].
Qed.

Lemma Reqb_false : forall a b : R, a <> b -> Reqb a b = false.
Proof.
  intros a b H. unfold Reqb. destruct (Req_dec_T a b); [ contradiction | reflexivity ].
Qed.

Section Perpendicular.
Variables x0 y0 x1 y1 px py : R.

Let dx : R := (x1 - x0)%R.
Let dy : R := (y1 - y0)%R.
Let len2 : R := (dx * dx + dy * dy)%R.
Let cross : R := (dy * px - dx * py + x1 * y0 - y1 * x0)%R.

Hypothesis distinct_endpoints : x0 <> x1 \/ y0 <> y1.

Lemma len2_pos : (0 < len2)%R.
Proof.
  unfold len2, dx, dy.
  pose proof (Rle_0_sqr (x1 - x0)) as Hx. pose proof (Rle_0_sqr (y1 - y0)) as Hy.
  destruct distinct_endpoints as [H | H].
  - assert (Hn : (x1 - x0 <> 0)%R) by lra.
    apply Rsqr_pos_lt in Hn. unfold Rsqr in *. lra.
  - assert (Hn : (y1 - y0 <> 0)%R) by lra.
    apply Rsqr_pos_lt in Hn. unfold Rsqr in *. lra.
Qed.

Lemma sqrt_len2_pos : (0 < R_sqrt.sqrt len2)%R.
Proof. apply sqrt_lt_R0, len2_pos. Qed.

(** The foot of the perpendicular is at distance [|cross| / length]. *)
Lemma distance_at_foot :
  distanceToLinePoint x0 y0 x1 y1 px py
    (((px - x0) * dx + (py - y0) * dy) / len2) =
  (Rabs cross / R_sqrt.sqrt len2)%R.
Proof.
  pose proof len2_pos as Hl.
  unfold distanceToLinePoint.
  replace (Rsqr (px - (x0 + ((px - x0) * dx + (py - y0) * dy) / len2 * (x1 - x0))) +
           Rsqr (py - (y0 + ((px - x0) * dx + (py - y0) * dy) / len2 * (y1 - y0))))%R
    with (Rsqr cross / len2)%R.
  - rewrite sqrt_div_alt by exact Hl. rewrite sqrt_Rsqr_abs. reflexivity.
  - unfold Rsqr, cross, len2, dx, dy in *. field. lra.
Qed.

(** No point of the line is nearer. *)
Lemma distance_at_least : forall t : R,
  (Rabs cross / R_sqrt.sqrt len2 <=
   distanceToLinePoint x0 y0 x1 y1 px py t)%R.
Proof.
  intros t. pose proof len2_pos as Hl. pose proof sqrt_len2_pos as Hs.
  unfold distanceToLinePoint.
  set (d2 := (Rsqr (px - (x0 + t * (x1 - x0))) + Rsqr (py - (y0 + t * (y1 - y0))))%R).
  assert (Hd : (0 <= d2)%R) by (unfold d2; pose proof (Rle_0_sqr (px - (x0 + t * (x1 - x0)))); pose proof (Rle_0_sqr (py - (y0 + t * (y1 - y0)))); lra).
  assert (H : (Rabs cross <= R_sqrt.sqrt d2 * R_sqrt.sqrt len2)%R).
  { rewrite <- sqrt_mult by lra.
    rewrite <- sqrt_Rsqr_abs.
    apply sqrt_le_1_alt.
    set (dot := ((px - (x0 + t * (x1 - x0))) * (x1 - x0) +
                 (py - (y0 + t * (y1 - y0))) * (y1 - y0))%R).
    assert (Hid : (d2 * len2 = Rsqr cross + Rsqr dot)%R)
      by (unfold d2, dot, Rsqr, cross, len2, dx, dy; ring).
    rewrite Hid. pose proof (Rle_0_sqr dot). lra. }
  apply (Rmult_le_reg_r (R_sqrt.sqrt len2)); [ exact Hs | ].
  replace (Rabs cross / R_sqrt.sqrt len2 * R_sqrt.sqrt len2)%R
    with (Rabs cross) by (field; lra).
  exact H.
Qed.

Lemma perpendicular_distance_lt : forall bound : R,
  (Rabs cross / R_sqrt.sqrt len2 < bound)%R <->
  exists t : R, (distanceToLinePoint x0 y0 x1 y1 px py t < bound)%R.
Proof.
  intros bound. split.
  - intros H. eexists. rewrite distance_at_foot. exact H.
  - intros [t Ht]. pose proof (distance_at_least t). lra.
Qed.

End Perpendicular.

Lemma line_hit_test_exact :
  forall (element : Element.t ideal) (x0 y0 x1 y1 : R)
    (rest : list (Point.t ideal)) (px py : R),
  is_line_or_arrow element = true ->
  Element.points element =
    Some (Point.mk (IFin x0) (IFin y0) :: Point.mk (IFin x1) (IFin y1) :: rest) ->
  x0 <> x1 \/ y0 <> y1 ->
  isPointInElement (IFin px) (IFin py) element =
  Rltb (Rabs ((y1 - y0) * px - (x1 - x0) * py + x1 * y0 - y1 * x0) /
        R_sqrt.sqrt ((x1 - x0) * (x1 - x0) + (y1 - y0) * (y1 - y0))) 10.
Proof.
  intros element x0 y0 x1 y1 rest px py Ht Hp Hd.
  pose proof (len2_pos x0 y0 x1 y1 Hd) as Hl.
  pose proof (sqrt_len2_pos x0 y0 x1 y1 Hd) as Hs.
  unfold isPointInElement. unfold is_line_or_arrow in Ht. rewrite Hp.
  assert (E :
    js_lt
      (js_div
         (Math_abs
            (js_sub
               (js_add
                  (js_sub (js_mul (js_sub (IFin y1) (IFin y0)) (IFin px))
                          (js_mul (js_sub (IFin x1) (IFin x0)) (IFin py)))
                  (js_mul (IFin x1) (IFin y0)))
               (js_mul (IFin y1) (IFin x0))))
         (Math_sqrt
            (js_add (Math_pow_2 (js_sub (IFin x1) (IFin x0)))
                    (Math_pow_2 (js_sub (IFin y1) (IFin y0))))))
      (js_lit 10) =
    Rltb (Rabs ((y1 - y0) * px - (x1 - x0) * py + x1 * y0 - y1 * x0) /
          R_sqrt.sqrt ((x1 - x0) * (x1 - x0) + (y1 - y0) * (y1 - y0))) 10).
  { cbn. fold (Rminus x1 x0). fold (Rminus y1 y0).
    rewrite (Rltb_false _ 0) by lra.
    rewrite Reqb_false by lra.
    reflexivity. }
  destruct (Element.type element); try discriminate; exact E.
Qed.

(** C7 (as the code has it): for a line or an arrow with two distinct
    endpoints, in exact arithmetic (the formula of the hit test evaluated on
    real numbers, without the rounding and the overflow of binary64), the
    hit test is true exactly when some point of the infinite
    line through the endpoints (any parameter [t], within the segment or
    beyond it) is at a distance below 10 from the query point, that is when
    the perpendicular distance is below 10; points after the second do not
    count.  In binary64, for the line from (0,0) to (100,0): (50,9) is a
    hit, (50,11) and (50,10) are not, and (1000,9), far beyond the end of
    the segment, is a hit. *)
Theorem line_hit_test_perpendicular_distance :
  forall (element : Element.t ideal) (x0 y0 x1 y1 : R)
    (rest : list (Point.t ideal)) (px py : R),
  is_line_or_arrow element = true ->
  Element.points element =
    Some (Point.mk (IFin x0) (IFin y0) :: Point.mk (IFin x1) (IFin y1) :: rest) ->
  x0 <> x1 \/ y0 <> y1 ->
  (isPointInElement (IFin px) (IFin py) element = true <->
   exists t : R, (distanceToLinePoint x0 y0 x1 y1 px py t < 10)%R) /\
  isPointInElement (flt 50) (flt 9) (lineF "1" 0 0 100 0) = true /\
  isPointInElement (flt 50) (flt 11) (lineF "1" 0 0 100 0) = false /\
  isPointInElement (flt 50) (flt 10) (lineF "1" 0 0 100 0) = false /\
  isPointInElement (flt 1000) (flt 9) (lineF "1" 0 0 100 0) = true.
Proof.
  intros element x0 y0 x1 y1 rest px py Ht Hp Hd.
  split; [ | repeat split; vm_compute; reflexivity ].
  rewrite (line_hit_test_exact element x0 y0 x1 y1 rest px py Ht Hp Hd).
  rewrite Rltb_true_iff.
  apply (perpendicular_distance_lt x0 y0 x1 y1 px py Hd 10%R).
Qed.

Lemma line_hit_test_perpendicular_distance_witness :
  (isPointInElement (IFin 50) (IFin 9) (lineI "1" 0 0 100 0) = true <->
   exists t : R, (distanceToLinePoint 0 0 100 0 50 9 t < 10)%R) /\
  isPointInElement (flt 50) (flt 9) (lineF "1" 0 0 100 0) = true /\
  isPointInElement (flt 50) (flt 11) (lineF "1" 0 0 100 0) = false /\
  isPointInElement (flt 50) (flt 10) (lineF "1" 0 0 100 0) = false /\
  isPointInElement (flt 1000) (flt 9) (lineF "1" 0 0 100 0) = true.
Proof.
  apply (line_hit_test_perpendicular_distance (lineI "1" 0 0 100 0)
           0 0 100 0 [] 50 9);
    [ reflexivity | reflexivity | left; lra ].
Defined.

(** C7, as stated, fails in binary64, where the formula is evaluated with
    rounding and overflow.  The point (14.142135623730949, 0), whose abscissa
    is the binary64 number 7961314590657215 / 2^49, is at a distance below
    10 from the line through (0,0) and (3,3), and is not hit: the computed
    quotient rounds to 10.  The point (0, 2^300) is at the distance 2^300
    from the line through (0,0) and (2^600, 0), and is hit: the squared
    length overflows to infinity and the quotient is 0. *)
Lemma line_hit_test_binary64_counterexample :
  Prim2SF belowTenRootTwo = S754_finite false 7961314590657215 (-49) /\
  (exists t : R,
     (distanceToLinePoint 0 0 3 3 (7961314590657215 / 2 ^ 49) 0 t < 10)%R) /\
  isPointInElement belowTenRootTwo (flt 0) (lineF "1" 0 0 3 3) = false /\
  Prim2SF twoTo300 = S754_finite false 4503599627370496 248 /\
  Prim2SF twoTo600 = S754_finite false 4503599627370496 548 /\
  (forall t : R,
     (10 <= distanceToLinePoint 0 0 (2 ^ 600) 0 0 (2 ^ 300) t)%R) /\
  isPointInElement (flt 0) twoTo300 (lineTo twoTo600 (flt 0)) = true.
Proof.
  split; [ vm_compute; reflexivity | ].
  split.
  { apply (perpendicular_distance_lt 0 0 3 3 (7961314590657215 / 2 ^ 49) 0).
    - left. lra.
    - set (r := (7961314590657215 / 2 ^ 49)%R).
      assert (Hr : (0 < r)%R) by (unfold r; lra).
      assert (Hr2 : (r * r < 200)%R) by (unfold r; lra).
      replace ((3 - 0) * r - (3 - 0) * 0 + 3 * 0 - 3 * 0)%R with (3 * r)%R
        by ring.
      replace ((3 - 0) * (3 - 0) + (3 - 0) * (3 - 0))%R with 18%R by ring.
      rewrite Rabs_right by lra.
      assert (Hs : (0 < R_sqrt.sqrt 18)%R) by (apply sqrt_lt_R0; lra).
      apply (Rmult_lt_reg_r (R_sqrt.sqrt 18)); [ exact Hs | ].
      replace (3 * r / R_sqrt.sqrt 18 * R_sqrt.sqrt 18)%R with (3 * r)%R
        by (field; lra).
      apply Rsqr_incrst_0; [ | lra | nra ].
      unfold Rsqr.
      replace (10 * R_sqrt.sqrt 18 * (10 * R_sqrt.sqrt 18))%R
        with (100 * (R_sqrt.sqrt 18 * R_sqrt.sqrt 18))%R by ring.
      rewrite sqrt_sqrt by lra. lra. }
  split; [ vm_compute; reflexivity | ].
  split; [ vm_compute; reflexivity | ].
  split; [ vm_compute; reflexivity | ].
  split; [ | vm_compute; reflexivity ].
  intros t.
  assert (H300 : (10 <= 2 ^ 300)%R).
  { change 300%nat with (4 + 296)%nat. rewrite pow_add.
    assert (1 <= 2 ^ 296)%R by (apply pow_R1_Rle; lra).
    replace (2 ^ 4)%R with 16%R by (simpl; ring). nra. }
  unfold distanceToLinePoint.
  apply Rsqr_incr_0_var; [ | apply sqrt_pos ].
  rewrite Rsqr_sqrt.
  - pose proof (Rle_0_sqr (0 - (0 + t * (2 ^ 600 - 0)))) as H1.
    replace (2 ^ 300 - (0 + t * (0 - 0)))%R with (2 ^ 300)%R by ring.
    unfold Rsqr in *. nra.
  - pose proof (Rle_0_sqr (0 - (0 + t * (2 ^ 600 - 0)))).
    pose proof (Rle_0_sqr (2 ^ 300 - (0 + t * (0 - 0)))). lra.
Qed.

(** ** Binary64 facts *)

Lemma SFsub_equal : forall a b : spec_float,
  SFeqb a b = true ->
  (exists s, SF64sub b a = S754_zero s) \/ SF64sub b a = S754_nan.
Proof.
  intros a b H. unfold SFeqb, SFcompare in H.
  destruct a as [ s1 | s1 | | s1 m1 e1 ], b as [ s2 | s2 | | s2 m2 e2 ];
    try discriminate;
    try (destruct s1; discriminate); try (destruct s2; discriminate).
  - left. destruct s1, s2; eexists; reflexivity.
  - right. destruct s1, s2; try discriminate; reflexivity.
  - assert (E : s1 = s2 /\ e1 = e2 /\ m1 = m2).
    { rewrite Pos.compare_cont_spec in H. unfold Pos.switch_Eq in H.
      destruct s1, s2; try discriminate;
        destruct (Z.compare_spec e1 e2); try discriminate;
        destruct (Pos.compare_spec m1 m2); try discriminate;
        repeat split; assumption. }
    destruct E as (-> & -> & ->).
    left. exists false. unfold SF64sub, SFsub. rewrite Z.sub_diag. reflexivity.
Qed.

Lemma float_sub_diag : forall a : float, signed_zero_or_nan (PrimFloat.sub a a).
Proof.
  intros a. unfold signed_zero_or_nan. rewrite FloatAxioms.sub_spec.
  destruct (Prim2SF a) as [ s | s | | s m e ].
  - left. exists false. destruct s; reflexivity.
  - right. destruct s; reflexivity.
  - right. reflexivity.
  - left. exists false. unfold SF64sub, SFsub. rewrite Z.sub_diag. reflexivity.
Qed.

Lemma float_sub_equal : forall a b : float,
  a = b \/ PrimFloat.eqb a b = true ->
  signed_zero_or_nan (PrimFloat.sub b a).
Proof.
  intros a b [ -> | H ]; [ apply float_sub_diag | ].
  unfold signed_zero_or_nan. rewrite FloatAxioms.sub_spec.
  apply SFsub_equal. rewrite <- FloatAxioms.eqb_spec. exact H.
Qed.

(** The square of a zero is [+0]. *)
Lemma float_square_zero_or_nan : forall a : float,
  signed_zero_or_nan a -> zero_or_nan (PrimFloat.mul a a).
Proof.
  intros a [ [s Ha] | Ha ]; unfold zero_or_nan;
    rewrite FloatAxioms.mul_spec, Ha; cbn; [ left | right ];
    try destruct s; reflexivity.
Qed.

Lemma float_add_zero_or_nan : forall a b : float,
  zero_or_nan a -> zero_or_nan b -> zero_or_nan (PrimFloat.add a b).
Proof.
  intros a b [Ha | Ha] [Hb | Hb]; unfold zero_or_nan;
    rewrite FloatAxioms.add_spec, Ha, Hb; cbn; tauto.
Qed.

Lemma float_sqrt_zero_or_nan : forall a : float,
  zero_or_nan a -> zero_or_nan (PrimFloat.sqrt a).
Proof.
  intros a [Ha | Ha]; unfold zero_or_nan; rewrite FloatAxioms.sqrt_spec, Ha; cbn; tauto.
Qed.

(** A magnitude divided by [+0] or by NaN is NaN or [+infinity]. *)
Lemma float_div_abs_zero_or_nan : forall n d : float,
  zero_or_nan d ->
  Prim2SF (PrimFloat.div (PrimFloat.abs n) d) = S754_nan \/
  Prim2SF (PrimFloat.div (PrimFloat.abs n) d) = S754_infinity false.
Proof.
  intros n d [Hd | Hd]; rewrite FloatAxioms.div_spec, FloatAxioms.abs_spec, Hd;
    destruct (Prim2SF n) as [ s | s | | s m e ]; cbn; tauto.
Qed.

Lemma float_ltb_nan_or_infinity : forall r : float,
  Prim2SF r = S754_nan \/ Prim2SF r = S754_infinity false ->
  PrimFloat.ltb r (flt 10) = false.
Proof.
  intros r [Hr | Hr]; rewrite FloatAxioms.ltb_spec, Hr; reflexivity.
Qed.

(** C10: a line or arrow whose first two points coincide is hit by no
    point: in binary64 the length is [+0] (or NaN when a coordinate is not
    finite), the quotient is NaN or [+infinity], and the comparison with 10
    is false.  The function is total: nothing is raised. *)
Theorem degenerate_segment_never_hit :
  forall (element : Element.t float) (start end' : Point.t float)
    (rest : list (Point.t float)) (x y : float),
  is_line_or_arrow element = true ->
  Element.points element = Some (start :: end' :: rest) ->
  coincide start end' ->
  isPointInElement x y element = false.
Proof.
  intros element start end' rest x y Ht Hp Hc.
  assert (Hx : signed_zero_or_nan (PrimFloat.sub (Point.x end') (Point.x start)) /\
               signed_zero_or_nan (PrimFloat.sub (Point.y end') (Point.y start))).
  { destruct Hc as [ -> | Hc ].
    - split; apply float_sub_diag.
    - apply andb_prop in Hc. destruct Hc as [Hcx Hcy].
      split; apply float_sub_equal; right; assumption. }
  destruct Hx as [Hx Hy].
  unfold isPointInElement. unfold is_line_or_arrow in Ht. rewrite Hp.
  assert (E : forall n,
    js_lt (js_div (Math_abs n)
             (Math_sqrt
                (js_add (Math_pow_2 (js_sub (Point.x end') (Point.x start)))
                        (Math_pow_2 (js_sub (Point.y end') (Point.y start))))))
          (js_lit 10) = false).
  { intros n. apply float_ltb_nan_or_infinity, float_div_abs_zero_or_nan.
    apply float_sqrt_zero_or_nan, float_add_zero_or_nan;
      apply float_square_zero_or_nan; assumption. }
  destruct (Element.type element); try discriminate; apply E.
Qed.

Lemma degenerate_segment_never_hit_witness :
  isPointInElement (flt 7) (flt 7) seededLine = false.
Proof.
  apply (degenerate_segment_never_hit seededLine
           (Point.mk (flt 7) (flt 7)) (Point.mk (flt 7) (flt 7)) []
           (flt 7) (flt 7)); [ reflexivity | reflexivity | left; reflexivity ].
Defined.

(** C8: the rectangle with origin (10,10), width -5 and height -5 covers
    (5,5)-(10,10); the point (7,7) lies in it, yet the hit test misses it,
    while it hits the normalized rectangle (origin (5,5), width 5, height
    5).  The rectangle with origin (10,10), width -20 and height -20 covers
    (-10,-10)-(10,10), which the box (0,0)-(20,20) does not contain, yet the
    containment test accepts it, while it rejects the normalized
    rectangle. *)
Theorem negative_extents_not_normalized :
  normalized negativeRect = rectF "r" 5 5 5 5 None /\
  isPointInElement (flt 7) (flt 7) negativeRect = false /\
  isPointInElement (flt 7) (flt 7) (normalized negativeRect) = true /\
  normalized negativeRect20 = rectF "r" (-10) (-10) 20 20 None /\
  isElementInSelectionBox negativeRect20 box20 = true /\
  isElementInSelectionBox (normalized negativeRect20) box20 = false.
Proof. repeat split; vm_compute; reflexivity. Qed.

(** ** Clipboard *)

Lemma mapi_from_Forall2 : forall (A B : Type) (R : A -> B -> Prop)
  (f : A -> nat -> B) (l : list A) (i : nat),
  (forall a k, R a (f a k)) -> Forall2 R l (mapi_from i f l).
Proof.
  intros A B R f l. induction l as [ | a l IH ]; intros i H; simpl.
  - constructor.
  - constructor; [ apply H | apply IH, H ].
Qed.

Lemma length_mapi_from : forall (A B : Type) (f : A -> nat -> B) (l : list A)
  (i : nat), List.length (mapi_from i f l) = List.length l.
Proof.
  intros A B f l. induction l as [ | a l IH ]; intros i; simpl;
    [ reflexivity | rewrite IH; reflexivity ].
Qed.

Lemma nth_error_mapi_from : forall (A B : Type) (f : A -> nat -> B)
  (l : list A) (k i : nat),
  nth_error (mapi_from k f l) i =
  option_map (fun a => f a (k + i)%nat) (nth_error l i).
Proof.
  intros A B f l. induction l as [ | a l IH ]; intros k i.
  - destruct i; reflexivity.
  - destruct i as [ | i ]; simpl.
    + rewrite Nat.add_0_r. reflexivity.
    + rewrite IH. replace (S k + i)%nat with (k + S i)%nat by lia. reflexivity.
Qed.

Section ClipboardFacts.
Context {num : Type} {NUM : JSNumber num}.

Lemma pasteElement_spec : forall (newId : string) (el : Element.t num),
  Element.id (pasteElement newId el) = newId /\
  Element.type (pasteElement newId el) = Element.type el /\
  Element.x (pasteElement newId el) = js_add (Element.x el) (js_lit 20) /\
  Element.y (pasteElement newId el) = js_add (Element.y el) (js_lit 20) /\
  Element.selected (pasteElement newId el) = Some true /\
  Element.points (pasteElement newId el) =
    (if is_line_or_arrow el
     then option_map (map offsetPoint) (Element.points el)
     else option_map (map JSON_point) (Element.points el)).
Proof.
  intros newId el. unfold pasteElement, is_line_or_arrow.
  destruct (Element.type el) eqn:Et; destruct (Element.points el) eqn:Ep;
    cbn; rewrite ?Et, ?Ep; repeat split; reflexivity.
Qed.

(** The fields of a pasted copy, one by one. *)
Lemma pasteElement_fields : forall (newId : string) (source : Element.t num),
  pasteElement newId source =
  Element.mk newId (Element.type source)
    (js_add (Element.x source) (js_lit 20))
    (js_add (Element.y source) (js_lit 20))
    (option_map JSON_number (Element.width source))
    (option_map JSON_number (Element.height source))
    (option_map JSON_number (Element.radius source))
    (match Element.type source with
     | line | arrow =>
         option_map
           (map (fun point =>
                   Point.mk (js_add (Point.x point) (js_lit 20))
                            (js_add (Point.y point) (js_lit 20))))
           (Element.points source)
     | _ => option_map (map JSON_point) (Element.points source)
     end)
    (Element.text source) (Element.fill source) (Element.stroke source)
    (JSON_number (Element.strokeWidth source)) (Element.isDragging source)
    (Some true) (option_map JSON_number (Element.rotation source)).
Proof.
  intros newId [i t x y w h r pts txt f s sw d sel rot].
  unfold pasteElement. cbn.
  destruct t; destruct pts; reflexivity.
Qed.

(** C6: with a clipboard [c :: cs], the paste shortcut Ctrl+V commits once
    the scene made of every present element deselected (and otherwise as it
    was) followed by one copy per clipboard element, in the order of the
    clipboard.  The copy of [source] has a new id, is selected, has [x] and
    [y] of [source] plus 20 and, for a line or an arrow, every point of
    [source] plus 20 on both coordinates; its other fields are those of the
    JSON clone of [source].  The first copy becomes the primary selection
    and the clipboard is left as it was, so a second paste makes its copies
    from the same clipboard values, at the same +20/+20.  In binary64, a
    rectangle at (5,5) on the clipboard pasted twice gives two rectangles at
    (25,25), and a line from (5,5) to (30,45) pasted twice gives two lines
    from (25,25) to (50,65). *)
Theorem paste_offsets_from_clipboard :
  forall (st : State.t num) (c : Element.t num) (cs : list (Element.t num))
    (mint mint' : nat -> string),
  let st0 := State.setClipboard (c :: cs) st in
  let elements := History.present (State.history st0) in
  let st1 := handleKeyDown mint (ctrlKey "v") st0 in
  let st2 := handleKeyDown mint' (ctrlKey "v") st1 in
  let deselected (el : Element.t num) :=
    Element.mk (Element.id el) (Element.type el) (Element.x el) (Element.y el)
      (Element.width el) (Element.height el) (Element.radius el)
      (Element.points el) (Element.text el) (Element.fill el)
      (Element.stroke el) (Element.strokeWidth el) (Element.isDragging el)
      (Some false) (Element.rotation el) in
  let copyOf (newId : string) (source : Element.t num) :=
    Element.mk newId (Element.type source)
      (js_add (Element.x source) (js_lit 20))
      (js_add (Element.y source) (js_lit 20))
      (option_map JSON_number (Element.width source))
      (option_map JSON_number (Element.height source))
      (option_map JSON_number (Element.radius source))
      (match Element.type source with
       | line | arrow =>
           option_map
             (map (fun point =>
                     Point.mk (js_add (Point.x point) (js_lit 20))
                              (js_add (Point.y point) (js_lit 20))))
             (Element.points source)
       | _ => option_map (map JSON_point) (Element.points source)
       end)
      (Element.text source) (Element.fill source) (Element.stroke source)
      (JSON_number (Element.strokeWidth source)) (Element.isDragging source)
      (Some true) (option_map JSON_number (Element.rotation source)) in
  exists pasted pasted' : list (Element.t num),
    State.history st1 =
      updateHistory (map deselected elements ++ pasted) (State.history st0) /\
    List.length pasted = List.length (c :: cs) /\
    (forall (i : nat) (source : Element.t num),
       nth_error (c :: cs) i = Some source ->
       nth_error pasted i = Some (copyOf (mint i) source)) /\
    State.selectedElement st1 = Some (copyOf (mint 0%nat) c) /\
    State.clipboard st1 = c :: cs /\
    State.history st2 =
      updateHistory
        (map deselected (map deselected elements ++ pasted) ++ pasted')
        (State.history st1) /\
    List.length pasted' = List.length (c :: cs) /\
    (forall (i : nat) (source : Element.t num),
       nth_error (c :: cs) i = Some source ->
       nth_error pasted' i = Some (copyOf (mint' i) source)) /\
    map (fun el => (Element.x el, Element.y el))
      (History.present
         (State.history
            (handleKeyDown letters (ctrlKey "v")
               (handleKeyDown letters (ctrlKey "v") clipboardAt5)))) =
      [(flt 25, flt 25); (flt 25, flt 25)] /\
    map (fun el => (Element.type el, Element.points el, Element.width el))
      (History.present
         (State.history
            (handleKeyDown letters (ctrlKey "v")
               (handleKeyDown letters (ctrlKey "v") clipboardLineAt5)))) =
      [(line, Some [Point.mk (flt 25) (flt 25); Point.mk (flt 50) (flt 65)],
        Some (flt 0));
       (line, Some [Point.mk (flt 25) (flt 25); Point.mk (flt 50) (flt 65)],
        Some (flt 0))].
Proof.
  intros st c cs mint mint' st0 elements st1 st2 deselected copyOf.
  assert (Hd : forall l : list (Element.t num), deselectAll l = map deselected l).
  { intros l. reflexivity. }
  assert (Hn : forall (m : nat -> string) (i : nat) (source : Element.t num),
            nth_error (c :: cs) i = Some source ->
            nth_error (pasteElements m (c :: cs)) i = Some (copyOf (m i) source)).
  { intros m i source Hi. unfold pasteElements, mapi.
    rewrite nth_error_mapi_from, Hi. cbn [option_map Nat.add].
    rewrite pasteElement_fields. reflexivity. }
  assert (Hl : forall m : nat -> string,
            List.length (pasteElements m (c :: cs)) = List.length (c :: cs)).
  { intros m. unfold pasteElements, mapi. apply length_mapi_from. }
  exists (pasteElements mint (c :: cs)), (pasteElements mint' (c :: cs)).
  split; [ reflexivity | ].
  split; [ apply Hl | ].
  split; [ apply Hn | ].
  split; [ cbn; rewrite pasteElement_fields; reflexivity | ].
  split; [ reflexivity | ].
  split; [ reflexivity | ].
  split; [ apply Hl | ].
  split; [ apply Hn | ].
  split; vm_compute; reflexivity.
Qed.

End ClipboardFacts.

(** ** Pointer-down *)

Lemma find_first : forall (A : Type) (f : A -> bool) (before : list A)
  (a : A) (after : list A),
  forallb (fun b => negb (f b)) before = true -> f a = true ->
  find f (before ++ a :: after) = Some a.
Proof.
  intros A f before a after Hb Ha.
  induction before as [ | b before IH ]; simpl in *.
  - rewrite Ha. reflexivity.
  - apply andb_prop in Hb. destruct Hb as [Hb1 Hb2].
    apply negb_true_iff in Hb1. rewrite Hb1. apply IH, Hb2.
Qed.

Section PointerDown.
Context {num : Type} {NUM : JSNumber num}.

(** A pointer-down that misses the handles and hits [clicked] commits once
    and starts a move. *)
Lemma handleMouseDown_hit :
  forall (st : State.t num) (now : string) (e : MouseEvent.t num)
    (clicked : Element.t num),
  noHandleHit e st ->
  find (fun element => isPointInElement (MouseEvent.x e) (MouseEvent.y e) element)
       (History.present (State.history st)) = Some clicked ->
  State.action (handleMouseDown now e st) = moving /\
  State.startPoint (handleMouseDown now e st) =
    Some (Point.mk (MouseEvent.x e) (MouseEvent.y e)) /\
  exists scene,
    State.history (handleMouseDown now e st) =
    updateHistory scene (State.history st).
Proof.
  intros st now e clicked Hh Hf. unfold noHandleHit in Hh.
  unfold handleMouseDown.
  cbn [State.selectedElement State.history State.setMultiSelectMode].
  rewrite Hh, Hf.
  destruct (MouseEvent.altKey e).
  - cbn. repeat split. eexists. reflexivity.
  - destruct (negb (MouseEvent.shiftKey e) &&
              negb (truthy (Element.selected clicked))).
    + cbn. repeat split. eexists. reflexivity.
    + destruct (negb (truthy (Element.selected clicked)) ||
                negb (MouseEvent.shiftKey e));
        cbn; repeat split; eexists; reflexivity.
Qed.

(** C2 (as the code has it): when no handle of the selected element is hit
    and the down-point lies inside [clicked] and inside no element inserted
    before it, the pointer-down resolves the hit to [clicked], whatever the
    elements inserted after it and whatever the modifier keys: the scene is
    scanned in insertion order, so the earliest added element containing the
    point, the one painted below the others, is chosen.  It is the element
    the pointer-down acts on: a plain pointer-down selects it alone and makes
    it primary, with Shift its selection is toggled (and it becomes primary
    if it was not selected), with Alt a selected copy of it under the id
    [now] is appended and made primary; in each case a move starts. *)
Theorem pointer_down_hits_earliest_element :
  forall (st : State.t num) (now : string) (e : MouseEvent.t num)
    (before : list (Element.t num)) (clicked : Element.t num)
    (after : list (Element.t num)),
  noHandleHit e st ->
  History.present (State.history st) = before ++ clicked :: after ->
  forallb (fun el =>
             negb (isPointInElement (MouseEvent.x e) (MouseEvent.y e) el))
          before = true ->
  isPointInElement (MouseEvent.x e) (MouseEvent.y e) clicked = true ->
  let scene := before ++ clicked :: after in
  let st' := handleMouseDown now e st in
  State.action st' = moving /\
  State.startPoint st' = Some (Point.mk (MouseEvent.x e) (MouseEvent.y e)) /\
  (MouseEvent.altKey e = false -> MouseEvent.shiftKey e = false ->
   State.selectedElement st' = Some clicked /\
   History.present (State.history st') =
     map (fun el =>
            Element.with_selected
              (Some (Element.id el =? Element.id clicked)%string) el) scene) /\
  (MouseEvent.altKey e = false -> MouseEvent.shiftKey e = true ->
   State.selectedElement st' =
     (if truthy (Element.selected clicked) then State.selectedElement st
      else Some clicked) /\
   History.present (State.history st') =
     map (fun el =>
            if (Element.id el =? Element.id clicked)%string
            then Element.with_selected
                   (Some (negb (truthy (Element.selected el)))) el
            else el) scene) /\
  (MouseEvent.altKey e = true ->
   State.selectedElement st' =
     Some (Element.with_selected (Some true)
             (Element.with_id now (JSON_clone clicked))) /\
   History.present (State.history st') =
     map (fun el =>
            if MouseEvent.shiftKey e then el
            else Element.with_selected
                   (Some (Element.id el =? Element.id clicked)%string) el)
         scene ++
     [Element.with_selected (Some true)
        (Element.with_id now (JSON_clone clicked))]).
Proof.
  intros st now e before clicked after Hh Hp Hb Hc scene st'.
  assert (Hf : find (fun element =>
                       isPointInElement (MouseEvent.x e) (MouseEvent.y e) element)
                    (History.present (State.history st)) = Some clicked).
  { rewrite Hp. apply find_first; assumption. }
  assert (Hsame : forall el : Element.t num,
            Element.with_selected (Element.selected el) el = el).
  { intros []. reflexivity. }
  unfold noHandleHit in Hh. subst st'. unfold handleMouseDown.
  cbn [State.selectedElement State.history State.setMultiSelectMode].
  rewrite Hh, Hf, Hp. fold scene.
  destruct (MouseEvent.altKey e) eqn:Ea;
    destruct (MouseEvent.shiftKey e) eqn:Es;
    destruct (truthy (Element.selected clicked)) eqn:Et;
    cbn [negb andb orb]; cbn;
    (split; [ reflexivity | ]); (split; [ reflexivity | ]);
    (split; [ intros Ha' Hs'; try discriminate | ]);
    try (split; [ intros Ha' Hs'; try discriminate
                | intros Ha'; try discriminate ]).
  all: try (split; [ reflexivity | ]).
  all: try (apply map_ext; intros el;
            destruct (Element.id el =? Element.id clicked)%string;
            try rewrite Hsame; reflexivity).
  all: try (f_equal; apply map_ext; intros el; apply Hsame).
  all: try reflexivity.
Qed.

End PointerDown.

Lemma pointer_down_hits_earliest_element_witness :
  State.selectedElement (handleMouseDown "t" (mouseF 75 75) overlapping) =
    Some rectB /\
  History.present (State.history (handleMouseDown "t" (mouseF 75 75) overlapping)) =
    selectOnly rectB ([rectA] ++ rectB :: [rectC]) /\
  State.action (handleMouseDown "t" (mouseF 75 75) overlapping) = moving.
Proof.
  destruct (pointer_down_hits_earliest_element overlapping "t" (mouseF 75 75)
              [rectA] rectB [rectC]) as (Ha & _ & Hplain & _);
    [ reflexivity | reflexivity | reflexivity | reflexivity | ].
  destruct (Hplain eq_refl eq_refl) as [H1 H2].
  split; [ exact H1 | split; [ exact H2 | exact Ha ] ].
Defined.

(** C2, as stated, fails: (75,75) lies inside "b" and inside "c", added
    after "b" and painted above it; the pointer-down selects "b". *)
Lemma pointer_down_topmost_counterexample :
  isPointInElement (flt 75) (flt 75) rectB = true /\
  isPointInElement (flt 75) (flt 75) rectC = true /\
  State.selectedElement (handleMouseDown "t" (mouseF 75 75) overlapping) =
    Some rectB /\
  map (fun el => (Element.id el, Element.selected el))
    (History.present
       (State.history (handleMouseDown "t" (mouseF 75 75) overlapping))) =
  [("a", Some false); ("b", Some true); ("c", Some false)].
Proof. repeat split; vm_compute; reflexivity. Qed.

(** ** Drag gestures *)

Section Gestures.
Context {num : Type} {NUM : JSNumber num} {MATH : JSMath num}.

(** A pointer-move is a live edit: it writes the present scene only. *)
Lemma handleMouseMove_live :
  forall (e : MouseEvent.t num) (st : State.t num),
  History.past (State.history (handleMouseMove e st)) =
    History.past (State.history st) /\
  History.future (State.history (handleMouseMove e st)) =
    History.future (State.history st) /\
  State.action (handleMouseMove e st) = State.action st.
Proof.
  intros e st. unfold handleMouseMove.
  destruct (State.action st) eqn:Ea; destruct (State.startPoint st) eqn:Es;
    try (repeat split; assumption).
  - (* drawing *)
    destruct (nth_error _ _); [ | repeat split; assumption ].
    destruct (State.tool st); try (repeat split; assumption);
      try (cbn; repeat split; assumption);
      destruct (Element.points t0); cbn; repeat split; assumption.
  - (* moving *)
    destruct (State.selectedElement st) as [ sel | ];
      [ destruct (truthy (Element.selected sel));
        [ destruct (find _ _) | ] | ];
      cbn; repeat split; assumption.
  - (* resizing *)
    destruct (State.selectedElement st) as [ sel | ];
      [ destruct (State.activeHandle st) as [ h | ] | ];
      try (repeat split; assumption).
    destruct (find _ _); cbn; repeat split; assumption.
  - (* selecting *)
    destruct (State.selectionBox st); cbn; repeat split; assumption.
Qed.

Lemma handleMouseMoves_live :
  forall (moves : list (MouseEvent.t num)) (st : State.t num),
  let st' := fold_left (fun s e => handleMouseMove e s) moves st in
  History.past (State.history st') = History.past (State.history st) /\
  History.future (State.history st') = History.future (State.history st) /\
  State.action st' = State.action st.
Proof.
  intros moves. induction moves as [ | e moves IH ]; intros st; simpl.
  - repeat split.
  - destruct (IH (handleMouseMove e st)) as (Hp & Hf & Ha).
    destruct (handleMouseMove_live e st) as (Hp' & Hf' & Ha').
    rewrite Hp, Hf, Ha. repeat split; assumption.
Qed.

(** A pointer-up that ends a move puts the present scene on [past]. *)
Lemma handleMouseUp_moving : forall st : State.t num,
  State.action st = moving ->
  State.history (handleMouseUp st) =
  History.mk
    (slice_last MAX_HISTORY_LENGTH
       (History.past (State.history st) ++ [History.present (State.history st)]))
    (History.present (State.history st)) [].
Proof.
  intros st Ha. unfold handleMouseUp. rewrite Ha. reflexivity.
Qed.

Lemma dragGesture_history :
  forall (st : State.t num) (now : string) (down : MouseEvent.t num)
    (moves : list (MouseEvent.t num)) (clicked : Element.t num),
  noHandleHit down st ->
  find (fun element =>
          isPointInElement (MouseEvent.x down) (MouseEvent.y down) element)
       (History.present (State.history st)) = Some clicked ->
  let afterDown := handleMouseDown now down st in
  let afterMoves := fold_left (fun s e => handleMouseMove e s) moves afterDown in
  let moved := History.present (State.history afterMoves) in
  History.past (State.history afterDown) =
    slice_last MAX_HISTORY_LENGTH
      (History.past (State.history st) ++ [History.present (State.history st)]) /\
  History.past (State.history afterMoves) =
    History.past (State.history afterDown) /\
  State.history (dragGesture now down moves st) =
    History.mk
      (slice_last MAX_HISTORY_LENGTH
         (History.past (State.history afterDown) ++ [moved]))
      moved [].
Proof.
  intros st now down moves clicked Hh Hf afterDown afterMoves moved.
  destruct (handleMouseDown_hit st now down clicked Hh Hf)
    as (Ha & _ & scene & Hs).
  destruct (handleMouseMoves_live moves afterDown) as (Hp & _ & Ham).
  fold afterMoves in Hp, Ham.
  split; [ unfold afterDown; rewrite Hs; reflexivity | ].
  split; [ exact Hp | ].
  unfold dragGesture. fold afterDown. fold afterMoves.
  rewrite handleMouseUp_moving by (rewrite Ham; exact Ha).
  rewrite Hp. reflexivity.
Qed.

(** C3 (as the code has it): a drag that starts on an element puts two
    scenes on [past], whatever the number of pointer-moves: the pointer-down
    commits the selection, which puts the scene of before the click there;
    the pointer-moves put nothing; the pointer-up puts the moved scene
    there, keeps it as the present scene, and empties [future]. *)
Theorem drag_gesture_two_history_entries :
  forall (st : State.t num) (now : string) (down : MouseEvent.t num)
    (moves : list (MouseEvent.t num)) (clicked : Element.t num),
  noHandleHit down st ->
  find (fun element =>
          isPointInElement (MouseEvent.x down) (MouseEvent.y down) element)
       (History.present (State.history st)) = Some clicked ->
  let afterDown := handleMouseDown now down st in
  let afterMoves := fold_left (fun s e => handleMouseMove e s) moves afterDown in
  let moved := History.present (State.history afterMoves) in
  History.past (State.history afterDown) =
    slice_last MAX_HISTORY_LENGTH
      (History.past (State.history st) ++ [History.present (State.history st)]) /\
  History.past (State.history afterMoves) =
    History.past (State.history afterDown) /\
  State.history (dragGesture now down moves st) =
    History.mk
      (slice_last MAX_HISTORY_LENGTH
         (History.past (State.history afterDown) ++ [moved]))
      moved [].
Proof. exact dragGesture_history. Qed.

End Gestures.

(** ** Evaluation in exact arithmetic *)

Ltac decide_reals :=
  unfold Rleb, Rltb, Reqb;
  repeat (match goal with
          | |- context [Rle_dec ?a ?b] => destruct (Rle_dec a b); try lra
          | |- context [Rlt_dec ?a ?b] => destruct (Rlt_dec a b); try lra
          | |- context [Req_dec_T ?a ?b] => destruct (Req_dec_T a b); try lra
          end; cbn).

Lemma squareI_hit :
  find (fun element => isPointInElement (idl 50) (idl 50) element)
       (History.present (State.history oneSquare)) = Some squareI.
Proof.
  cbn. decide_reals. reflexivity.
Qed.

Lemma drag_gesture_two_history_entries_witness :
  let afterDown := handleMouseDown "t" (mouseI 50 50) oneSquare in
  let afterMoves :=
    fold_left (fun s e => handleMouseMove e s) twoMoves afterDown in
  let moved := History.present (State.history afterMoves) in
  History.past (State.history afterDown) =
    slice_last MAX_HISTORY_LENGTH
      (History.past (State.history oneSquare) ++
       [History.present (State.history oneSquare)]) /\
  History.past (State.history afterMoves) =
    History.past (State.history afterDown) /\
  State.history (dragGesture "t" (mouseI 50 50) twoMoves oneSquare) =
    History.mk
      (slice_last MAX_HISTORY_LENGTH
         (History.past (State.history afterDown) ++ [moved]))
      moved [].
Proof.
  apply (drag_gesture_two_history_entries oneSquare "t" (mouseI 50 50)
           twoMoves squareI); [ reflexivity | exact squareI_hit ].
Defined.

(** C3, as stated, fails: from an empty [past], a pointer-down on the
    square, two pointer-moves and a pointer-up leave two scenes on [past],
    the one of before the click and the moved one. *)
Lemma drag_gesture_one_entry_counterexample :
  History.past (State.history oneSquare) = [] /\
  List.length
    (History.past
       (State.history (dragGesture "t" (mouseI 50 50) twoMoves oneSquare))) = 2%nat.
Proof.
  split; [ reflexivity | ].
  destruct (dragGesture_history oneSquare "t" (mouseI 50 50) twoMoves squareI
              eq_refl squareI_hit) as (Hd & _ & Hg).
  rewrite Hg, Hd. reflexivity.
Qed.

(** ** Invariants of the scenes the editor holds *)

Lemma mapi_from_sig : forall (num : Type)
  (f : Element.t num -> nat -> Element.t num) (l : list (Element.t num))
  (i : nat),
  (forall el k, sig (f el k) = sig el) ->
  map sig (mapi_from i f l) = map sig l.
Proof.
  intros num f l. induction l as [ | a l IH ]; intros i H; simpl.
  - reflexivity.
  - rewrite H, IH by exact H. reflexivity.
Qed.

Lemma map_sig : forall (num : Type) (f : Element.t num -> Element.t num)
  (l : list (Element.t num)),
  (forall el, sig (f el) = sig el) -> map sig (map f l) = map sig l.
Proof.
  intros num f l H. rewrite map_map. apply map_ext. exact H.
Qed.


Section SigFacts.
Context {num : Type} {NUM : JSNumber num} {MATH : JSMath num}.
Implicit Type el : Element.t num.

Lemma sig_JSON_clone : forall el, sig (JSON_clone el) = sig el.
Proof. reflexivity. Qed.

Lemma sig_moveElement : forall dx dy el, sig (moveElement dx dy el) = sig el.
Proof.
  intros dx dy el. unfold moveElement.
  destruct (truthy (Element.selected el)); [ | reflexivity ].
  destruct (Element.type el) eqn:Et; destruct (Element.points el) eqn:Ep;
    unfold sig; cbn; rewrite ?Et; reflexivity.
Qed.

Lemma sig_rotateElement : forall x y shift el,
  sig (rotateElement x y shift el) = sig el.
Proof.
  intros x y shift el. unfold rotateElement.
  destruct (rotationCenter el). reflexivity.
Qed.

Lemma sig_resizeRectangle : forall x y shift h el,
  sig (resizeRectangle x y shift h el) = sig el.
Proof.
  intros x y shift h el. unfold resizeRectangle.
  repeat match goal with
         | |- context [let '(_, _) := ?p in _] => destruct p
         end.
  reflexivity.
Qed.

Lemma sig_resizeElement : forall x y shift h el,
  sig (resizeElement x y shift h el) = sig el.
Proof.
  intros x y shift h el. unfold resizeElement.
  destruct (Element.type el) eqn:Et; destruct (Element.points el) eqn:Ep;
    try reflexivity; try apply sig_resizeRectangle.
Qed.

Lemma sig_drawRectangle : forall x y shift el,
  sig (drawRectangle x y shift el) = sig el.
Proof. intros x y shift el. unfold drawRectangle. destruct shift; reflexivity. Qed.

Lemma sig_drawLine : forall x y shift el, sig (drawLine x y shift el) = sig el.
Proof.
  intros x y shift el. unfold drawLine. destruct shift; [ | reflexivity ].
  destruct (snapOffset _ _). reflexivity.
Qed.

Lemma sig_assignProperty : forall p el, sig (assignProperty p el) = sig el.
Proof. intros p el. destruct p; reflexivity. Qed.

Lemma sig_pasteElement : forall newId el,
  sig (pasteElement newId el) = (newId, Element.type el).
Proof.
  intros newId el. unfold sig.
  destruct (pasteElement_spec newId el) as (-> & -> & _). reflexivity.
Qed.

End SigFacts.

Create HintDb sigs.

#[local] Hint Resolve sig_JSON_clone sig_moveElement sig_rotateElement
  sig_resizeElement sig_drawRectangle sig_drawLine sig_assignProperty : sigs.

(** [f] keeps the id and the kind of every element. *)
Ltac keeps_sig :=
  intros;
  repeat match goal with
         | |- context [if ?c then _ else _] => destruct c
         | |- context [match ?c with _ => _ end] => destruct c
         end;
  first [ reflexivity | auto with sigs ].

Section SceneInvariant.
Context {num : Type} {NUM : JSNumber num} {MATH : JSMath num}.

Local Abbreviation Element := (Element.t num).
Local Abbreviation State := (State.t num).

(** [P] holds of a scene, [Pc] of a clipboard, [fresh scene new] of the ids
    [new] minted over [scene]. *)
Variable P : list Element -> Prop.
Variable Pc : list Element -> Prop.
Variable fresh : list Element -> list string -> Prop.

Hypothesis P_sig : forall l l', map sig l = map sig l' -> P l -> P l'.
Hypothesis P_filter : forall g l, P l -> P (filter g l).
Hypothesis P_nil : P [].
Hypothesis P_new : forall scene l el,
  fresh scene [Element.id el] -> P l -> map sig l = map sig scene ->
  (not_freehand el = true \/
   exists c, In c scene /\ Element.type el = Element.type c) ->
  P (l ++ [el]).
Hypothesis P_paste : forall scene l mint source,
  fresh scene (minted mint (List.length source)) -> P l ->
  map sig l = map sig scene ->
  (Pc source \/ exists g, source = filter g scene /\ P scene) ->
  P (l ++ pasteElements mint source).
Hypothesis Pc_copy : forall mint g l, P l -> Pc (copyElements mint (filter g l)).

Local Abbreviation HistoryInv := (HistoryInvariant P).
Local Abbreviation Inv := (Invariant P Pc).
Local Abbreviation fresh_for := (freshFor fresh).
Local Abbreviation fresh_along := (freshAlong fresh).

Lemma P_map : forall (f : Element -> Element) (l : list Element),
  (forall el, sig (f el) = sig el) -> P l -> P (map f l).
Proof.
  intros f l H Hl. apply (P_sig l); [ symmetry; apply map_sig, H | exact Hl ].
Qed.

Lemma P_mapLast : forall (f : Element -> Element) (l : list Element),
  (forall el, sig (f el) = sig el) -> P l -> P (mapLast f l).
Proof.
  intros f l H Hl. apply (P_sig l); [ | exact Hl ].
  symmetry. unfold mapLast, mapi. apply mapi_from_sig.
  intros el k. destruct (k =? _)%nat; [ apply H | reflexivity ].
Qed.

Lemma HistoryInv_updateHistory : forall S h,
  HistoryInv h -> P S -> HistoryInv (updateHistory S h).
Proof.
  intros S h (Hp & Hpast & Hf) HS. unfold HistoryInvariant, updateHistory.
  cbn [History.present History.past History.future].
  repeat split; [ exact HS | | constructor ].
  apply slice_last_Forall, Forall_app. split; [ exact Hpast | ].
  constructor; [ exact Hp | constructor ].
Qed.

Lemma HistoryInv_setPresent : forall S h,
  HistoryInv h -> P S -> HistoryInv (setPresent S h).
Proof.
  intros S h (Hp & Hpast & Hf) HS. unfold HistoryInvariant, setPresent. cbn. tauto.
Qed.

Lemma HistoryInv_handleUndo : forall h, HistoryInv h -> HistoryInv (handleUndo h).
Proof.
  intros h (Hp & Hpast & Hf). unfold handleUndo.
  destruct (List.length (History.past h) =? 0)%nat; [ repeat split; assumption | ].
  destruct (nth_error _ _) as [ s | ] eqn:E; [ | repeat split; assumption ].
  unfold HistoryInvariant. cbn [History.present History.past History.future].
  split; [ | split ].
  - apply nth_error_In in E. rewrite Forall_forall in Hpast. apply Hpast, E.
  - apply firstn_Forall, Hpast.
  - apply firstn_Forall. constructor; assumption.
Qed.

Lemma HistoryInv_handleRedo : forall h, HistoryInv h -> HistoryInv (handleRedo h).
Proof.
  intros h (Hp & Hpast & Hf). unfold handleRedo.
  destruct (History.future h) as [ | s f ] eqn:E; [ repeat split; try assumption; rewrite E; constructor | ].
  inversion Hf; subst. unfold HistoryInvariant.
  cbn [History.present History.past History.future].
  repeat split; try assumption.
  apply slice_last_Forall, Forall_app. split; [ exact Hpast | ].
  constructor; [ exact Hp | constructor ].
Qed.

Lemma HistoryInv_commitPresent : forall h,
  HistoryInv h ->
  HistoryInv
    (History.mk
       (slice_last MAX_HISTORY_LENGTH (History.past h ++ [History.present h]))
       (History.present h) []).
Proof.
  intros h (Hp & Hpast & Hf). unfold HistoryInvariant.
  cbn [History.present History.past History.future].
  repeat split; [ exact Hp | | constructor ].
  apply slice_last_Forall, Forall_app. split; [ exact Hpast | ].
  constructor; [ exact Hp | constructor ].
Qed.


(** Reading a field of a state built by setters. *)
Ltac state_simpl :=
  cbn [State.history State.selectedElement State.tool State.color
       State.strokeWidth State.fill State.action State.startPoint
       State.activeHandle State.clipboard State.selectionBox
       State.multiSelectMode State.editors
       State.setHistory State.setSelectedElement State.setTool State.setColor
       State.setStrokeWidth State.setFill State.setAction State.setStartPoint
       State.setActiveHandle State.setClipboard State.setSelectionBox
       State.setMultiSelectMode State.setEditors] in *.

Lemma Inv_present : forall st, Inv st -> P (History.present (State.history st)).
Proof. intros st ((H & _) & _). exact H. Qed.

Lemma Inv_setHistory : forall (f : History.t num -> History.t num) (st : State),
  Inv st -> HistoryInv (f (State.history st)) -> Inv (State.setHistory f st).
Proof.
  intros f st (_ & He & Hc) Hh. unfold Invariant. state_simpl. tauto.
Qed.

Lemma Inv_commit : forall (S : list Element) (st : State),
  Inv st -> P S -> Inv (State.setHistory (updateHistory S) st).
Proof.
  intros S st Hi HS. apply Inv_setHistory; [ exact Hi | ].
  apply HistoryInv_updateHistory; [ apply Hi | exact HS ].
Qed.

Lemma Inv_live : forall (S : list Element) (st : State),
  Inv st -> P S -> Inv (State.setHistory (setPresent S) st).
Proof.
  intros S st Hi HS. apply Inv_setHistory; [ exact Hi | ].
  apply HistoryInv_setPresent; [ apply Hi | exact HS ].
Qed.

(** The setters of the other fields keep the invariant: it does not read
    them. *)
Ltac frame :=
  match goal with
  | |- Inv (State.setSelectedElement _ ?s) => change (Inv s)
  | |- Inv (State.setTool _ ?s) => change (Inv s)
  | |- Inv (State.setColor _ ?s) => change (Inv s)
  | |- Inv (State.setStrokeWidth _ ?s) => change (Inv s)
  | |- Inv (State.setFill _ ?s) => change (Inv s)
  | |- Inv (State.setAction _ ?s) => change (Inv s)
  | |- Inv (State.setStartPoint _ ?s) => change (Inv s)
  | |- Inv (State.setActiveHandle _ ?s) => change (Inv s)
  | |- Inv (State.setSelectionBox _ ?s) => change (Inv s)
  | |- Inv (State.setMultiSelectMode _ ?s) => change (Inv s)
  end.

Ltac inv_step :=
  first
    [ match goal with
      | H : ?G |- ?G => exact H
      end
    | frame
    | apply Inv_commit
    | apply Inv_live
    | apply P_filter
    | apply P_mapLast; [ keeps_sig | ]
    | apply P_map; [ keeps_sig | ]
    | apply Inv_present ].

Ltac inv_auto := repeat inv_step.

Lemma handleMouseMove_Inv : forall (e : MouseEvent.t num) (st : State),
  Inv st -> Inv (handleMouseMove e st).
Proof.
  intros e st Hi. pose proof (Inv_present st Hi) as Hp.
  unfold handleMouseMove.
  destruct (State.action st); destruct (State.startPoint st); try exact Hi.
  - destruct (nth_error _ _) as [ lastElement | ]; [ | exact Hi ].
    destruct (State.tool st); try exact Hi;
      try destruct (Element.points lastElement); try exact Hi; inv_auto.
  - destruct (State.selectedElement st) as [ sel | ];
      [ destruct (truthy (Element.selected sel));
        [ destruct (find _ _) | ] | ]; inv_auto.
  - destruct (State.selectedElement st) as [ sel | ];
      [ destruct (State.activeHandle st) as [ h | ] | ]; try exact Hi.
    destruct (find _ _); inv_auto.
  - destruct (State.selectionBox st); inv_auto.
Qed.

Lemma handleMouseUp_Inv : forall st : State, Inv st -> Inv (handleMouseUp st).
Proof.
  intros st Hi. pose proof (Inv_present st Hi) as Hp.
  unfold handleMouseUp.
  assert (Hc : Inv (State.setHistory
                      (fun prev =>
                         History.mk
                           (slice_last MAX_HISTORY_LENGTH
                              (History.past prev ++ [History.present prev]))
                           (History.present prev) []) st)).
  { apply Inv_setHistory; [ exact Hi | apply HistoryInv_commitPresent, Hi ]. }
  cbv zeta. do 3 frame.
  destruct (State.action st); destruct (State.selectionBox st) as [ box | ];
    cbv iota beta; try assumption.
  frame. destruct (negb _); inv_auto.
Qed.

Lemma handleDoubleClick_Inv : forall (e : MouseEvent.t num) (st : State),
  Inv st -> Inv (handleDoubleClick e st).
Proof.
  intros e st Hi. pose proof (Inv_present st Hi) as Hp.
  unfold handleDoubleClick. destruct (find _ _); [ | exact Hi ].
  destruct Hi as (Hh & He & Hc). unfold Invariant. state_simpl.
  repeat split; try apply Hh; try assumption.
  apply Forall_app. split; [ exact He | ]. constructor; [ exact Hp | constructor ].
Qed.

Lemma saveText_Inv : forall (n : nat) (value : string) (st : State),
  Inv st -> Inv (saveText n value st).
Proof.
  intros n value st Hi. unfold saveText.
  destruct (nth_error (State.editors st) n) as [ editor | ] eqn:E; [ | exact Hi ].
  assert (Hed : P (TextEditor.elements editor)).
  { destruct Hi as (_ & He & _). rewrite Forall_forall in He.
    apply He. apply nth_error_In in E. exact E. }
  assert (Hn : Inv (State.setEditors
                      (firstn n (State.editors st) ++ skipn (S n) (State.editors st))
                      (State.setHistory
                         (updateHistory
                            (map (fun el =>
                                    if (Element.id el =?
                                        Element.id (TextEditor.textElement editor))%string
                                    then Element.with_text (Some value) el else el)
                                 (TextEditor.elements editor))) st))).
  { destruct Hi as (Hh & He & Hc). unfold Invariant. state_simpl. repeat split.
    - apply P_map; [ keeps_sig | exact Hed ].
    - apply (HistoryInv_updateHistory [] _ (conj (proj1 Hh) (proj2 Hh)) P_nil).
    - constructor.
    - apply Forall_app. split.
      + apply firstn_Forall, He.
      + rewrite <- (firstn_skipn (S n) (State.editors st)) in He.
        apply Forall_app in He. tauto.
    - exact Hc. }
  destruct (TextEditor.selectedElement editor) as [ sel | ]; [ | exact Hn ].
  destruct (Element.id sel =? _)%string; [ frame | ]; exact Hn.
Qed.

Lemma updateElementProperty_Inv : forall (p : PropertyEdit num) (st : State),
  Inv st -> Inv (updateElementProperty p st).
Proof.
  intros p st Hi. pose proof (Inv_present st Hi) as Hp.
  unfold updateElementProperty.
  destruct (negb _); [ exact Hi | ].
  destruct (State.selectedElement st); inv_auto.
Qed.

(** The blocks of [handleKeyDown] and the buttons: [elements] is the scene
    of the render, [s] the state the block runs on. *)
Section Blocks.
Variable elements : list Element.
Variable s : State.
Hypothesis P_elements : P elements.
Hypothesis Inv_s : Inv s.

Lemma handleDeleteSelectedElements_Inv :
  Inv (handleDeleteSelectedElements elements s).
Proof. unfold handleDeleteSelectedElements. inv_auto. Qed.

Lemma selectAll_Inv : forall sel, Inv (selectAll elements sel s).
Proof.
  intros sel. unfold selectAll.
  destruct sel; [ | destruct (map _ elements) eqn:E; [ | rewrite <- E ] ];
    inv_auto.
Qed.

Lemma toolShortcut_Inv : forall k, Inv (toolShortcut k elements s).
Proof.
  intros k. unfold toolShortcut, deselectAll.
  repeat match goal with
         | |- context [if ?c then _ else _] => destruct c
         end; inv_auto.
Qed.

Lemma copy_Inv : forall mint, Inv (copy mint elements s).
Proof.
  intros mint. unfold copy.
  destruct (filter _ elements) eqn:E; [ exact Inv_s | rewrite <- E ].
  destruct Inv_s as (Hh & He & Hc). unfold Invariant. state_simpl.
  repeat split; try apply Hh; try assumption.
  apply Pc_copy, P_elements.
Qed.

Lemma cut_Inv : forall mint, Inv (cut mint elements s).
Proof.
  intros mint. unfold cut.
  destruct (filter _ elements) eqn:E; [ exact Inv_s | rewrite <- E ].
  frame. apply Inv_commit; [ | inv_auto ].
  destruct Inv_s as (Hh & He & Hc). unfold Invariant. state_simpl.
  repeat split; try apply Hh; try assumption.
  apply Pc_copy, P_elements.
Qed.

Lemma pasted_P : forall mint source,
  fresh elements (minted mint (List.length source)) ->
  (Pc source \/ exists g, source = filter g elements /\ P elements) ->
  P (deselectAll elements ++ pasteElements mint source).
Proof.
  intros mint source Hf Hs. apply (P_paste elements); try assumption.
  - unfold deselectAll. inv_auto.
  - unfold deselectAll. apply map_sig. keeps_sig.
Qed.

Lemma paste_Inv : forall mint clipboard,
  Pc clipboard ->
  fresh elements (minted mint (List.length clipboard)) ->
  Inv (paste mint elements clipboard s).
Proof.
  intros mint clipboard Hc Hf. unfold paste.
  destruct clipboard as [ | c cs ] eqn:E; [ exact Inv_s | rewrite <- E in * ].
  assert (HP : P (deselectAll elements ++ pasteElements mint clipboard))
    by (apply pasted_P; [ exact Hf | left; exact Hc ]).
  destruct (pasteElements mint clipboard); inv_auto.
Qed.

Lemma duplicate_Inv : forall mint,
  fresh elements
    (minted mint
       (List.length (filter (fun el => truthy (Element.selected el)) elements))) ->
  Inv (duplicate mint elements s).
Proof.
  intros mint Hf. unfold duplicate.
  destruct (filter _ elements) eqn:E; [ exact Inv_s | rewrite <- E in * ].
  assert (HP : P (deselectAll elements ++
                  pasteElements mint
                    (filter (fun el => truthy (Element.selected el)) elements))).
  { apply pasted_P; [ exact Hf | right; eexists; split; [ reflexivity | exact P_elements ] ]. }
  destruct (pasteElements mint _); inv_auto.
Qed.

End Blocks.

Lemma newShape_type : forall now x y (st : State),
  Element.type (newShape now x y st) = State.tool st.
Proof.
  intros now x y st. unfold newShape. destruct (State.tool st); reflexivity.
Qed.

Lemma newShape_id : forall now x y (st : State),
  Element.id (newShape now x y st) = now.
Proof.
  intros now x y st. unfold newShape. destruct (State.tool st); reflexivity.
Qed.

(** The first state-valued [let] of the goal: its value keeps the
    invariant (by [tac]), and is then named. *)
Ltac let_state tac :=
  lazymatch goal with
  | |- Inv (let x := ?v in @?b x) =>
      lazymatch type of v with
      | State.t _ =>
          let H := fresh "Hs" in
          let s := fresh "s" in
          assert (H : Inv v) by tac;
          revert H; generalize v; intros s H;
          change (Inv (b s)); cbv beta
      | _ => change (Inv (b v)); cbv beta
      end
  end.

Lemma handleKeyDown_Inv : forall (mint : nat -> string) (e : KeyboardEvent.t)
  (st : State),
  Inv st -> fresh_for st (KeyDown mint e) -> Inv (handleKeyDown mint e st).
Proof.
  intros mint e st Hi [Hf1 Hf2]. pose proof (Inv_present st Hi) as Hp.
  pose proof (proj2 (proj2 Hi)) as Hc.
  cbv beta delta [handleKeyDown]. unfold shortcut in Hf1, Hf2.
  destruct (KeyboardEvent.target_is_text_field e); [ exact Hi | ].
  cbn [negb andb] in Hf1, Hf2.
  repeat let_state
    ltac:(match goal with
          | |- Inv (if ?c then _ else _) =>
              destruct c eqn:?; [ | assumption ]
          end;
          lazymatch goal with
          | |- Inv (toolShortcut _ _ _) => apply toolShortcut_Inv; assumption
          | |- Inv (State.setHistory handleUndo ?s) =>
              apply Inv_setHistory; [ assumption | ];
              apply HistoryInv_handleUndo;
              match goal with H : Inv s |- _ => apply H end
          | |- Inv (State.setHistory handleRedo ?s) =>
              apply Inv_setHistory; [ assumption | ];
              apply HistoryInv_handleRedo;
              match goal with H : Inv s |- _ => apply H end
          | |- Inv (selectAll _ _ _) => apply selectAll_Inv; assumption
          | |- Inv (copy _ _ _) => apply copy_Inv; assumption
          | |- Inv (cut _ _ _) => apply cut_Inv; assumption
          | |- Inv (paste _ _ _ _) => apply paste_Inv; auto
          | |- Inv (duplicate _ _ _) => apply duplicate_Inv; auto
          end).
  repeat match goal with
         | |- Inv (if ?c then _ else _) => destruct c; [ | assumption ]
         end.
  apply handleDeleteSelectedElements_Inv; assumption.
Qed.

Lemma handleMouseDown_Inv : forall (now : string) (e : MouseEvent.t num)
  (st : State),
  Inv st -> fresh_for st (MouseDown now e) -> Inv (handleMouseDown now e st).
Proof.
  intros now e st Hi Hf. pose proof (Inv_present st Hi) as Hp.
  cbn in Hf. unfold handleMouseDown. cbv zeta.
  change (Inv (State.setMultiSelectMode (MouseEvent.shiftKey e) st)) in Hi.
  state_simpl.
  set (st0 := State.setMultiSelectMode (MouseEvent.shiftKey e) st) in *.
  assert (Hnew : forall el,
            Element.id el = now -> not_freehand el = true ->
            P (History.present (State.history st) ++ [el])).
  { intros el Hid Hnf. apply (P_new (History.present (State.history st)));
      [ rewrite Hid; exact Hf | exact Hp | reflexivity | left; exact Hnf ]. }
  assert (Hnew' : forall el,
            Element.id el = now -> not_freehand el = true ->
            P (deselectAll (History.present (State.history st)) ++ [el])).
  { intros el Hid Hnf. apply (P_new (History.present (State.history st)));
      [ rewrite Hid; exact Hf | unfold deselectAll; inv_auto
      | unfold deselectAll; apply map_sig; keeps_sig | left; exact Hnf ]. }
  destruct (match State.selectedElement st with
            | Some sel => getHandleAtPosition (MouseEvent.x e) (MouseEvent.y e) sel
            | None => None
            end) as [ handle | ]; [ inv_auto | ].
  destruct (find _ (History.present (State.history st)))
    as [ clickedElement | ] eqn:Efind.
  - apply find_some in Efind. destruct Efind as [Hin _].
    destruct (MouseEvent.altKey e).
    + do 3 frame. apply Inv_commit; [ exact Hi | ].
      apply (P_new (History.present (State.history st)));
        [ exact Hf | inv_auto | apply map_sig; keeps_sig | ].
      right. exists clickedElement. split; [ exact Hin | reflexivity ].
    + do 2 frame.
      destruct (negb (MouseEvent.shiftKey e) && _); [ inv_auto | ].
      destruct (_ || _); inv_auto.
  - assert (H1 : Inv (if negb (MouseEvent.shiftKey e)
                      then
                        if existsb (fun el => truthy (Element.selected el))
                             (History.present (State.history st))
                        then State.setSelectedElement None
                               (State.setHistory
                                  (updateHistory
                                     (deselectAll
                                        (History.present (State.history st))))
                                  st0)
                        else st0
                      else st0)).
    { destruct (negb _); [ destruct (existsb _ _) | ];
        unfold deselectAll; inv_auto. }
    revert H1. generalize (if negb (MouseEvent.shiftKey e)
                      then
                        if existsb (fun el => truthy (Element.selected el))
                             (History.present (State.history st))
                        then State.setSelectedElement None
                               (State.setHistory
                                  (updateHistory
                                     (deselectAll
                                        (History.present (State.history st))))
                                  st0)
                        else st0
                      else st0).
    intros st1 H1.
    destruct (ElementType_eqb (State.tool st) selection || MouseEvent.shiftKey e);
      [ inv_auto | ].
    destruct (State.tool st) eqn:Et.
    all: try (apply Inv_commit; [ inv_auto | ];
              apply Hnew; [ apply newShape_id | ];
              unfold not_freehand; rewrite newShape_type;
              change (State.tool st0) with (State.tool st); rewrite Et;
              reflexivity).
    + frame. apply Inv_commit; [ inv_auto | ]. apply Hnew'; reflexivity.
    + apply Inv_commit; [ inv_auto | ]. apply Hnew; reflexivity.
Qed.

Lemma step_Inv : forall (st : State) (ev : @Event num),
  Inv st -> fresh_for st ev -> Inv (step st ev).
Proof.
  intros st ev Hi Hf. pose proof (Inv_present st Hi) as Hp.
  destruct ev; cbn [step]; cbv zeta.
  - apply handleMouseDown_Inv; assumption.
  - apply handleMouseMove_Inv; assumption.
  - apply handleMouseUp_Inv; assumption.
  - apply handleDoubleClick_Inv; assumption.
  - apply saveText_Inv; assumption.
  - apply handleKeyDown_Inv; assumption.
  - apply Inv_setHistory; [ exact Hi | apply HistoryInv_handleUndo, Hi ].
  - apply Inv_setHistory; [ exact Hi | apply HistoryInv_handleRedo, Hi ].
  - apply copy_Inv; assumption.
  - apply cut_Inv; assumption.
  - apply paste_Inv; try assumption. apply Hi.
  - apply handleDeleteSelectedElements_Inv; assumption.
  - apply updateElementProperty_Inv; assumption.
  - exact Hi.
  - exact Hi.
  - exact Hi.
  - exact Hi.
Qed.

Lemma run_Inv : forall (evs : list (@Event num)) (st : State),
  Inv st -> fresh_along st evs -> Inv (run st evs).
Proof.
  intros evs. induction evs as [ | ev evs IH ]; intros st Hi Hf; simpl.
  - exact Hi.
  - destruct Hf as [Hf1 Hf2]. apply IH; [ apply step_Inv; assumption | exact Hf2 ].
Qed.

Lemma initialState_Inv : Pc [] -> forall color, Inv (initialState color).
Proof.
  intros Hc color. unfold Invariant, HistoryInvariant, initialState. cbn.
  repeat split; try constructor; assumption.
Qed.

End SceneInvariant.

(** ** No element of kind "freehand" *)

Section NoFreehand.
Context {num : Type} {NUM : JSNumber num} {MATH : JSMath num}.












(** [mapLast] on a scene with a last element. *)
Lemma mapi_from_last : forall (f : Element.t num -> Element.t num)
  (l : list (Element.t num)) (el : Element.t num) (i n : nat),
  n = (i + List.length l)%nat ->
  mapi_from i (fun a k => if (k =? n)%nat then f a else a) (l ++ [el]) =
  l ++ [f el].
Proof.
  intros f l el. induction l as [ | a l IH ]; intros i n Hn; simpl in *.
  - replace (i =? n)%nat with true by (symmetry; apply Nat.eqb_eq; lia).
    reflexivity.
  - replace (i =? n)%nat with false by (symmetry; apply Nat.eqb_neq; lia).
    rewrite (IH (S i) n) by lia. reflexivity.
Qed.

Lemma mapLast_snoc : forall (f : Element.t num -> Element.t num)
  (l : list (Element.t num)) (el : Element.t num),
  mapLast f (l ++ [el]) = l ++ [f el].
Proof.
  intros f l el. unfold mapLast, mapi. apply mapi_from_last.
  rewrite length_app. simpl. lia.
Qed.


Lemma run_moves : forall (moves : list (MouseEvent.t num)) (st : State.t num),
  run st (map MouseMove moves) =
  fold_left (fun s e => handleMouseMove e s) moves st.
Proof.
  intros moves. unfold run.
  induction moves as [ | e moves IH ]; intros st; simpl; [ | rewrite IH ];
    reflexivity.
Qed.







End NoFreehand.



(** ** Unique ids *)

Lemma existsb_eqb_In : forall (a : string) (l : list string),
  existsb (String.eqb a) l = false -> ~ In a l.
Proof.
  intros a l H Hin.
  assert (E : existsb (String.eqb a) l = true).
  { apply existsb_exists. exists a. split; [ exact Hin | apply String.eqb_refl ]. }
  rewrite E in H. discriminate.
Qed.

Lemma distinct_NoDup : forall l : list string, distinct l = true -> NoDup l.
Proof.
  intros l. induction l as [ | a l IH ]; simpl; intros H.
  - constructor.
  - apply andb_prop in H. destruct H as [Ha Hl].
    apply negb_true_iff in Ha.
    constructor; [ apply existsb_eqb_In, Ha | apply IH, Hl ].
Qed.

Section UniqueIds.
Context {num : Type} {NUM : JSNumber num} {MATH : JSMath num}.

Lemma fresh_ids_spec : forall (scene : list (Element.t num)) (new : list string),
  fresh_ids scene new = true ->
  NoDup new /\ forall i, In i new -> ~ In i (ids scene).
Proof.
  intros scene new H. unfold fresh_ids in H. apply andb_prop in H.
  destruct H as [Hd Hf]. split; [ apply distinct_NoDup, Hd | ].
  intros i Hin. rewrite forallb_forall in Hf. specialize (Hf i Hin).
  apply negb_true_iff in Hf. apply existsb_eqb_In, Hf.
Qed.

Lemma ids_sig : forall l : list (Element.t num), ids l = map fst (map sig l).
Proof.
  intros l. unfold ids. rewrite map_map. reflexivity.
Qed.

Lemma uniqueIds_sig : forall l l' : list (Element.t num),
  map sig l = map sig l' -> uniqueIds l -> uniqueIds l'.
Proof.
  unfold uniqueIds. intros l l' E H. rewrite ids_sig, <- E, <- ids_sig. exact H.
Qed.

Lemma uniqueIds_filter : forall (g : Element.t num -> bool) l,
  uniqueIds l -> uniqueIds (filter g l).
Proof.
  unfold uniqueIds, ids. intros g l. induction l as [ | a l IH ]; simpl; intros H.
  - constructor.
  - inversion H as [ | ? ? Hn Hl ]; subst. destruct (g a); simpl.
    + constructor; [ | apply IH, Hl ].
      intros Hin. apply Hn. apply in_map_iff in Hin.
      destruct Hin as (b & Hb & Hin). apply filter_In in Hin.
      apply in_map_iff. exists b. tauto.
    + apply IH, Hl.
Qed.

Lemma uniqueIds_app : forall (l : list (Element.t num)) (scene : list (Element.t num))
  (new : list (Element.t num)),
  uniqueIds l -> map sig l = map sig scene ->
  fresh_ids scene (ids new) = true ->
  uniqueIds (l ++ new).
Proof.
  unfold uniqueIds. intros l scene new Hl Hs Hf.
  apply fresh_ids_spec in Hf. destruct Hf as [Hn Hd].
  assert (E : ids l = ids scene) by (rewrite !ids_sig, Hs; reflexivity).
  unfold ids in *. rewrite map_app. apply NoDup_app; [ exact Hl | exact Hn | ].
  intros a Ha Hb. apply (Hd a Hb). rewrite <- E. exact Ha.
Qed.

Lemma ids_pasteElements : forall mint (source : list (Element.t num)),
  ids (pasteElements mint source) = minted mint (List.length source).
Proof.
  intros mint source. unfold ids, pasteElements, mapi, minted.
  generalize 0%nat. induction source as [ | a l IH ]; intros i; simpl.
  - reflexivity.
  - rewrite IH. destruct (pasteElement_spec (mint i) a) as (-> & _).
    reflexivity.
Qed.

Lemma uniqueIds_new : forall (scene l : list (Element.t num)) el,
  fresh_ids scene [Element.id el] = true -> uniqueIds l ->
  map sig l = map sig scene ->
  (not_freehand el = true \/
   exists c, In c scene /\ Element.type el = Element.type c) ->
  uniqueIds (l ++ [el]).
Proof.
  intros scene l el Hf Hl Hs _. apply (uniqueIds_app l scene [el] Hl Hs Hf).
Qed.

Lemma uniqueIds_paste : forall (scene l : list (Element.t num)) mint source,
  fresh_ids scene (minted mint (List.length source)) = true -> uniqueIds l ->
  map sig l = map sig scene ->
  (True \/ exists g, source = filter g scene /\ uniqueIds scene) ->
  uniqueIds (l ++ pasteElements mint source).
Proof.
  intros scene l mint source Hf Hl Hs _.
  apply (uniqueIds_app l scene _ Hl Hs). rewrite ids_pasteElements. exact Hf.
Qed.

Lemma fresh_run_along : forall (evs : list (@Event num)) (st : State.t num),
  fresh_run st evs = true ->
  freshAlong (fun scene new => fresh_ids scene new = true) st evs.
Proof.
  intros evs. induction evs as [ | ev evs IH ]; intros st H; simpl in *.
  - exact I.
  - apply andb_prop in H. destruct H as [Hev Hr].
    split; [ | apply IH, Hr ].
    destruct ev; simpl in *; try exact I; try exact Hev.
    apply andb_prop in Hev. destruct Hev as [H1 H2].
    split; intros Hk; rewrite Hk in *; assumption.
Qed.

Lemma run_uniqueIds : forall (color : string) (evs : list (@Event num)),
  fresh_run (initialState color) evs = true ->
  uniqueIds (History.present (State.history (run (initialState color) evs))).
Proof.
  intros color evs Hf.
  apply (Inv_present uniqueIds (fun _ => True)).
  apply (run_Inv uniqueIds (fun _ => True)
           (fun scene new => fresh_ids scene new = true)
           uniqueIds_sig uniqueIds_filter (NoDup_nil _)
           uniqueIds_new uniqueIds_paste (fun _ _ _ _ => I)).
  - apply initialState_Inv; [ constructor | exact I ].
  - apply fresh_run_along, Hf.
Qed.

(** C4 (as the code has it): from the first render on, whatever the user
    does, no two elements of the present scene share an id, provided every
    id minted on the way is new: the clock reading of each pointer-down and
    the ids minted for the copies of each paste and each duplicate differ
    from every id of the scene and from one another.  The code takes the
    ids from the clock and the random generator and compares them with
    nothing. *)
Theorem ids_unique_when_minted_fresh :
  forall (color : string) (evs : list (@Event num)),
  fresh_run (initialState color) evs = true ->
  NoDup (ids (History.present (State.history (run (initialState color) evs)))).
Proof. exact run_uniqueIds. Qed.

End UniqueIds.

Lemma ids_unique_when_minted_fresh_witness :
  NoDup (ids (History.present (State.history (run (initialState "#000000") session)))).
Proof.
  apply (ids_unique_when_minted_fresh "#000000" session).
  vm_compute. reflexivity.
Defined.

(** C4, as stated, fails: the two rectangles drawn while the clock reads
    the same millisecond have the same id. *)
Lemma ids_unique_counterexample :
  ids (History.present (State.history sameMillisecond)) =
  ["1700000000000"; "1700000000000"].
Proof. vm_compute. reflexivity. Qed.

(** ** Further properties of the history *)

Lemma slice_last_slice_snoc : forall (A : Type) (n : nat) (l : list A) (a : A),
  (1 <= n)%nat ->
  slice_last n (slice_last n l ++ [a]) = slice_last n (l ++ [a]).
Proof.
  intros A n l a Hn. rewrite !slice_last_snoc by exact Hn. f_equal.
  unfold slice_last. rewrite length_skipn, skipn_skipn. f_equal. lia.
Qed.

Lemma last_cons_default : forall (A : Type) (l : list A) (a d : A),
  last (a :: l) d = last l a.
Proof.
  intros A l. induction l as [ | b l IH ]; intros a d.
  - reflexivity.
  - change (last (a :: b :: l) d) with (last (b :: l) d).
    rewrite IH. symmetry. apply IH.
Qed.

Lemma removelast_last_cons : forall (A : Type) (l : list A) (a : A),
  removelast (a :: l) ++ [last l a] = a :: l.
Proof.
  intros A l a. rewrite <- (last_cons_default A l a a).
  symmetry. apply app_removelast_last. discriminate.
Qed.

Section HistoryChains.
Context {num : Type}.
Implicit Type h : History.t num.
Implicit Type S : list (Element.t num).

Lemma commitAll_snoc : forall ss S h,
  commitAll (ss ++ [S]) h = updateHistory S (commitAll ss h).
Proof. intros ss S h. unfold commitAll. rewrite fold_left_app. reflexivity. Qed.

Lemma commitAll_window : forall ss h,
  slice_last MAX_HISTORY_LENGTH
    (History.past (commitAll ss h) ++ [History.present (commitAll ss h)]) =
  slice_last MAX_HISTORY_LENGTH (History.past h ++ History.present h :: ss).
Proof.
  intros ss. induction ss as [ | S ss IH ] using rev_ind; intros h.
  - reflexivity.
  - rewrite commitAll_snoc. unfold updateHistory at 1 2.
    cbn [History.past History.present]. rewrite IH.
    rewrite slice_last_slice_snoc by (unfold MAX_HISTORY_LENGTH; lia).
    rewrite <- app_assoc. reflexivity.
Qed.

(** X1: however many scenes are committed in a row, the last one is the
    present scene, [future] is empty, and [past] holds the 50 most recent of
    the scenes that were present before: older scenes are dropped for good. *)
Theorem commits_keep_the_last_fifty : forall ss S h,
  History.present (commitAll (ss ++ [S]) h) = S /\
  History.future (commitAll (ss ++ [S]) h) = [] /\
  History.past (commitAll (ss ++ [S]) h) =
    slice_last MAX_HISTORY_LENGTH (History.past h ++ History.present h :: ss) /\
  (List.length (History.past (commitAll (ss ++ [S]) h)) <= MAX_HISTORY_LENGTH)%nat.
Proof.
  intros ss S h. rewrite commitAll_snoc.
  split; [ reflexivity | ]. split; [ reflexivity | ].
  unfold updateHistory at 1 2. cbn [History.past].
  split; [ apply commitAll_window | apply slice_last_length ].
Qed.

Lemma commitAll_chain : forall (l : list (list (Element.t num))) P p fut,
  (List.length P + List.length l <= MAX_HISTORY_LENGTH)%nat ->
  l <> [] ->
  commitAll l (History.mk P p fut) =
  History.mk (P ++ removelast (p :: l)) (last l p) [].
Proof.
  intros l. induction l as [ | a l IH ] using rev_ind; intros P p fut Hlen Hne.
  - contradiction.
  - rewrite commitAll_snoc. rewrite length_app in Hlen.
    change (List.length [a]) with 1%nat in Hlen.
    rewrite last_last.
    replace (removelast (p :: l ++ [a])) with (p :: l)
      by (change (p :: l ++ [a]) with ((p :: l) ++ [a]);
          rewrite removelast_last; reflexivity).
    assert (Hshort : (List.length (P ++ p :: l) <= MAX_HISTORY_LENGTH)%nat).
    { rewrite length_app. change (List.length (p :: l)) with (Datatypes.S (List.length l)). lia. }
    destruct l as [ | b l ].
    + cbn [commitAll fold_left]. unfold updateHistory.
      cbn [History.past History.present].
      rewrite slice_last_short by exact Hshort. reflexivity.
    + rewrite IH by (try discriminate; lia).
      unfold updateHistory. cbn [History.past History.present].
      rewrite <- app_assoc, removelast_last_cons.
      rewrite slice_last_short by exact Hshort. reflexivity.
Qed.

Lemma undo_chain : forall (l : list (list (Element.t num))) P p fut,
  (List.length l + List.length fut <= MAX_HISTORY_LENGTH)%nat ->
  Nat.iter (List.length l) handleUndo
    (History.mk (P ++ removelast (p :: l)) (last l p) fut) =
  History.mk P p (l ++ fut).
Proof.
  intros l. induction l as [ | a l IH ] using rev_ind; intros P p fut Hlen.
  - cbn. rewrite app_nil_r. reflexivity.
  - rewrite length_app in *. simpl in Hlen.
    replace (List.length l + List.length [a])%nat with (Datatypes.S (List.length l))
      by (simpl; lia).
    rewrite Nat.iter_succ_r. rewrite last_last.
    replace (removelast (p :: l ++ [a])) with (p :: l)
      by (change (p :: l ++ [a]) with ((p :: l) ++ [a]);
          rewrite removelast_last; reflexivity).
    rewrite <- (removelast_last_cons _ l p) at 1.
    rewrite app_assoc, handleUndo_snoc.
    rewrite firstn_all2 by (simpl; lia).
    rewrite IH by (simpl; lia).
    rewrite <- app_assoc. reflexivity.
Qed.

Lemma redo_chain : forall (l : list (list (Element.t num))) P p fut,
  (List.length P + List.length l <= MAX_HISTORY_LENGTH)%nat ->
  Nat.iter (List.length l) handleRedo (History.mk P p (l ++ fut)) =
  History.mk (P ++ removelast (p :: l)) (last l p) fut.
Proof.
  intros l. induction l as [ | a l IH ]; intros P p fut Hlen.
  - cbn. rewrite app_nil_r. reflexivity.
  - change (List.length (a :: l)) with (Datatypes.S (List.length l)).
    rewrite Nat.iter_succ_r. simpl in Hlen.
    unfold handleRedo at 2. cbn [History.future History.past History.present app].
    rewrite slice_last_short by (rewrite length_app; simpl; lia).
    rewrite IH by (rewrite length_app; simpl; lia).
    rewrite <- app_assoc. f_equal. symmetry. apply last_cons_default.
Qed.

(** X2: as long as [past] does not overflow, as many undos as there were
    commits bring back the history of before the commits, with the
    committed scenes on [future] in the order they were committed; as many
    redos then bring back the history of after the commits. *)
Theorem undos_and_redos_walk_the_commits : forall h S ss,
  (List.length (History.past h) + List.length (S :: ss) <= MAX_HISTORY_LENGTH)%nat ->
  Nat.iter (List.length (S :: ss)) handleUndo (commitAll (S :: ss) h) =
    History.mk (History.past h) (History.present h) (S :: ss) /\
  Nat.iter (List.length (S :: ss)) handleRedo
    (History.mk (History.past h) (History.present h) (S :: ss)) =
    commitAll (S :: ss) h.
Proof.
  intros [P p fut] S ss Hlen. cbn [History.past History.present] in *.
  rewrite commitAll_chain by (try discriminate; exact Hlen).
  split.
  - rewrite undo_chain by (simpl in *; unfold MAX_HISTORY_LENGTH in *; lia).
    rewrite app_nil_r. reflexivity.
  - rewrite <- (app_nil_r (S :: ss)) at 2. apply redo_chain. exact Hlen.
Qed.

(** X3: a redo right after an undo gives back the history as it was, unless
    there was nothing to undo or [future] was full. *)
Theorem redo_after_undo : forall h,
  History.past h <> [] ->
  (List.length (History.past h) <= MAX_HISTORY_LENGTH)%nat ->
  (List.length (History.future h) < MAX_HISTORY_LENGTH)%nat ->
  handleRedo (handleUndo h) = h.
Proof.
  intros [P p fut] Hne HP Hf. cbn [History.past History.future] in *.
  destruct P as [ | a P0 _ ] using rev_ind; [ contradiction | ].
  rewrite handleUndo_snoc.
  rewrite firstn_all2 by (simpl; unfold MAX_HISTORY_LENGTH in *; lia).
  unfold handleRedo. cbn [History.future History.past History.present].
  rewrite slice_last_short by exact HP. reflexivity.
Qed.

(** X4: an undo right after a redo gives back the history as it was, unless
    there was nothing to redo or [past] was full. *)
Theorem undo_after_redo : forall h,
  History.future h <> [] ->
  (List.length (History.past h) < MAX_HISTORY_LENGTH)%nat ->
  (List.length (History.future h) <= MAX_HISTORY_LENGTH)%nat ->
  handleUndo (handleRedo h) = h.
Proof.
  intros [P p fut] Hne HP Hf. cbn [History.past History.future] in *.
  destruct fut as [ | f fut ]; [ contradiction | ].
  unfold handleRedo. cbn [History.future History.past History.present].
  rewrite slice_last_short by (rewrite length_app; simpl; lia).
  rewrite handleUndo_snoc. rewrite firstn_all2 by exact Hf. reflexivity.
Qed.

Lemma bounded_op : forall h h', historyOp h h' -> bounded h -> bounded h'.
Proof.
  intros h h' Hop [HP HF]. destruct Hop as [ S h | S h | h | h ].
  - split; [ apply slice_last_length | simpl; lia ].
  - split; assumption.
  - destruct h as [P p fut]. cbn [History.past History.future] in *.
    destruct P as [ | a P0 _ ] using rev_ind; [ split; assumption | ].
    rewrite handleUndo_snoc. unfold bounded. cbn [History.past History.future].
    rewrite length_app in HP. simpl in HP.
    split; [ lia | ]. rewrite length_firstn. lia.
  - unfold handleRedo. destruct (History.future h) as [ | f fut ] eqn:E.
    + split; [ exact HP | rewrite E; simpl; lia ].
    + unfold bounded. cbn [History.past History.future].
      split; [ apply slice_last_length | simpl in HF; lia ].
Qed.

Lemma bounded_ops : forall h h', historyOps h h' -> bounded h -> bounded h'.
Proof.
  intros h h' Hops Hb. induction Hops as [ | h h1 h2 _ IH Hop ].
  - exact Hb.
  - apply (bounded_op h1); [ exact Hop | apply IH, Hb ].
Qed.

Lemma historyOps_trans : forall h1 h2 h3,
  historyOps h1 h2 -> historyOps h2 h3 -> historyOps h1 h3.
Proof.
  intros h1 h2 h3 H12 H23. induction H23 as [ | h h4 h5 _ IH Hop ].
  - exact H12.
  - apply (ops_then h1 h4); [ apply IH, H12 | exact Hop ].
Qed.

End HistoryChains.

(** ** What an event does to the history *)

(** Reading a field of a state built by setters. *)
Ltac read_state :=
  cbn [State.history State.selectedElement State.tool State.color
       State.strokeWidth State.fill State.action State.startPoint
       State.activeHandle State.clipboard State.selectionBox
       State.multiSelectMode State.editors
       State.setHistory State.setSelectedElement State.setTool State.setColor
       State.setStrokeWidth State.setFill State.setAction State.setStartPoint
       State.setActiveHandle State.setClipboard State.setSelectionBox
       State.setMultiSelectMode State.setEditors] in *.

(** The value of a comparison of two string literals. *)
Ltac eval_string_tests :=
  repeat match goal with
         | |- context [String.eqb ?a ?b] =>
             let v := eval vm_compute in (String.eqb a b) in
             lazymatch v with
             | true => change (String.eqb a b) with true
             | false => change (String.eqb a b) with false
             end
         end.

Ltac split_cases :=
  repeat (read_state;
          match goal with
          | |- context [match ?x with _ => _ end] => destruct x
          end).

Ltac ops_solve :=
  read_state;
  repeat first [ apply ops_none | eapply ops_then; [ | solve [ constructor ] ] ].

Section EventsAndHistory.
Context {num : Type} {NUM : JSNumber num}.

Lemma toolShortcut_history : forall k elements (s : State.t num),
  commit_or_same (State.history s) (State.history (toolShortcut k elements s)).
Proof.
  intros k elements s. unfold toolShortcut, commit_or_same. split_cases;
    read_state; first [ left; reflexivity | right; eexists; reflexivity ].
Qed.

Lemma selectAll_history : forall elements sel (s : State.t num),
  commit_or_same (State.history s) (State.history (selectAll elements sel s)).
Proof.
  intros elements sel s. unfold selectAll, commit_or_same. cbv zeta.
  destruct sel; [ | destruct (map _ elements) ]; read_state;
    right; eexists; reflexivity.
Qed.

Lemma copy_history : forall mint elements (s : State.t num),
  State.history (copy mint elements s) = State.history s.
Proof.
  intros mint elements s. unfold copy. cbv zeta.
  destruct (filter _ elements); reflexivity.
Qed.

Lemma cut_history : forall mint elements (s : State.t num),
  commit_or_same (State.history s) (State.history (cut mint elements s)).
Proof.
  intros mint elements s. unfold cut, commit_or_same. cbv zeta.
  destruct (filter _ elements); read_state;
    [ left; reflexivity | right; eexists; reflexivity ].
Qed.

Lemma paste_history : forall mint elements clipboard (s : State.t num),
  commit_or_same (State.history s)
    (State.history (paste mint elements clipboard s)).
Proof.
  intros mint elements clipboard s. unfold paste, commit_or_same. cbv zeta.
  destruct clipboard; [ left; reflexivity | ].
  destruct (pasteElements _ _); read_state; right; eexists; reflexivity.
Qed.

Lemma duplicate_history : forall mint elements (s : State.t num),
  commit_or_same (State.history s) (State.history (duplicate mint elements s)).
Proof.
  intros mint elements s. unfold duplicate, commit_or_same. cbv zeta.
  destruct (filter _ elements); [ left; reflexivity | ].
  destruct (pasteElements _ _); read_state; right; eexists; reflexivity.
Qed.

Lemma handleDeleteSelectedElements_history : forall elements (s : State.t num),
  exists S,
    State.history (handleDeleteSelectedElements elements s) =
    updateHistory S (State.history s).
Proof. intros elements s. eexists. reflexivity. Qed.

Lemma handleKeyDown_history : forall mint e (st : State.t num),
  one_step (State.history st) (State.history (handleKeyDown mint e st)).
Proof.
  intros mint [key ctrl meta alt shift target] st.
  cbv beta delta [handleKeyDown].
  cbn [KeyboardEvent.key KeyboardEvent.ctrlKey KeyboardEvent.metaKey
       KeyboardEvent.altKey KeyboardEvent.shiftKey
       KeyboardEvent.target_is_text_field].
  destruct target; [ left; left; reflexivity | ].
  set (elements := History.present (State.history st)).
  assert (Hplain :
    one_step (State.history st)
      (State.history
         (let s1 := if negb alt then toolShortcut (toLowerCase key) elements st
                    else st in
          if (key =? "Delete")%string || (key =? "Backspace")%string
          then if existsb (fun el => truthy (Element.selected el)) elements
               then handleDeleteSelectedElements elements s1 else s1
          else s1))).
  { cbv zeta.
    destruct (key =? "Delete")%string eqn:E1;
      [ apply String.eqb_eq in E1; subst key | ].
    - unfold toolShortcut. cbn [toLowerCase lower_ascii]. eval_string_tests.
      cbn [orb]. left. destruct alt, (existsb _ _); cbn [negb]; read_state;
        first [ left; reflexivity | right; eexists; reflexivity ].
    - destruct (key =? "Backspace")%string eqn:E2;
        [ apply String.eqb_eq in E2; subst key | ].
      + unfold toolShortcut. cbn [toLowerCase lower_ascii]. eval_string_tests.
        cbn [orb]. left. destruct alt, (existsb _ _); cbn [negb]; read_state;
          first [ left; reflexivity | right; eexists; reflexivity ].
      + cbn [orb]. left. destruct alt; cbn [negb];
          [ left; reflexivity | apply toolShortcut_history ]. }
  destruct ctrl, meta; cbn [negb andb orb]; try exact Hplain; clear Hplain.
  all: destruct (key =? "z")%string eqn:Ez;
         [ apply String.eqb_eq in Ez; subst key; eval_string_tests;
           cbn [andb orb negb]; cbv zeta;
           destruct shift; cbn [andb orb negb]; read_state;
           [ right; right; reflexivity | right; left; reflexivity ] | ].
  all: destruct (key =? "y")%string eqn:Ey;
         [ apply String.eqb_eq in Ey; subst key; eval_string_tests;
           cbn [andb orb negb]; cbv zeta; read_state;
           right; right; reflexivity | ].
  all: rewrite ?andb_false_r; cbn [andb orb negb].
  all: destruct (key =? "a")%string eqn:Ea;
         [ apply String.eqb_eq in Ea; subst key; eval_string_tests;
           cbn [andb orb negb]; cbv zeta; left; apply selectAll_history | ].
  all: destruct (key =? "c")%string eqn:Ec;
         [ apply String.eqb_eq in Ec; subst key; eval_string_tests;
           cbn [andb orb negb]; cbv zeta; left; left; apply copy_history | ].
  all: destruct (key =? "x")%string eqn:Ex;
         [ apply String.eqb_eq in Ex; subst key; eval_string_tests;
           cbn [andb orb negb]; cbv zeta; left; apply cut_history | ].
  all: destruct (key =? "v")%string eqn:Ev;
         [ apply String.eqb_eq in Ev; subst key; eval_string_tests;
           cbn [andb orb negb]; cbv zeta; left; apply paste_history | ].
  all: destruct (key =? "d")%string eqn:Ed;
         [ apply String.eqb_eq in Ed; subst key; eval_string_tests;
           cbn [andb orb negb]; cbv zeta; left; apply duplicate_history | ].
  all: cbv zeta; left; destruct (_ || _); [ destruct (existsb _ _) | ];
         first [ left; reflexivity | right; eexists; reflexivity ].
Qed.

End EventsAndHistory.

Section StepsAndHistory.
Context {num : Type} {NUM : JSNumber num} {MATH : JSMath num}.

Lemma commit_or_same_ops : forall h h' : History.t num,
  commit_or_same h h' -> historyOps h h'.
Proof.
  intros h h' [ -> | [S ->] ]; [ apply ops_none | ].
  eapply ops_then; [ apply ops_none | constructor ].
Qed.

Lemma one_step_ops : forall h h' : History.t num,
  one_step h h' -> historyOps h h'.
Proof.
  intros h h' [ H | [ -> | -> ] ]; [ apply commit_or_same_ops, H | | ];
    (eapply ops_then; [ apply ops_none | constructor ]).
Qed.

Lemma handleMouseDown_history : forall now e (st : State.t num),
  historyOps (State.history st) (State.history (handleMouseDown now e st)).
Proof.
  intros now e st. unfold handleMouseDown. cbv zeta.
  split_cases; ops_solve.
Qed.

Lemma handleMouseMove_history : forall e (st : State.t num),
  State.history (handleMouseMove e st) = State.history st \/
  exists S, State.history (handleMouseMove e st) = setPresent S (State.history st).
Proof.
  intros e st. unfold handleMouseMove. cbv zeta.
  split_cases; read_state;
    first [ left; reflexivity | right; eexists; reflexivity ].
Qed.

Lemma handleMouseUp_history : forall st : State.t num,
  commit_or_same (State.history st) (State.history (handleMouseUp st)).
Proof.
  intros st. unfold handleMouseUp, commit_or_same. cbv zeta.
  split_cases; read_state;
    first [ left; reflexivity | right; eexists; reflexivity ].
Qed.

Lemma saveText_history : forall n value (st : State.t num),
  commit_or_same (State.history st) (State.history (saveText n value st)).
Proof.
  intros n value st. unfold saveText, commit_or_same. cbv zeta.
  split_cases; read_state;
    first [ left; reflexivity | right; eexists; reflexivity ].
Qed.

Lemma updateElementProperty_history : forall p (st : State.t num),
  commit_or_same (State.history st)
    (State.history (updateElementProperty p st)).
Proof.
  intros p st. unfold updateElementProperty, commit_or_same. cbv zeta.
  split_cases; read_state;
    first [ left; reflexivity | right; eexists; reflexivity ].
Qed.

Lemma step_history : forall (st : State.t num) (ev : Event),
  historyOps (State.history st) (State.history (step st ev)).
Proof.
  intros st ev. destruct ev; cbn [step]; cbv zeta.
  - apply handleMouseDown_history.
  - destruct (handleMouseMove_history e st) as [ -> | [S ->] ];
      [ apply ops_none | eapply ops_then; [ apply ops_none | constructor ] ].
  - apply commit_or_same_ops, handleMouseUp_history.
  - unfold handleDoubleClick. destruct (find _ _); apply ops_none.
  - apply commit_or_same_ops, saveText_history.
  - apply one_step_ops, handleKeyDown_history.
  - eapply ops_then; [ apply ops_none | constructor ].
  - eapply ops_then; [ apply ops_none | constructor ].
  - rewrite copy_history. apply ops_none.
  - apply commit_or_same_ops, cut_history.
  - apply commit_or_same_ops, paste_history.
  - eapply ops_then; [ apply ops_none | constructor ].
  - apply commit_or_same_ops, updateElementProperty_history.
  - apply ops_none.
  - apply ops_none.
  - apply ops_none.
  - apply ops_none.
Qed.

Lemma run_history : forall (evs : list Event) (st : State.t num),
  historyOps (State.history st) (State.history (run st evs)).
Proof.
  intros evs. induction evs as [ | ev evs IH ]; intros st.
  - apply ops_none.
  - apply (historyOps_trans _ (State.history (step st ev)));
      [ apply step_history | apply IH ].
Qed.

(** X5: whatever the user does, [past] and [future] never hold more than 50
    scenes each. *)
Theorem history_never_exceeds_fifty :
  forall (color : string) (evs : list Event),
  bounded (State.history (run (initialState color) evs)).
Proof.
  intros color evs.
  apply (bounded_ops (State.history (initialState color)));
    [ apply run_history | ].
  split; cbn; unfold MAX_HISTORY_LENGTH; lia.
Qed.

(** X6: a key event changes the history by at most one commit, one undo or
    one redo: no key runs two of the editor's commands, and none edits the
    present scene in place. *)
Theorem key_event_runs_one_command : forall mint e (st : State.t num),
  State.history (handleKeyDown mint e st) = State.history st \/
  (exists S,
     State.history (handleKeyDown mint e st) = updateHistory S (State.history st)) \/
  State.history (handleKeyDown mint e st) = handleUndo (State.history st) \/
  State.history (handleKeyDown mint e st) = handleRedo (State.history st).
Proof.
  intros mint e st.
  destruct (handleKeyDown_history mint e st) as [ [ H | H ] | [ H | H ] ]; tauto.
Qed.

End StepsAndHistory.

(** ** Further properties of the pointer gestures *)

Section MoreGestures.
Context {num : Type} {NUM : JSNumber num} {MATH : JSMath num}.

Lemma handleMouseMove_no_start : forall e (st : State.t num),
  State.startPoint st = None -> handleMouseMove e st = st.
Proof.
  intros e st H. unfold handleMouseMove. rewrite H.
  destruct (State.action st); reflexivity.
Qed.

Lemma handleMouseMoves_no_start : forall moves (st : State.t num),
  State.startPoint st = None ->
  fold_left (fun s e => handleMouseMove e s) moves st = st.
Proof.
  intros moves. induction moves as [ | e moves IH ]; intros st H; simpl.
  - reflexivity.
  - rewrite handleMouseMove_no_start by exact H. apply IH, H.
Qed.

(** A pointer-down on the empty canvas with the selection tool, or with
    Shift, opens a selection box of size zero and sets no start point. *)
Lemma handleMouseDown_selecting : forall now e (st : State.t num),
  noHandleHit e st ->
  noElementHit e st ->
  ElementType_eqb (State.tool st) selection || MouseEvent.shiftKey e = true ->
  State.action (handleMouseDown now e st) = selecting /\
  State.startPoint (handleMouseDown now e st) = State.startPoint st /\
  State.selectionBox (handleMouseDown now e st) =
    Some (SelectionBox.mk (MouseEvent.x e) (MouseEvent.y e) (js_lit 0) (js_lit 0)).
Proof.
  intros now e st Hh Hf Ht. unfold noHandleHit, noElementHit in *.
  unfold handleMouseDown. cbv zeta. read_state. rewrite Hh, Hf, Ht.
  destruct (negb _); [ destruct (existsb _ _) | ]; repeat split.
Qed.

(** X7: a selection box never grows.  The pointer-down that opens it sets
    no start point, so every pointer-move of the gesture returns at once,
    and the pointer-up finds a box of size zero, "too small": the gesture
    changes neither the history nor the primary selection after the
    pointer-down, whatever the pointer passed over. *)
Theorem selection_box_selects_nothing :
  forall (st : State.t num) (now : string) (down : MouseEvent.t num)
    (moves : list (MouseEvent.t num)),
  State.startPoint st = None ->
  noHandleHit down st ->
  noElementHit down st ->
  ElementType_eqb (State.tool st) selection || MouseEvent.shiftKey down = true ->
  js_lt (Math_abs (js_lit 0)) (js_lit 5) = true ->
  let afterDown := handleMouseDown now down st in
  let afterMoves := fold_left (fun s e => handleMouseMove e s) moves afterDown in
  State.selectionBox afterMoves =
    Some (SelectionBox.mk (MouseEvent.x down) (MouseEvent.y down)
            (js_lit 0) (js_lit 0)) /\
  State.history (dragGesture now down moves st) = State.history afterDown /\
  State.selectedElement (dragGesture now down moves st) =
    State.selectedElement afterDown /\
  State.selectionBox (dragGesture now down moves st) = None.
Proof.
  intros st now down moves Hs Hh Hf Ht H5 afterDown afterMoves.
  destruct (handleMouseDown_selecting now down st Hh Hf Ht) as (Ha & Hsp & Hb).
  fold afterDown in Ha, Hsp, Hb.
  assert (Hm : afterMoves = afterDown).
  { apply handleMouseMoves_no_start. rewrite Hsp. exact Hs. }
  unfold dragGesture. fold afterDown. fold afterMoves. rewrite Hm.
  split; [ exact Hb | ].
  unfold handleMouseUp. cbv zeta. rewrite Ha, Hb.
  cbn [SelectionBox.width SelectionBox.height]. rewrite H5.
  cbn [andb negb]. read_state. repeat split.
Qed.

Lemma handleMouseUp_commits_present : forall st : State.t num,
  State.action st = drawing \/ State.action st = moving \/
  State.action st = resizing ->
  History.present (State.history (handleMouseUp st)) =
    History.present (State.history st) /\
  History.present (handleUndo (State.history (handleMouseUp st))) =
    History.present (State.history st) /\
  History.future (handleUndo (State.history (handleMouseUp st))) =
    [History.present (State.history st)].
Proof.
  intros st Ha.
  assert (E : State.history (handleMouseUp st) =
              updateHistory (History.present (State.history st))
                (State.history st)).
  { unfold handleMouseUp. cbv zeta.
    destruct Ha as [ -> | [ -> | -> ] ]; reflexivity. }
  rewrite E, handleUndo_updateHistory. repeat split.
Qed.

(** X8: the pointer-up that ends a drawing, a move or a resize puts the
    present scene itself on [past]: the first undo after the gesture shows
    the same scene again (it only moves it to [future]). *)
Theorem first_undo_after_a_gesture_changes_nothing_visible :
  forall st : State.t num,
  State.action st = drawing \/ State.action st = moving \/
  State.action st = resizing ->
  History.present (State.history (handleMouseUp st)) =
    History.present (State.history st) /\
  History.present (handleUndo (State.history (handleMouseUp st))) =
    History.present (State.history st) /\
  History.future (handleUndo (State.history (handleMouseUp st))) =
    [History.present (State.history st)].
Proof. exact handleMouseUp_commits_present. Qed.

(** A drawing step overwrites what the step before it wrote. *)
Lemma drawStep_overwrites : forall tool e e' (el : Element.t num),
  drawStep tool e (drawStep tool e' el) = drawStep tool e el.
Proof.
  intros tool e e' el. destruct tool; try reflexivity.
  - unfold drawStep, drawRectangle.
    destruct (MouseEvent.shiftKey e), (MouseEvent.shiftKey e'); reflexivity.
  - unfold drawStep, drawLine.
    destruct (MouseEvent.shiftKey e'); [ destruct (snapOffset _ _) | ];
      destruct (MouseEvent.shiftKey e); reflexivity.
  - unfold drawStep, drawLine.
    destruct (MouseEvent.shiftKey e'); [ destruct (snapOffset _ _) | ];
      destruct (MouseEvent.shiftKey e); reflexivity.
Qed.

Lemma drawStep_fold_last : forall tool moves e (el : Element.t num),
  fold_left (fun el e => drawStep tool e el) (moves ++ [e]) el =
  drawStep tool e el.
Proof.
  intros tool moves e el. rewrite fold_left_app. simpl. revert el.
  induction moves as [ | e' moves IH ]; intros el; simpl.
  - reflexivity.
  - rewrite IH. apply drawStep_overwrites.
Qed.

Lemma drawStep_points : forall tool e (el : Element.t num),
  Element.points el <> None -> Element.points (drawStep tool e el) <> None.
Proof.
  intros tool e el H. destruct tool; try exact H.
  - unfold drawStep, drawRectangle. destruct (MouseEvent.shiftKey e); exact H.
  - unfold drawStep, drawLine.
    destruct (MouseEvent.shiftKey e); [ destruct (snapOffset _ _) | ];
      discriminate.
  - unfold drawStep, drawLine.
    destruct (MouseEvent.shiftKey e); [ destruct (snapOffset _ _) | ];
      discriminate.
Qed.

(** While a shape is drawn, a pointer-move applies the drawing step of the
    tool to the last element. *)
Lemma drawing_move : forall (e : MouseEvent.t num) (st : State.t num)
  (before : list (Element.t num)) (el : Element.t num),
  State.action st = drawing ->
  State.startPoint st <> None ->
  is_shape_tool (State.tool st) = true ->
  History.present (State.history st) = before ++ [el] ->
  (State.tool st = line \/ State.tool st = arrow -> Element.points el <> None) ->
  handleMouseMove e st =
  State.setHistory (setPresent (before ++ [drawStep (State.tool st) e el])) st.
Proof.
  intros e st before el Ha Hs Ht Hp Hpts.
  unfold handleMouseMove. rewrite Ha, Hp.
  destruct (State.startPoint st); [ | contradiction ].
  rewrite nth_error_snoc_last, mapLast_snoc, mapLast_snoc, mapLast_snoc.
  destruct (State.tool st) eqn:Et; try discriminate; try reflexivity;
    (destruct (Element.points el) eqn:Ep; [ reflexivity | ];
     exfalso; apply Hpts; auto).
Qed.

Lemma drawing_moves : forall (moves : list (MouseEvent.t num))
  (st : State.t num) (before : list (Element.t num)) (el : Element.t num),
  State.action st = drawing ->
  State.startPoint st <> None ->
  is_shape_tool (State.tool st) = true ->
  History.present (State.history st) = before ++ [el] ->
  (State.tool st = line \/ State.tool st = arrow -> Element.points el <> None) ->
  History.present
    (State.history (fold_left (fun s e => handleMouseMove e s) moves st)) =
  before ++ [fold_left (fun el e => drawStep (State.tool st) e el) moves el].
Proof.
  intros moves. induction moves as [ | e moves IH ];
    intros st before el Ha Hs Ht Hp Hpts; simpl.
  - exact Hp.
  - rewrite (drawing_move e st before el Ha Hs Ht Hp Hpts).
    apply (IH (State.setHistory
                 (setPresent (before ++ [drawStep (State.tool st) e el])) st)
              before (drawStep (State.tool st) e el));
      [ exact Ha | exact Hs | exact Ht | reflexivity | ].
    intros H. apply drawStep_points, Hpts, H.
Qed.

(** A pointer-down on the empty canvas with a shape tool appends the new
    shape to the scene of the render and starts a drawing. *)
Lemma handleMouseDown_drawing : forall now e (st : State.t num),
  is_shape_tool (State.tool st) = true ->
  noHandleHit e st ->
  noElementHit e st ->
  MouseEvent.shiftKey e = false ->
  State.action (handleMouseDown now e st) = drawing /\
  State.startPoint (handleMouseDown now e st) =
    Some (Point.mk (MouseEvent.x e) (MouseEvent.y e)) /\
  State.tool (handleMouseDown now e st) = State.tool st /\
  History.present (State.history (handleMouseDown now e st)) =
    History.present (State.history st) ++
    [newShape now (MouseEvent.x e) (MouseEvent.y e) st].
Proof.
  intros now e st Ht Hh Hf Hs. unfold noHandleHit, noElementHit in *.
  unfold handleMouseDown. cbv zeta. read_state. rewrite Hh, Hf, Hs.
  cbn [negb orb].
  destruct (State.tool st) eqn:Et; try discriminate;
    cbn [ElementType_eqb orb];
    destruct (existsb _ _); read_state; rewrite ?Et; repeat split.
Qed.

Lemma newShape_points : forall now x y (st : State.t num),
  State.tool st = line \/ State.tool st = arrow ->
  Element.points (newShape now x y st) <> None.
Proof.
  intros now x y st [ H | H ]; unfold newShape; rewrite H; discriminate.
Qed.

(** X9: the shape a drawing gesture leaves is set by its last pointer-move
    alone: a pointer-down with the rectangle, circle, line or arrow tool on
    the empty canvas, any pointer-moves and a last one, then pointer-up,
    leave the scene of before with one more element, the new shape as the
    last move alone would have drawn it. *)
Theorem drawn_shape_is_set_by_the_last_move :
  forall (st : State.t num) (now : string) (down : MouseEvent.t num)
    (moves : list (MouseEvent.t num)) (lastMove : MouseEvent.t num),
  is_shape_tool (State.tool st) = true ->
  noHandleHit down st ->
  noElementHit down st ->
  MouseEvent.shiftKey down = false ->
  History.present
    (State.history (dragGesture now down (moves ++ [lastMove]) st)) =
  History.present (State.history st) ++
  [drawStep (State.tool st) lastMove
     (newShape now (MouseEvent.x down) (MouseEvent.y down) st)].
Proof.
  intros st now down moves lastMove Ht Hh Hf Hs.
  destruct (handleMouseDown_drawing now down st Ht Hh Hf Hs)
    as (Ha & Hsp & Htool & Hp).
  unfold dragGesture.
  set (afterDown := handleMouseDown now down st) in *.
  destruct (handleMouseMoves_live (moves ++ [lastMove]) afterDown)
    as (_ & _ & Hact).
  destruct (handleMouseUp_commits_present
              (fold_left (fun s e => handleMouseMove e s) (moves ++ [lastMove])
                 afterDown)) as [Hup _].
  { left. rewrite Hact. exact Ha. }
  rewrite Hup.
  rewrite (drawing_moves (moves ++ [lastMove]) afterDown
             (History.present (State.history st))
             (newShape now (MouseEvent.x down) (MouseEvent.y down) st)).
  - rewrite Htool, drawStep_fold_last. reflexivity.
  - exact Ha.
  - rewrite Hsp. discriminate.
  - rewrite Htool. exact Ht.
  - exact Hp.
  - rewrite Htool. apply newShape_points.
Qed.

(** X10: a pointer-down on the empty canvas with a shape tool while elements
    are selected commits twice: first the scene with every element
    deselected, then the scene of the render with the new shape appended.
    The second commit starts from the scene the handler was created with, so
    the elements keep their selection marks in the present scene although
    the primary selection is cleared. *)
Theorem drawing_start_keeps_the_selection_marks :
  forall (st : State.t num) (now : string) (down : MouseEvent.t num),
  is_shape_tool (State.tool st) = true ->
  noHandleHit down st ->
  noElementHit down st ->
  MouseEvent.shiftKey down = false ->
  existsb (fun el => truthy (Element.selected el))
    (History.present (State.history st)) = true ->
  State.history (handleMouseDown now down st) =
    updateHistory
      (History.present (State.history st) ++
       [newShape now (MouseEvent.x down) (MouseEvent.y down) st])
      (updateHistory (deselectAll (History.present (State.history st)))
         (State.history st)) /\
  State.selectedElement (handleMouseDown now down st) = None /\
  existsb (fun el => truthy (Element.selected el))
    (History.present (State.history (handleMouseDown now down st))) = true.
Proof.
  intros st now down Ht Hh Hf Hs Hsel.
  assert (E : State.history (handleMouseDown now down st) =
    updateHistory
      (History.present (State.history st) ++
       [newShape now (MouseEvent.x down) (MouseEvent.y down) st])
      (updateHistory (deselectAll (History.present (State.history st)))
         (State.history st)) /\
    State.selectedElement (handleMouseDown now down st) = None).
  { unfold noHandleHit, noElementHit in *.
    unfold handleMouseDown. cbv zeta. read_state. rewrite Hh, Hf, Hs, Hsel.
    cbn [negb orb].
    destruct (State.tool st) eqn:Et; try discriminate;
      cbn [ElementType_eqb orb]; read_state; split; reflexivity. }
  destruct E as [E1 E2]. rewrite E1, E2.
  split; [ reflexivity | ]. split; [ reflexivity | ].
  unfold updateHistory at 1. cbn [History.present].
  rewrite existsb_app, Hsel. reflexivity.
Qed.

End MoreGestures.

(** ** Moves in exact arithmetic *)

Lemma ideal_add_fin_assoc : forall (a : ideal) (p q : R),
  ideal_add (ideal_add a (IFin p)) (IFin q) = ideal_add a (IFin (p + q)).
Proof.
  intros [ | s | r ] p q; cbn; try reflexivity. f_equal. ring.
Qed.

Lemma ideal_add_zero : forall a : ideal, ideal_add a (IFin 0) = a.
Proof.
  intros [ | s | r ]; cbn; try reflexivity. f_equal. ring.
Qed.

Lemma moveElement_adds_up : forall (a a' b b' : R) (el : Element.t ideal),
  moveElement (IFin b) (IFin b') (moveElement (IFin a) (IFin a') el) =
  moveElement (IFin (a + b)) (IFin (a' + b')) el.
Proof.
  intros a a' b b' el. unfold moveElement.
  destruct (truthy (Element.selected el)) eqn:Es.
  - destruct (Element.type el) eqn:Et.
    all: cbn [Element.selected Element.type Element.points Element.x Element.y
              Element.with_x Element.with_y Element.with_points];
      try rewrite Es; try rewrite Et; try reflexivity.
    all: try (unfold Element.with_x, Element.with_y;
              cbn [Element.id Element.type Element.x Element.y Element.width
                   Element.height Element.radius Element.points Element.text
                   Element.fill Element.stroke Element.strokeWidth
                   Element.isDragging Element.selected Element.rotation
                   js_add ideal_number];
              rewrite !ideal_add_fin_assoc; reflexivity).
    all: destruct (Element.points el) as [ points | ] eqn:Ep;
      cbn [Element.selected Element.type Element.points Element.with_points];
      rewrite ?Es, ?Et, ?Ep; try reflexivity.
    all: unfold Element.with_points;
      cbn [Element.id Element.type Element.x Element.y Element.width
           Element.height Element.radius Element.points Element.text
           Element.fill Element.stroke Element.strokeWidth
           Element.isDragging Element.selected Element.rotation];
      rewrite map_map; do 2 f_equal; apply map_ext; intros point;
      cbn [Point.x Point.y js_add ideal_number];
      rewrite !ideal_add_fin_assoc; reflexivity.
  - rewrite Es. reflexivity.
Qed.

Lemma moveElement_zero : forall el : Element.t ideal,
  moveElement (IFin 0) (IFin 0) el = el.
Proof.
  intros el. unfold moveElement.
  destruct (truthy (Element.selected el)); [ | reflexivity ].
  destruct el as [i t x y w h r pts txt f s sw d sel rot].
  cbn [Element.type Element.points Element.x Element.y].
  destruct t; try reflexivity;
    try (unfold Element.with_x, Element.with_y; cbn; rewrite !ideal_add_zero;
         reflexivity).
  all: destruct pts as [ points | ]; [ | reflexivity ];
    unfold Element.with_points; cbn; do 2 f_equal;
    rewrite <- (map_id points) at 2; apply map_ext; intros [px py];
    cbn; rewrite !ideal_add_zero; reflexivity.
Qed.

(** The fields of a moved element, one by one. *)
Lemma moveElement_fields : forall (num : Type) (NUM : JSNumber num)
  (dx dy : num) (el : Element.t num),
  moveElement dx dy el =
  if truthy (Element.selected el) then
    Element.mk (Element.id el) (Element.type el)
      (match Element.type el with
       | rectangle | text | circle => js_add (Element.x el) dx
       | _ => Element.x el
       end)
      (match Element.type el with
       | rectangle | text | circle => js_add (Element.y el) dy
       | _ => Element.y el
       end)
      (Element.width el) (Element.height el) (Element.radius el)
      (match Element.type el with
       | line | arrow =>
           option_map
             (map (fun point =>
                     Point.mk (js_add (Point.x point) dx)
                              (js_add (Point.y point) dy)))
             (Element.points el)
       | _ => Element.points el
       end)
      (Element.text el) (Element.fill el) (Element.stroke el)
      (Element.strokeWidth el) (Element.isDragging el) (Element.selected el)
      (Element.rotation el)
  else el.
Proof.
  intros num NUM dx dy [i t x y w h r pts txt f s sw d sel rot].
  unfold moveElement. cbn.
  destruct (truthy sel); [ | reflexivity ].
  destruct t; destruct pts; reflexivity.
Qed.


(** The pointer-moves of a move gesture compose into one move. *)
Lemma moves_compose :
  forall (moves : list (R * R)) (alt : bool) (st : State.t ideal) (sx sy : R),
  State.action st = moving ->
  State.startPoint st = Some (Point.mk (IFin sx) (IFin sy)) ->
  History.present
    (State.history
       (fold_left (fun s e => handleMouseMove e s)
          (map (fun p => MouseEvent.mk (IFin (fst p)) (IFin (snd p)) false alt)
               moves) st)) =
  map (moveElement (IFin (fst (last moves (sx, sy)) - sx))
                   (IFin (snd (last moves (sx, sy)) - sy)))
      (History.present (State.history st)).
Proof.
  intros moves alt. induction moves as [ | [x y] moves IH ];
    intros st sx sy Ha Hs.
  - cbn [map fold_left last fst snd].
    replace (sx - sx)%R with 0%R by ring. replace (sy - sy)%R with 0%R by ring.
    rewrite <- (map_id (History.present (State.history st))) at 1.
    apply map_ext. intros el. symmetry. apply moveElement_zero.
  - rewrite last_cons_default. cbn [map fold_left fst snd].
    set (e := MouseEvent.mk (IFin x) (IFin y) false alt).
    assert (H1 : History.present (State.history (handleMouseMove e st)) =
                 map (moveElement (IFin (x - sx)) (IFin (y - sy)))
                     (History.present (State.history st)) /\
                 State.action (handleMouseMove e st) = moving /\
                 State.startPoint (handleMouseMove e st) =
                   Some (Point.mk (IFin x) (IFin y))).
    { unfold handleMouseMove. rewrite Ha, Hs. cbv zeta.
      destruct (State.selectedElement st) as [ sel | ];
        [ destruct (truthy (Element.selected sel)); [ destruct (find _ _) | ] | ];
        read_state; repeat split; exact Ha. }
    destruct H1 as (Hp & Ha' & Hs').
    rewrite (IH (handleMouseMove e st) x y Ha' Hs'), Hp, map_map.
    apply map_ext. intros el. rewrite moveElement_adds_up.
    f_equal; f_equal; ring.
Qed.

(** X12: in exact arithmetic, the pointer-moves of a move gesture add up.
    After any number of them (without Shift, with or without Alt, at finite
    positions) every
    selected element is displaced once by the offset from the start point
    to the last position of the pointer: the origin of a rectangle, a text
    or a circle and every point of a line or an arrow are shifted by it, no
    other field changes, and the elements that are not selected are as they
    were. *)
Theorem moves_add_up :
  forall (moves : list (R * R)) (alt : bool) (st : State.t ideal)
    (sx sy : R),
  State.action st = moving ->
  State.startPoint st = Some (Point.mk (IFin sx) (IFin sy)) ->
  let dx := IFin (fst (last moves (sx, sy)) - sx) in
  let dy := IFin (snd (last moves (sx, sy)) - sy) in
  let displaced (el : Element.t ideal) :=
    Element.mk (Element.id el) (Element.type el)
      (match Element.type el with
       | rectangle | text | circle => js_add (Element.x el) dx
       | _ => Element.x el
       end)
      (match Element.type el with
       | rectangle | text | circle => js_add (Element.y el) dy
       | _ => Element.y el
       end)
      (Element.width el) (Element.height el) (Element.radius el)
      (match Element.type el with
       | line | arrow =>
           option_map
             (map (fun point =>
                     Point.mk (js_add (Point.x point) dx)
                              (js_add (Point.y point) dy)))
             (Element.points el)
       | _ => Element.points el
       end)
      (Element.text el) (Element.fill el) (Element.stroke el)
      (Element.strokeWidth el) (Element.isDragging el) (Element.selected el)
      (Element.rotation el) in
  History.present
    (State.history
       (run st
          (map (fun p => MouseMove
                           (MouseEvent.mk (IFin (fst p)) (IFin (snd p))
                              false alt)) moves))) =
  map (fun el => if truthy (Element.selected el) then displaced el else el)
      (History.present (State.history st)).
Proof.
  intros moves alt st sx sy Ha Hs dx dy displaced.
  rewrite <- map_map, run_moves, (moves_compose moves alt st sx sy Ha Hs).
  apply map_ext. intros el. apply moveElement_fields.
Qed.

(** X11: in exact arithmetic, Alt-drag moves the original together with its
    duplicate.  The pointer-down with Alt (without Shift) on [clicked], an
    element that JSON cloning leaves unchanged, marks as selected exactly the
    elements that carry the id of [clicked], appends a selected copy of
    [clicked] under the id [now] and makes the copy primary; after any
    pointer-moves (without Shift, Alt held or not, at finite positions) and
    the pointer-up,
    the copy and every element that carries the id of [clicked] are
    displaced by the same offset, from the down-point to the last position
    of the pointer, and the other elements are deselected and not moved. *)
Theorem alt_drag_moves_the_original_too :
  forall (st : State.t ideal) (now : string) (sx sy : R)
    (moves : list (R * R)) (alt : bool) (clicked : Element.t ideal),
  let down := MouseEvent.mk (IFin sx) (IFin sy) false true in
  let elements := History.present (State.history st) in
  noHandleHit down st ->
  find (fun element => isPointInElement (IFin sx) (IFin sy) element) elements =
    Some clicked ->
  JSON_clone clicked = clicked ->
  let dx := IFin (fst (last moves (sx, sy)) - sx) in
  let dy := IFin (snd (last moves (sx, sy)) - sy) in
  let marked (el : Element.t ideal) :=
    Element.mk (Element.id el) (Element.type el) (Element.x el) (Element.y el)
      (Element.width el) (Element.height el) (Element.radius el)
      (Element.points el) (Element.text el) (Element.fill el)
      (Element.stroke el) (Element.strokeWidth el) (Element.isDragging el)
      (Some (Element.id el =? Element.id clicked)%string)
      (Element.rotation el) in
  let twin :=
    Element.mk now (Element.type clicked) (Element.x clicked)
      (Element.y clicked) (Element.width clicked) (Element.height clicked)
      (Element.radius clicked) (Element.points clicked) (Element.text clicked)
      (Element.fill clicked) (Element.stroke clicked)
      (Element.strokeWidth clicked) (Element.isDragging clicked) (Some true)
      (Element.rotation clicked) in
  let displaced (el : Element.t ideal) :=
    Element.mk (Element.id el) (Element.type el)
      (match Element.type el with
       | rectangle | text | circle => js_add (Element.x el) dx
       | _ => Element.x el
       end)
      (match Element.type el with
       | rectangle | text | circle => js_add (Element.y el) dy
       | _ => Element.y el
       end)
      (Element.width el) (Element.height el) (Element.radius el)
      (match Element.type el with
       | line | arrow =>
           option_map
             (map (fun point =>
                     Point.mk (js_add (Point.x point) dx)
                              (js_add (Point.y point) dy)))
             (Element.points el)
       | _ => Element.points el
       end)
      (Element.text el) (Element.fill el) (Element.stroke el)
      (Element.strokeWidth el) (Element.isDragging el) (Element.selected el)
      (Element.rotation el) in
  In clicked elements /\
  History.present (State.history (handleMouseDown now down st)) =
    map marked elements ++ [twin] /\
  State.selectedElement (handleMouseDown now down st) = Some twin /\
  History.present
    (State.history
       (dragGesture now down
          (map (fun p => MouseEvent.mk (IFin (fst p)) (IFin (snd p)) false alt)
               moves) st)) =
    map (fun el =>
           if (Element.id el =? Element.id clicked)%string
           then displaced (marked el) else marked el) elements ++
    [displaced twin].
Proof.
  intros st now sx sy moves alt clicked down elements Hh Hf Hclone dx dy marked
    twin displaced.
  pose proof (find_some _ _ Hf) as [Hin _].
  split; [ exact Hin | ].
  assert (Hdown :
    State.action (handleMouseDown now down st) = moving /\
    State.startPoint (handleMouseDown now down st) =
      Some (Point.mk (IFin sx) (IFin sy)) /\
    History.present (State.history (handleMouseDown now down st)) =
      map marked elements ++ [twin] /\
    State.selectedElement (handleMouseDown now down st) = Some twin).
  { unfold noHandleHit in Hh. unfold handleMouseDown. cbv zeta.
    cbn [MouseEvent.x MouseEvent.y MouseEvent.shiftKey MouseEvent.altKey down]
      in *.
    read_state. fold elements. rewrite Hh, Hf, Hclone. read_state.
    repeat split. }
  destruct Hdown as (Ha & Hs & Hp & Hsel).
  split; [ exact Hp | ]. split; [ exact Hsel | ].
  unfold dragGesture.
  set (afterDown := handleMouseDown now down st) in *.
  set (events := map (fun p => MouseEvent.mk (IFin (fst p)) (IFin (snd p))
                                 false alt) moves).
  destruct (handleMouseMoves_live events afterDown) as (_ & _ & Hact).
  destruct (handleMouseUp_commits_present
              (fold_left (fun s e => handleMouseMove e s) events afterDown))
    as [Hup _].
  { right. left. rewrite Hact. exact Ha. }
  rewrite Hup. unfold events.
  rewrite (moves_compose moves alt afterDown sx sy Ha Hs), Hp, map_app, map_map.
  cbn [map]. f_equal.
  - apply map_ext. intros el. rewrite moveElement_fields.
    unfold displaced, marked.
    cbn [Element.id Element.type Element.x Element.y Element.width
         Element.height Element.radius Element.points Element.text
         Element.fill Element.stroke Element.strokeWidth Element.isDragging
         Element.selected Element.rotation truthy].
    destruct (Element.id el =? Element.id clicked)%string; reflexivity.
  - rewrite moveElement_fields. reflexivity.
Qed.

(** ** Further properties of the geometry *)

Lemma float_abs_not_negative : forall a : float,
  PrimFloat.ltb (PrimFloat.abs a) (js_lit 0) = false.
Proof.
  intros a. rewrite FloatAxioms.ltb_spec, FloatAxioms.abs_spec.
  change (Prim2SF (js_lit 0)) with (S754_zero false).
  destruct (Prim2SF a) as [ s | s | | s m e ]; reflexivity.
Qed.

Lemma normalized_extent : forall p w : float,
  js_lt (snd (if js_lt w (js_lit 0) then (js_add p w, Math_abs w) else (p, w)))
        (js_lit 0) = false.
Proof.
  intros p w. destruct (js_lt w (js_lit 0)) eqn:E; cbn [snd].
  - apply float_abs_not_negative.
  - exact E.
Qed.

(** X13: in binary64, a resize never leaves a rectangle with a negative
    width or height, whatever the handle, the pointer and the element: the
    extents the resize stores are set, and neither is below zero. *)
Theorem resize_never_leaves_a_negative_extent :
  forall (x y : float) (shiftKey : bool) (activeHandle : HandlePosition)
    (el : Element.t float),
  exists w h,
    Element.width (resizeRectangle x y shiftKey activeHandle el) = Some w /\
    Element.height (resizeRectangle x y shiftKey activeHandle el) = Some h /\
    js_lt w (js_lit 0) = false /\ js_lt h (js_lit 0) = false.
Proof.
  intros x y shiftKey activeHandle el. unfold resizeRectangle. cbv zeta.
  destruct (match activeHandle with top_left => _ | _ => _ end)
    as [[[newX newY] newWidth] newHeight].
  destruct (if shiftKey && _ && _ then _ else _) as [newWidth' newHeight'].
  pose proof (normalized_extent newX newWidth') as Hw.
  pose proof (normalized_extent newY newHeight') as Hh.
  destruct (if js_lt newWidth' (js_lit 0) then _ else _) as [newX' w].
  destruct (if js_lt newHeight' (js_lit 0) then _ else _) as [newY' h].
  exists w, h. repeat split; assumption.
Qed.

Lemma orElse_fin : forall r : R,
  orElse (Some (IFin r)) (IFin 0) = IFin r.
Proof.
  intros r. unfold orElse. cbn. unfold Reqb.
  destruct (Req_dec_T r 0); cbn; [ subst; reflexivity | reflexivity ].
Qed.

Ltac real_cases :=
  unfold Rleb, Rltb, Reqb, Rmin, Rmax, Rabs;
  repeat match goal with
         | |- context [Rle_dec ?a ?b] => destruct (Rle_dec a b); try lra
         | |- context [Rlt_dec ?a ?b] => destruct (Rlt_dec a b); try lra
         | |- context [Req_dec_T ?a ?b] => destruct (Req_dec_T a b); try lra
         | |- context [Rcase_abs ?a] => destruct (Rcase_abs a); try lra
         end.

Ltac ideal_ops :=
  cbn [js_lit js_add js_sub js_mul js_div js_neg js_lt js_le js_eq Math_abs
       Math_sqrt ToBoolean ideal_number ideal_add ideal_sub ideal_mul
       ideal_div ideal_opp ideal_lt ideal_le ideal_eq ideal_abs ideal_sqrt
       ideal_ToBoolean].

(** One step of a corner resize without Shift: the origin and the extents
    it stores. *)
Lemma corner_resize_extents :
  forall (h : HandlePosition) (ex ey w hh px py : R) (el : Element.t ideal),
  is_corner h = true ->
  Element.x el = IFin ex -> Element.y el = IFin ey ->
  Element.width el = Some (IFin w) -> Element.height el = Some (IFin hh) ->
  let r := resizeRectangle (IFin px) (IFin py) false h el in
  Element.x r = IFin (Rmin px (fst (oppositeCorner h ex ey w hh))) /\
  Element.y r = IFin (Rmin py (snd (oppositeCorner h ex ey w hh))) /\
  Element.width r = Some (IFin (Rabs (px - fst (oppositeCorner h ex ey w hh)))) /\
  Element.height r = Some (IFin (Rabs (py - snd (oppositeCorner h ex ey w hh)))).
Proof.
  intros h ex ey w hh px py el Hc Hx Hy Hw Hh r. subst r.
  unfold resizeRectangle. rewrite Hx, Hy, Hw, Hh.
  change (js_lit 0) with (IFin 0). rewrite !orElse_fin.
  destruct h; try discriminate; cbn [andb oppositeCorner fst snd].
  all: ideal_ops.
  all: unfold Rltb;
       repeat match goal with
              | |- context [Rlt_dec ?a ?b] => destruct (Rlt_dec a b)
              end;
       cbn [Element.x Element.y Element.width Element.height
            Element.with_x Element.with_y Element.with_width Element.with_height
            js_add ideal_number ideal_add ideal_abs].
  all: repeat split;
       match goal with
       | |- IFin _ = IFin _ => apply (f_equal IFin)
       | |- Some (IFin _) = Some (IFin _) =>
           apply (f_equal (fun v => Some (IFin v)))
       end;
       unfold Rmin, Rabs;
       repeat match goal with
              | |- context [Rle_dec ?a ?b] => destruct (Rle_dec a b)
              | |- context [Rcase_abs ?a] => destruct (Rcase_abs a)
              end; cbn in *; lra.
Qed.

Section Resizing.
Context {num : Type} {NUM : JSNumber num} {MATH : JSMath num}.

(** A pointer-move of a resize with a handle other than the rotation handle
    maps [resizeElement] over the elements that carry the id of the primary
    selection. *)
Lemma resizing_move :
  forall (e : MouseEvent.t num) (st : State.t num) (sel : Element.t num)
    (h : HandlePosition) (sp : Point.t num),
  State.action st = resizing ->
  State.startPoint st = Some sp ->
  State.selectedElement st = Some sel ->
  State.activeHandle st = Some h ->
  is_corner h = true ->
  let st' := handleMouseMove e st in
  History.present (State.history st') =
    map (fun el =>
           if (Element.id el =? Element.id sel)%string
           then resizeElement (MouseEvent.x e) (MouseEvent.y e)
                  (MouseEvent.shiftKey e) h el
           else el) (History.present (State.history st)) /\
  State.action st' = resizing /\
  State.startPoint st' = Some sp /\
  State.activeHandle st' = Some h /\
  exists sel', State.selectedElement st' = Some sel' /\
               Element.id sel' = Element.id sel.
Proof.
  intros e st sel h sp Ha Hs Hsel Hh Hc st'. subst st'.
  unfold handleMouseMove. rewrite Ha, Hs, Hsel, Hh. cbv zeta.
  assert (E : forall el : Element.t num,
            match h with
            | rotation_ =>
                rotateElement (MouseEvent.x e) (MouseEvent.y e)
                  (MouseEvent.shiftKey e) el
            | _ => resizeElement (MouseEvent.x e) (MouseEvent.y e)
                     (MouseEvent.shiftKey e) h el
            end =
            resizeElement (MouseEvent.x e) (MouseEvent.y e)
              (MouseEvent.shiftKey e) h el).
  { intros el. destruct h; try discriminate; reflexivity. }
  match goal with
  | |- context [find ?f ?l] => destruct (find f l) as [ upd | ] eqn:Ef
  end; read_state; cbn [History.present setPresent].
  - split; [ apply map_ext; intros el; rewrite E; reflexivity | ].
    repeat split; try assumption.
    exists upd. split; [ reflexivity | ].
    apply find_some in Ef. destruct Ef as [_ Ef].
    apply String.eqb_eq in Ef. exact Ef.
  - split; [ apply map_ext; intros el; rewrite E; reflexivity | ].
    repeat split; try assumption.
    exists sel. split; [ exact Hsel | reflexivity ].
Qed.

End Resizing.

(** One step of a corner resize without Shift, field by field. *)
Lemma resizeRectangle_corner :
  forall (h : HandlePosition) (ex ey w hh px py : R) (el : Element.t ideal),
  is_corner h = true ->
  Element.x el = IFin ex -> Element.y el = IFin ey ->
  Element.width el = Some (IFin w) -> Element.height el = Some (IFin hh) ->
  resizeRectangle (IFin px) (IFin py) false h el =
  Element.mk (Element.id el) (Element.type el)
    (IFin (Rmin px (fst (oppositeCorner h ex ey w hh))))
    (IFin (Rmin py (snd (oppositeCorner h ex ey w hh))))
    (Some (IFin (Rabs (px - fst (oppositeCorner h ex ey w hh)))))
    (Some (IFin (Rabs (py - snd (oppositeCorner h ex ey w hh)))))
    (Element.radius el) (Element.points el) (Element.text el)
    (Element.fill el) (Element.stroke el) (Element.strokeWidth el)
    (Element.isDragging el) (Element.selected el) (Element.rotation el).
Proof.
  intros h ex ey w hh px py el Hc Hx Hy Hw Hh.
  destruct (corner_resize_extents h ex ey w hh px py
              el Hc Hx Hy Hw Hh) as (H1 & H2 & H3 & H4).
  rewrite <- H1, <- H2, <- H3, <- H4.
  unfold resizeRectangle. cbv zeta.
  destruct (match h with top_left => _ | _ => _ end)
    as [[[newX newY] newWidth] newHeight].
  cbn [andb].
  destruct (if js_lt newWidth (js_lit 0) then _ else _) as [newX' w'].
  destruct (if js_lt newHeight (js_lit 0) then _ else _) as [newY' h'].
  reflexivity.
Qed.

(** The corner opposite the handle does not move while the pointer stays on
    the side of the handle. *)
Lemma oppositeCorner_kept :
  forall (h : HandlePosition) (ex ey w hh px py : R),
  is_corner h = true ->
  onHandleSide h (px, py) (oppositeCorner h ex ey w hh) ->
  oppositeCorner h
    (Rmin px (fst (oppositeCorner h ex ey w hh)))
    (Rmin py (snd (oppositeCorner h ex ey w hh)))
    (Rabs (px - fst (oppositeCorner h ex ey w hh)))
    (Rabs (py - snd (oppositeCorner h ex ey w hh))) =
  oppositeCorner h ex ey w hh.
Proof.
  intros h ex ey w hh px py Hc Hside.
  destruct h; try discriminate;
    cbn [oppositeCorner onHandleSide fst snd] in *;
    destruct Hside as [H1 H2]; f_equal;
    unfold Rmin, Rabs;
    repeat match goal with
           | |- context [Rle_dec ?a ?b] => destruct (Rle_dec a b)
           | |- context [Rcase_abs ?a] => destruct (Rcase_abs a)
           end; lra.
Qed.

(** X14: in exact arithmetic, a drag of a corner handle of a rectangle
    without Shift leaves the rectangle spanned by the pointer and the corner
    opposite the handle, as long as the pointer did not cross that corner
    before its last move.  In a state that is resizing with the corner
    handle [h], every rectangle that carries the id of the primary
    selection, after pointer-moves that stay on the side of the handle and a
    last pointer-move anywhere, has for origin the minimum, on each axis, of
    the last position of the pointer and the corner that was opposite [h]
    when the drag started, and for extents the distances between the two;
    its other fields are as they were.  (Nothing is claimed of the moves
    that follow a move across the corner: the rectangle is then flipped
    while the handle keeps its name.) *)
Theorem corner_resize_spans_pointer_and_opposite_corner :
  forall (moves : list (R * R)) (alt : bool) (st : State.t ideal)
    (sel : Element.t ideal)
    (h : HandlePosition) (sp : Point.t ideal) (px py : R) (i : nat)
    (el : Element.t ideal) (ex ey w hh : R),
  State.action st = resizing ->
  State.startPoint st = Some sp ->
  State.selectedElement st = Some sel ->
  State.activeHandle st = Some h ->
  is_corner h = true ->
  nth_error (History.present (State.history st)) i = Some el ->
  Element.id el = Element.id sel ->
  Element.type el = rectangle ->
  Element.x el = IFin ex -> Element.y el = IFin ey ->
  Element.width el = Some (IFin w) -> Element.height el = Some (IFin hh) ->
  Forall (fun p => onHandleSide h p (oppositeCorner h ex ey w hh)) moves ->
  nth_error
    (History.present
       (State.history
          (fold_left (fun s e => handleMouseMove e s)
             (map (fun p => MouseEvent.mk (IFin (fst p)) (IFin (snd p))
                              false alt) (moves ++ [(px, py)])) st))) i =
  Some (Element.mk (Element.id el) rectangle
          (IFin (Rmin px (fst (oppositeCorner h ex ey w hh))))
          (IFin (Rmin py (snd (oppositeCorner h ex ey w hh))))
          (Some (IFin (Rabs (px - fst (oppositeCorner h ex ey w hh)))))
          (Some (IFin (Rabs (py - snd (oppositeCorner h ex ey w hh)))))
          (Element.radius el) (Element.points el) (Element.text el)
          (Element.fill el) (Element.stroke el) (Element.strokeWidth el)
          (Element.isDragging el) (Element.selected el) (Element.rotation el)).
Proof.
  intros moves alt. revert moves.
  assert (Hstep : forall (st : State.t ideal) (sel : Element.t ideal)
            (h : HandlePosition) (sp : Point.t ideal) (qx qy : R) (i : nat)
            (el : Element.t ideal) (ex ey w hh : R),
    State.action st = resizing ->
    State.startPoint st = Some sp ->
    State.selectedElement st = Some sel ->
    State.activeHandle st = Some h ->
    is_corner h = true ->
    nth_error (History.present (State.history st)) i = Some el ->
    Element.id el = Element.id sel ->
    Element.type el = rectangle ->
    Element.x el = IFin ex -> Element.y el = IFin ey ->
    Element.width el = Some (IFin w) -> Element.height el = Some (IFin hh) ->
    nth_error
      (History.present
         (State.history
            (handleMouseMove (MouseEvent.mk (IFin qx) (IFin qy) false alt) st)))
      i =
    Some (Element.mk (Element.id el) rectangle
            (IFin (Rmin qx (fst (oppositeCorner h ex ey w hh))))
            (IFin (Rmin qy (snd (oppositeCorner h ex ey w hh))))
            (Some (IFin (Rabs (qx - fst (oppositeCorner h ex ey w hh)))))
            (Some (IFin (Rabs (qy - snd (oppositeCorner h ex ey w hh)))))
            (Element.radius el) (Element.points el) (Element.text el)
            (Element.fill el) (Element.stroke el) (Element.strokeWidth el)
            (Element.isDragging el) (Element.selected el)
            (Element.rotation el))).
  { intros st sel h sp qx qy i el ex ey w hh Ha Hs Hsel Hh Hc Hi Hid Ht Hx Hy
      Hw Hhh.
    destruct (resizing_move (MouseEvent.mk (IFin qx) (IFin qy) false alt)
                st sel h sp Ha Hs Hsel Hh Hc) as (Hp & _).
    rewrite Hp, nth_error_map, Hi. cbn [option_map MouseEvent.x MouseEvent.y
                                         MouseEvent.shiftKey].
    rewrite <- Hid, String.eqb_refl. unfold resizeElement. rewrite Ht.
    rewrite (resizeRectangle_corner h ex ey w hh qx qy el Hc Hx Hy Hw Hhh), Ht.
    reflexivity. }
  intros moves. induction moves as [ | [qx qy] moves IH ];
    intros st sel h sp px py i el ex ey w hh Ha Hs Hsel Hh Hc Hi Hid Ht Hx Hy
      Hw Hhh Hside.
  - cbn [app map fold_left fst snd].
    apply (Hstep st sel h sp px py i el ex ey w hh); assumption.
  - cbn [app map fold_left fst snd].
    inversion Hside as [ | p ps Hq Hrest ]; subst.
    set (e := MouseEvent.mk (IFin qx) (IFin qy) false alt).
    destruct (resizing_move e st sel h sp Ha Hs Hsel Hh Hc)
      as (_ & Ha' & Hs' & Hh' & sel' & Hsel' & Hid').
    pose proof (Hstep st sel h sp qx qy i el ex ey w hh Ha Hs Hsel Hh Hc Hi Hid
                  Ht Hx Hy Hw Hhh) as Hi'.
    fold e in Hi'.
    set (c := oppositeCorner h ex ey w hh) in *.
    pose proof (oppositeCorner_kept h ex ey w hh qx qy Hc Hq) as Hk.
    fold c in Hk.
    specialize (IH (handleMouseMove e st) sel' h sp px py i _
                  (Rmin qx (fst c)) (Rmin qy (snd c))
                  (Rabs (qx - fst c)) (Rabs (qy - snd c))
                  Ha' Hs' Hsel' Hh' Hc Hi').
    cbn [Element.id Element.type Element.x Element.y Element.width
         Element.height Element.radius Element.points Element.text
         Element.fill Element.stroke Element.strokeWidth Element.isDragging
         Element.selected Element.rotation] in IH.
    rewrite Hk in IH.
    apply IH; try reflexivity; try congruence; exact Hrest.
Qed.

(** The comparisons of reals that decide a hit, one at a time. *)
Ltac hit_cases :=
  repeat (ideal_ops; unfold Rleb, Rltb, Reqb; cbn [andb orb negb];
          match goal with
          | |- context [Rle_dec ?a ?b] => destruct (Rle_dec a b); try lra
          | |- context [Rlt_dec ?a ?b] => destruct (Rlt_dec a b); try lra
          | |- context [Req_dec_T ?a ?b] => destruct (Req_dec_T a b); try lra
          end);
  ideal_ops; cbn [andb orb negb].

Section Grab.
Context {num : Type} {NUM : JSNumber num}.

(** A pointer-down tests the handles of the primary selection first: a
    handle under the pointer starts a resize with it, and without one the
    active handle is left as it was. *)
Lemma handleMouseDown_handle :
  forall (st : State.t num) (now : string) (e : MouseEvent.t num)
    (sel : Element.t num),
  State.selectedElement st = Some sel ->
  let st' := handleMouseDown now e st in
  match getHandleAtPosition (MouseEvent.x e) (MouseEvent.y e) sel with
  | Some handle =>
      State.action st' = resizing /\ State.activeHandle st' = Some handle
  | None => State.activeHandle st' = State.activeHandle st
  end.
Proof.
  intros st now e sel Hsel st'. subst st'. unfold handleMouseDown. cbv zeta.
  read_state. rewrite Hsel.
  destruct (getHandleAtPosition (MouseEvent.x e) (MouseEvent.y e) sel).
  - read_state. split; reflexivity.
  - destruct (find _ _) as [ clicked | ].
    + destruct (MouseEvent.altKey e); [ reflexivity | ].
      destruct (negb (MouseEvent.shiftKey e) &&
                negb (truthy (Element.selected clicked)));
        [ reflexivity | ].
      destruct (negb (truthy (Element.selected clicked)) ||
                negb (MouseEvent.shiftKey e)); reflexivity.
    + destruct (negb (MouseEvent.shiftKey e));
        [ destruct (existsb _ _) | ];
        (destruct (ElementType_eqb (State.tool st) selection ||
                   MouseEvent.shiftKey e);
         [ reflexivity | destruct (State.tool st); reflexivity ]).
Qed.

Lemma grab_handle :
  forall (st : State.t num) (now : string) (shift alt : bool) (x y : num)
    (sel : Element.t num) (handle : HandlePosition),
  State.selectedElement st = Some sel ->
  getHandleAtPosition x y sel = Some handle ->
  grab now shift alt st x y = (resizing, Some handle).
Proof.
  intros st now shift alt x y sel handle Hsel Hh. unfold grab. cbv zeta.
  pose proof (handleMouseDown_handle st now (MouseEvent.mk x y shift alt) sel Hsel)
    as H.
  cbv zeta in H. cbn [MouseEvent.x MouseEvent.y] in H. rewrite Hh in H.
  destruct H as [-> ->]. reflexivity.
Qed.

Lemma grab_nothing :
  forall (st : State.t num) (now : string) (shift alt : bool) (x y : num)
    (sel : Element.t num),
  State.selectedElement st = Some sel ->
  getHandleAtPosition x y sel = None ->
  snd (grab now shift alt st x y) = State.activeHandle st.
Proof.
  intros st now shift alt x y sel Hsel Hh. unfold grab. cbv zeta.
  pose proof (handleMouseDown_handle st now (MouseEvent.mk x y shift alt) sel Hsel)
    as H.
  cbv zeta in H. cbn [MouseEvent.x MouseEvent.y] in H. rewrite Hh in H.
  exact H.
Qed.

End Grab.

(** X15: in exact arithmetic, a rectangle wider and higher than 8 is grabbed
    where its handles are drawn, when it is drawn unrotated and the primary
    selection has its geometry.  For an element [el] of the scene whose
    selection the render effect draws without rotating the canvas, and a
    primary selection [sel] (the record that the pointer-down tests) with
    the type, origin and extents of [el], a pointer-down at the centre of
    each of the eight squares drawn for [el] starts a resize with the handle
    of that square, and a pointer-down at the centre of the disc drawn for
    the rotation handle starts one with the rotation handle, whatever the
    modifier keys. *)
Theorem rectangle_handles_are_hit_where_they_are_drawn :
  forall (st : State.t ideal) (now : string) (shift alt : bool)
    (el sel : Element.t ideal) (ex ey w h : R)
    (squares : list (CanvasRect.t ideal))
    (knob : option (Point.t ideal * Point.t ideal)),
  In el (History.present (State.history st)) ->
  drawSelection el = Some (Selection.mk None squares knob) ->
  State.selectedElement st = Some sel ->
  Element.type el = rectangle ->
  Element.x el = IFin ex -> Element.y el = IFin ey ->
  Element.width el = Some (IFin w) -> Element.height el = Some (IFin h) ->
  Element.type sel = Element.type el ->
  Element.x sel = Element.x el -> Element.y sel = Element.y el ->
  Element.width sel = Element.width el ->
  Element.height sel = Element.height el ->
  (8 < w)%R -> (8 < h)%R ->
  map (grabAtCentre now shift alt st) squares =
    [(resizing, Some top_left); (resizing, Some top);
     (resizing, Some top_right); (resizing, Some left);
     (resizing, Some right); (resizing, Some bottom_left);
     (resizing, Some bottom); (resizing, Some bottom_right)] /\
  exists centre handle : Point.t ideal,
    knob = Some (centre, handle) /\
    grab now shift alt st (Point.x handle) (Point.y handle) =
      (resizing, Some rotation_).
Proof.
  intros st now shift alt el sel ex ey w h squares knob _ Hd Hsel Ht Hx Hy Hw
    Hh Hts Hxs Hys Hws Hhs Hw8 Hh8.
  unfold drawSelection in Hd.
  destruct (truthy (Element.selected el)); [ | discriminate ].
  destruct (rotationCenter el) as [centerX centerY].
  rewrite Ht in Hd. injection Hd as _ Hsq Hk. subst squares knob.
  assert (Hg : forall x y handle,
            getHandleAtPosition x y sel = Some handle ->
            grab now shift alt st x y = (resizing, Some handle)).
  { intros x y handle. apply grab_handle, Hsel. }
  rewrite Ht in Hts. rewrite Hx in Hxs. rewrite Hy in Hys. rewrite Hw in Hws.
  rewrite Hh in Hhs.
  split.
  - unfold drawRectangleHandles, grabAtCentre. rewrite Hx, Hy, Hw, Hh.
    change (js_lit 0) with (IFin 0). rewrite !orElse_fin.
    cbn [map CanvasRect.x CanvasRect.y CanvasRect.w CanvasRect.h].
    repeat match goal with
           | |- _ :: _ = _ :: _ => f_equal
           end;
      try reflexivity;
      apply Hg; unfold getHandleAtPosition, inHandle, handleSize;
      rewrite Hts, Hxs, Hys, Hws, Hhs; change (js_lit 0) with (IFin 0);
      rewrite !orElse_fin; hit_cases; reflexivity.
  - unfold drawRotationHandle. rewrite Ht. do 2 eexists.
    split; [ reflexivity | ]. cbn [Point.x Point.y].
    apply Hg. unfold getHandleAtPosition, inHandle, handleSize.
    rewrite Hts, Hxs, Hys, Hws, Hhs, Hx, Hy, Hw.
    change (js_lit 0) with (IFin 0).
    rewrite !orElse_fin. hit_cases. reflexivity.
Qed.

(** X16: in exact arithmetic, a circle of radius above 4 is grabbed where its
    handles are drawn, under the same conditions: a pointer-down at the
    centre of each of the four squares drawn for it starts a resize with the
    handle of that square (top, right, bottom, left), and one at the centre
    of the disc of the rotation handle starts a resize with the rotation
    handle. *)
Theorem circle_handles_are_hit_where_they_are_drawn :
  forall (st : State.t ideal) (now : string) (shift alt : bool)
    (el sel : Element.t ideal) (cx cy r : R)
    (squares : list (CanvasRect.t ideal))
    (knob : option (Point.t ideal * Point.t ideal)),
  In el (History.present (State.history st)) ->
  drawSelection el = Some (Selection.mk None squares knob) ->
  State.selectedElement st = Some sel ->
  Element.type el = circle ->
  Element.x el = IFin cx -> Element.y el = IFin cy ->
  Element.radius el = Some (IFin r) ->
  Element.type sel = Element.type el ->
  Element.x sel = Element.x el -> Element.y sel = Element.y el ->
  Element.radius sel = Element.radius el ->
  (4 < r)%R ->
  map (grabAtCentre now shift alt st) squares =
    [(resizing, Some top); (resizing, Some right); (resizing, Some bottom);
     (resizing, Some left)] /\
  exists centre handle : Point.t ideal,
    knob = Some (centre, handle) /\
    grab now shift alt st (Point.x handle) (Point.y handle) =
      (resizing, Some rotation_).
Proof.
  intros st now shift alt el sel cx cy r squares knob _ Hd Hsel Ht Hx Hy Hr
    Hts Hxs Hys Hrs Hr4.
  unfold drawSelection in Hd.
  destruct (truthy (Element.selected el)); [ | discriminate ].
  destruct (rotationCenter el) as [centerX centerY].
  rewrite Ht in Hd. injection Hd as _ Hsq Hk. subst squares knob.
  assert (Hg : forall x y handle,
            getHandleAtPosition x y sel = Some handle ->
            grab now shift alt st x y = (resizing, Some handle)).
  { intros x y handle. apply grab_handle, Hsel. }
  rewrite Ht in Hts. rewrite Hx in Hxs. rewrite Hy in Hys. rewrite Hr in Hrs.
  split.
  - unfold drawCircleHandles, grabAtCentre. rewrite Hx, Hy, Hr.
    change (js_lit 0) with (IFin 0). rewrite !orElse_fin.
    cbn [map CanvasRect.x CanvasRect.y CanvasRect.w CanvasRect.h].
    repeat match goal with
           | |- _ :: _ = _ :: _ => f_equal
           end;
      try reflexivity;
      apply Hg; unfold getHandleAtPosition, inHandle, handleSize;
      rewrite Hts, Hxs, Hys, Hrs; change (js_lit 0) with (IFin 0);
      rewrite !orElse_fin; hit_cases; reflexivity.
  - unfold drawRotationHandle. rewrite Ht. do 2 eexists.
    split; [ reflexivity | ]. cbn [Point.x Point.y].
    apply Hg. unfold getHandleAtPosition, inHandle, handleSize.
    rewrite Hts, Hxs, Hys, Hrs, Hx, Hy, Hr.
    change (js_lit 0) with (IFin 0).
    rewrite !orElse_fin. hit_cases. reflexivity.
Qed.

(** X17: a rotation handle is drawn for a line or an arrow with two points,
    but no position of the pointer grabs it: the handle test of a line or
    an arrow knows its two ends only. *)
Theorem line_rotation_handle_is_drawn_but_never_hit :
  forall (num : Type) (NUM : JSNumber num) (el : Element.t num)
    (start end' : Point.t num) (rest : list (Point.t num)) (x y : num),
  is_line_or_arrow el = true ->
  Element.points el = Some (start :: end' :: rest) ->
  drawRotationHandle el =
    Some (Point.mk (js_div (js_add (Point.x start) (Point.x end')) (js_lit 2))
                   (js_div (js_add (Point.y start) (Point.y end')) (js_lit 2)),
          Point.mk (js_div (js_add (Point.x start) (Point.x end')) (js_lit 2))
                   (js_sub (js_div (js_add (Point.y start) (Point.y end'))
                                   (js_lit 2)) (js_lit 30))) /\
  is_rotation (getHandleAtPosition x y el) = false.
Proof.
  intros num NUM el start end' rest x y Ht Hp.
  unfold is_line_or_arrow in Ht.
  unfold drawRotationHandle, getHandleAtPosition. rewrite Hp.
  destruct (Element.type el); try discriminate;
    (split; [ reflexivity | ]);
    destruct (inHandle x y (Point.x start) (Point.y start));
    try reflexivity;
    destruct (inHandle x y (Point.x end') (Point.y end')); reflexivity.
Qed.

(** X18: in exact arithmetic, the rotation handle of a text is tested above
    the place where it is drawn.  For a text drawn unrotated and a primary
    selection with its type, origin and string, with no handle active: the
    disc of the rotation handle is drawn centred 38 above the baseline
    ([y - 8 - 30]), at the middle of the text; a pointer-down at the centre
    of that disc grabs no handle; a pointer-down 8 higher ([y - 16 - 30])
    starts a resize with the rotation handle; and a pointer-down grabs the
    rotation handle exactly when it is in the square of side 8 centred 46
    above the baseline. *)
Theorem text_rotation_handle_is_tested_above_where_it_is_drawn :
  forall (st : State.t ideal) (now : string) (shift alt : bool)
    (el sel : Element.t ideal) (ex ey : R)
    (squares : list (CanvasRect.t ideal))
    (knob : option (Point.t ideal * Point.t ideal)),
  In el (History.present (State.history st)) ->
  drawSelection el = Some (Selection.mk None squares knob) ->
  State.selectedElement st = Some sel ->
  State.activeHandle st = None ->
  Element.type el = text ->
  Element.x el = IFin ex -> Element.y el = IFin ey ->
  Element.type sel = Element.type el ->
  Element.x sel = Element.x el -> Element.y sel = Element.y el ->
  Element.text sel = Element.text el ->
  exists tw : R,
    textWidth_of el = IFin tw /\
    knob = Some (Point.mk (IFin (ex + tw / 2)) (IFin (ey - 8)),
                 Point.mk (IFin (ex + tw / 2)) (IFin (ey - 8 - 30))) /\
    grab now shift alt st (IFin (ex + tw / 2)) (IFin (ey - 8 - 30)) =
      (State.action
         (handleMouseDown now
            (MouseEvent.mk (IFin (ex + tw / 2)) (IFin (ey - 8 - 30)) shift alt)
            st), None) /\
    grab now shift alt st (IFin (ex + tw / 2)) (IFin (ey - 16 - 30)) =
      (resizing, Some rotation_) /\
    (forall px py : R,
       is_rotation (snd (grab now shift alt st (IFin px) (IFin py))) = true <->
       (ex + tw / 2 - 4 <= px <= ex + tw / 2 + 4 /\
        ey - 46 - 4 <= py <= ey - 46 + 4)%R).
Proof.
  intros st now shift alt el sel ex ey squares knob _ Hd Hsel Hact Ht Hx Hy
    Hts Hxs Hys Htxt.
  unfold drawSelection in Hd.
  destruct (truthy (Element.selected el)); [ | discriminate ].
  destruct (rotationCenter el) as [centerX centerY].
  rewrite Ht in Hd. injection Hd as _ Hsq Hk. subst squares knob.
  assert (Hw : exists tw : R, textWidth_of el = IFin tw).
  { unfold textWidth_of. cbn. eexists. reflexivity. }
  destruct Hw as [tw Hw]. exists tw.
  assert (Hws : textWidth_of sel = IFin tw).
  { unfold textWidth_of in *. rewrite Htxt. exact Hw. }
  rewrite Ht in Hts. rewrite Hx in Hxs. rewrite Hy in Hys.
  assert (Htest : forall px py : R,
    getHandleAtPosition (IFin px) (IFin py) sel = Some rotation_ <->
    (ex + tw / 2 - 4 <= px <= ex + tw / 2 + 4 /\
     ey - 46 - 4 <= py <= ey - 46 + 4)%R).
  { intros px py. unfold getHandleAtPosition, inHandle, handleSize.
    rewrite Hts, Hxs, Hys, Hws. ideal_ops. unfold Rleb, Reqb.
    cbn [andb orb negb].
    repeat match goal with
           | |- context [Req_dec_T ?a ?b] =>
               destruct (Req_dec_T a b); [ lra | ]
           end.
    ideal_ops. unfold Rleb.
    repeat (cbn [andb orb negb];
            match goal with
            | |- context [Rle_dec ?a ?b] => destruct (Rle_dec a b)
            end);
      cbn [andb orb negb]; split; intros H;
      try discriminate; try reflexivity; try lra;
      try (exfalso; lra). }
  assert (Hrot : forall px py : R,
    is_rotation (getHandleAtPosition (IFin px) (IFin py) sel) = true <->
    getHandleAtPosition (IFin px) (IFin py) sel = Some rotation_).
  { intros px py.
    destruct (getHandleAtPosition (IFin px) (IFin py) sel) as [ [] | ];
      cbn; split; intros H; try discriminate; reflexivity. }
  split; [ exact Hw | ].
  split.
  { unfold drawRotationHandle. rewrite Ht, Hx, Hy, Hw. ideal_ops.
    unfold Reqb. destruct (Req_dec_T 2 0); [ lra | ].
    unfold Rminus. reflexivity. }
  split.
  { unfold grab. cbv zeta. f_equal.
    pose proof (handleMouseDown_handle st now
                  (MouseEvent.mk (IFin (ex + tw / 2)) (IFin (ey - 8 - 30))
                     shift alt) sel Hsel) as H.
    cbv zeta in H. cbn [MouseEvent.x MouseEvent.y] in H.
    destruct (getHandleAtPosition (IFin (ex + tw / 2)) (IFin (ey - 8 - 30)) sel)
      as [ handle | ] eqn:E.
    - exfalso.
      assert (Hno : getHandleAtPosition (IFin (ex + tw / 2)) (IFin (ey - 8 - 30)) sel
                    <> Some rotation_).
      { intros C. apply Htest in C. lra. }
      revert E Hno. unfold getHandleAtPosition, inHandle, handleSize.
      rewrite Hts, Hxs, Hys, Hws. hit_cases; congruence.
    - rewrite H. exact Hact. }
  split.
  { apply (grab_handle st now shift alt _ _ sel rotation_ Hsel).
    apply Htest. lra. }
  intros px py.
  pose proof (handleMouseDown_handle st now
                (MouseEvent.mk (IFin px) (IFin py) shift alt) sel Hsel) as H.
  cbv zeta in H. cbn [MouseEvent.x MouseEvent.y] in H.
  unfold grab. cbv zeta. cbn [snd].
  rewrite <- Htest, <- Hrot.
  destruct (getHandleAtPosition (IFin px) (IFin py) sel) as [ handle | ].
  - destruct H as [_ ->]. reflexivity.
  - rewrite H, Hact. reflexivity.
Qed.

Lemma sum_of_squares_not_negative : forall a b : R, (0 <= a * a + b * b)%R.
Proof.
  intros a b. pose proof (Rle_0_sqr a). pose proof (Rle_0_sqr b).
  unfold Rsqr in *. lra.
Qed.

(** X19: in exact arithmetic, the pointer is on the circle that it draws: the
    radius is the distance from the centre to the pointer, and the hit test
    of the circle accepts the position of the pointer. *)
Theorem pointer_is_on_the_circle_it_draws :
  forall (cx cy px py : R) (el : Element.t ideal),
  Element.type el = circle ->
  Element.x el = IFin cx -> Element.y el = IFin cy ->
  Element.radius (drawCircle (IFin px) (IFin py) el) =
    Some (IFin (R_sqrt.sqrt ((px - cx) * (px - cx) + (py - cy) * (py - cy)))) /\
  isPointInElement (IFin px) (IFin py) (drawCircle (IFin px) (IFin py) el) = true.
Proof.
  intros cx cy px py el Ht Hx Hy.
  assert (Hr : Element.radius (drawCircle (IFin px) (IFin py) el) =
    Some (IFin (R_sqrt.sqrt ((px - cx) * (px - cx) + (py - cy) * (py - cy))))).
  { unfold drawCircle. cbn [Element.radius Element.with_radius].
    rewrite Hx, Hy. ideal_ops. unfold Rltb.
    match goal with
    | |- context [Rlt_dec ?a ?b] =>
        destruct (Rlt_dec a b) as [ Hneg | _ ];
        [ pose proof (sum_of_squares_not_negative (px + - cx) (py + - cy)); lra | ]
    end.
    reflexivity. }
  split; [ exact Hr | ].
  unfold isPointInElement. rewrite Hr.
  change (Element.type (drawCircle (IFin px) (IFin py) el)) with (Element.type el).
  change (Element.x (drawCircle (IFin px) (IFin py) el)) with (Element.x el).
  change (Element.y (drawCircle (IFin px) (IFin py) el)) with (Element.y el).
  rewrite Ht, Hx, Hy. change (js_lit 0) with (IFin 0). rewrite orElse_fin.
  ideal_ops. unfold Rltb.
  match goal with
  | |- context [Rlt_dec ?a ?b] =>
      destruct (Rlt_dec a b) as [ Hneg | _ ];
        [ pose proof (sum_of_squares_not_negative (px + - cx) (py + - cy)); lra | ]
  end.
  ideal_ops. unfold Rleb.
  match goal with
  | |- context [Rle_dec ?a ?b] =>
      destruct (Rle_dec a b) as [ _ | Hn ]; [ reflexivity | ]
  end.
  exfalso. apply Hn. right. reflexivity.
Qed.

(** X20: in exact arithmetic, with Shift the rectangle tool draws a square:
    the width and the height have the same absolute value, the greater of
    the two distances from the origin to the pointer, and each has the sign
    of the direction of the drag on its axis. *)
Theorem shift_draws_a_square :
  forall (ex ey px py : R) (el : Element.t ideal),
  Element.x el = IFin ex -> Element.y el = IFin ey ->
  exists w h : R,
    Element.width (drawRectangle (IFin px) (IFin py) true el) = Some (IFin w) /\
    Element.height (drawRectangle (IFin px) (IFin py) true el) = Some (IFin h) /\
    Rabs w = Rmax (Rabs (px - ex)) (Rabs (py - ey)) /\
    Rabs h = Rmax (Rabs (px - ex)) (Rabs (py - ey)) /\
    (0 <= w * (px - ex))%R /\ (0 <= h * (py - ey))%R.
Proof.
  intros ex ey px py el Hx Hy.
  unfold drawRectangle, Math_max.
  cbn [Element.width Element.height Element.with_width Element.with_height].
  rewrite Hx, Hy. ideal_ops.
  unfold Rleb, Rltb, Reqb, Rabs.
  repeat match goal with
         | |- context [Rcase_abs ?a] => destruct (Rcase_abs a)
         | |- context [Rle_dec ?a ?b] => destruct (Rle_dec a b); try lra
         | |- context [Rlt_dec ?a ?b] => destruct (Rlt_dec a b); try lra
         | |- context [Req_dec_T ?a ?b] => destruct (Req_dec_T a b); try lra
         end; cbn [andb orb negb ideal_add ideal_opp].
  all: do 2 eexists; split; [ reflexivity | ]; split; [ reflexivity | ].
  all: unfold Rmax, Rabs;
       repeat match goal with
              | |- context [Rcase_abs ?a] => destruct (Rcase_abs a); try lra
              | |- context [Rle_dec ?a ?b] => destruct (Rle_dec a b); try lra
              end.
  all: repeat split; try lra; nra.
Qed.

(** ** Text areas *)

Section TextAreas.
Context {num : Type} {NUM : JSNumber num} {MATH : JSMath num}.

(** Only a double click and the save of a text area change the list of
    the open text areas. *)
Lemma toolShortcut_editors : forall k elements (s : State.t num),
  State.editors (toolShortcut k elements s) = State.editors s.
Proof.
  intros k elements s. unfold toolShortcut. split_cases; reflexivity.
Qed.

Lemma selectAll_editors : forall elements sel (s : State.t num),
  State.editors (selectAll elements sel s) = State.editors s.
Proof.
  intros elements sel s. unfold selectAll. cbv zeta.
  destruct sel; [ | destruct (map _ elements) ]; reflexivity.
Qed.

Lemma copy_editors : forall mint elements (s : State.t num),
  State.editors (copy mint elements s) = State.editors s.
Proof.
  intros mint elements s. unfold copy. cbv zeta.
  destruct (filter _ elements); reflexivity.
Qed.

Lemma cut_editors : forall mint elements (s : State.t num),
  State.editors (cut mint elements s) = State.editors s.
Proof.
  intros mint elements s. unfold cut. cbv zeta.
  destruct (filter _ elements); reflexivity.
Qed.

Lemma paste_editors : forall mint elements clipboard (s : State.t num),
  State.editors (paste mint elements clipboard s) = State.editors s.
Proof.
  intros mint elements clipboard s. unfold paste. cbv zeta.
  destruct clipboard; [ reflexivity | ].
  destruct (pasteElements _ _); reflexivity.
Qed.

Lemma duplicate_editors : forall mint elements (s : State.t num),
  State.editors (duplicate mint elements s) = State.editors s.
Proof.
  intros mint elements s. unfold duplicate. cbv zeta.
  destruct (filter _ elements); [ reflexivity | ].
  destruct (pasteElements _ _); reflexivity.
Qed.

Lemma handleKeyDown_editors : forall mint e (st : State.t num),
  State.editors (handleKeyDown mint e st) = State.editors st.
Proof.
  intros mint e st.
  set (P := fun s : State.t num => State.editors s = State.editors st).
  change (P (handleKeyDown mint e st)).
  assert (H0 : P st) by reflexivity.
  cbv beta delta [handleKeyDown].
  destruct (KeyboardEvent.target_is_text_field e); [ exact H0 | ].
  repeat lazymatch goal with
         | |- P (let x := ?v in @?b x) =>
             lazymatch type of v with
             | State.t _ =>
                 let H := fresh "Hs" in
                 let s := fresh "s" in
                 assert (H : P v)
                   by (match goal with
                       | |- P (if ?c then _ else _) =>
                           destruct c; [ | assumption ]
                       end;
                       unfold P in *;
                       first [ rewrite toolShortcut_editors
                             | rewrite selectAll_editors
                             | rewrite copy_editors
                             | rewrite cut_editors
                             | rewrite paste_editors
                             | rewrite duplicate_editors
                             | idtac ];
                       assumption);
                 revert H; generalize v; intros s H;
                 change (P (b s)); cbv beta
             | _ => change (P (b v)); cbv beta
             end
         end.
  repeat match goal with
         | |- P (if ?c then _ else _) => destruct c; [ | assumption ]
         end.
  lazymatch goal with
  | H : P ?s |- P (handleDeleteSelectedElements _ ?s) => exact H
  end.
Qed.

Lemma step_keeps_the_first_editor :
  forall (st : State.t num) (ev : Event) (editor : TextEditor.t num),
  is_save ev = false ->
  nth_error (State.editors st) 0 = Some editor ->
  nth_error (State.editors (step st ev)) 0 = Some editor.
Proof.
  intros st ev editor Hev Hed.
  destruct ev; try discriminate; cbn [step]; cbv zeta.
  - unfold handleMouseDown. cbv zeta. split_cases; exact Hed.
  - unfold handleMouseMove. cbv zeta. split_cases; exact Hed.
  - unfold handleMouseUp. cbv zeta. split_cases; exact Hed.
  - unfold handleDoubleClick. cbv zeta. destruct (find _ _); [ | exact Hed ].
    read_state. destruct (State.editors st); [ discriminate | exact Hed ].
  - rewrite handleKeyDown_editors. exact Hed.
  - exact Hed.
  - exact Hed.
  - rewrite copy_editors. exact Hed.
  - rewrite cut_editors. exact Hed.
  - rewrite paste_editors. exact Hed.
  - exact Hed.
  - unfold updateElementProperty. cbv zeta. split_cases; exact Hed.
  - exact Hed.
  - exact Hed.
  - exact Hed.
  - exact Hed.
Qed.

Lemma run_keeps_the_first_editor :
  forall (evs : list Event) (st : State.t num) (editor : TextEditor.t num),
  forallb (fun ev => negb (is_save ev)) evs = true ->
  nth_error (State.editors st) 0 = Some editor ->
  nth_error (State.editors (run st evs)) 0 = Some editor.
Proof.
  intros evs. induction evs as [ | ev evs IH ]; intros st editor Hevs Hed.
  - exact Hed.
  - simpl in Hevs. apply andb_prop in Hevs. destruct Hevs as [Hev Hevs].
    apply negb_true_iff in Hev.
    apply (IH (step st ev) editor Hevs).
    apply step_keeps_the_first_editor; assumption.
Qed.

(** X21: a text area saves into the scene of the moment it was opened.  When
    a double click opens the only text area on the text [textElement],
    whatever the user does before the text is saved (draw, move, delete,
    paste, undo, ...), the save commits the scene of the double click with
    the new text in [textElement]: the scene of just before the save goes
    to [past], and nothing of what happened in between is in the present
    scene. *)
Theorem saving_a_text_restores_the_scene_of_the_double_click :
  forall (st : State.t num) (e : MouseEvent.t num) (textElement : Element.t num)
    (evs : list Event) (value : string),
  State.editors st = [] ->
  find (fun element =>
          ElementType_eqb (Element.type element) text &&
          isPointInElement (MouseEvent.x e) (MouseEvent.y e) element)
       (History.present (State.history st)) = Some textElement ->
  forallb (fun ev => negb (is_save ev)) evs = true ->
  State.history (run st (DoubleClick e :: evs ++ [SaveText 0 value])) =
  updateHistory
    (map (fun el =>
            if (Element.id el =? Element.id textElement)%string
            then Element.with_text (Some value) el else el)
         (History.present (State.history st)))
    (State.history (run st (DoubleClick e :: evs))).
Proof.
  intros st e textElement evs value Hed Hfind Hevs.
  change (run st (DoubleClick e :: evs ++ [SaveText 0 value]))
    with (run (handleDoubleClick e st) (evs ++ [SaveText 0 value])).
  change (run st (DoubleClick e :: evs))
    with (run (handleDoubleClick e st) evs).
  unfold run at 1. rewrite fold_left_app. fold (run (handleDoubleClick e st) evs).
  cbn [fold_left step].
  assert (H0 : nth_error (State.editors (handleDoubleClick e st)) 0 =
               Some (TextEditor.mk (History.present (State.history st))
                       textElement (State.selectedElement st))).
  { unfold handleDoubleClick. cbv zeta. rewrite Hfind. read_state.
    rewrite Hed. reflexivity. }
  pose proof (run_keeps_the_first_editor evs _ _ Hevs H0) as H1.
  unfold saveText. rewrite H1. cbv zeta.
  cbn [TextEditor.elements TextEditor.textElement TextEditor.selectedElement].
  destruct (State.selectedElement st) as [ sel | ];
    [ destruct (Element.id sel =? Element.id textElement)%string | ];
    reflexivity.
Qed.

End TextAreas.

(** ** The theme, the zoom, files *)

(** X22: the theme effect settles in one run, so the render it causes does not
    run it into a loop; it never leaves a black stroke color under the dark
    theme nor a white one under another theme; and after a switch of theme
    and a switch back the settled colors are the same again. *)
Theorem theme_effect_settles :
  forall theme color gridColor : string,
  let settled := themeEffect theme color gridColor in
  let switched :=
    themeEffect (toggleTheme theme) (fst settled) (snd settled) in
  themeEffect theme (fst settled) (snd settled) = settled /\
  themeEffect (toggleTheme (toggleTheme theme)) (fst switched) (snd switched) =
    settled /\
  (fst (themeEffect "dark" color gridColor) =? "#000000")%string = false /\
  (fst (themeEffect "light" color gridColor) =? "#ffffff")%string = false.
Proof.
  intros theme color gridColor. unfold themeEffect, toggleTheme.
  repeat (eval_string_tests; cbv iota; cbn [fst snd];
          match goal with
          | |- context [String.eqb ?v ?l] =>
              is_var v;
              let E := fresh "E" in
              destruct (String.eqb v l) eqn:E;
              [ apply String.eqb_eq in E; subst v | ]
          end).
  all: eval_string_tests; cbv iota; cbn [fst snd];
       repeat split; first [ reflexivity | discriminate ].
Qed.

Lemma zoomShortcut_bounds : forall (e : KeyboardEvent.t) (z0 : R),
  (1 / 2 <= z0 <= 3)%R ->
  exists z : R, zoomShortcut e (IFin z0) = IFin z /\ (1 / 2 <= z <= 3)%R.
Proof.
  intros e z0 Hz. unfold zoomShortcut. cbv zeta.
  destruct (KeyboardEvent.target_is_text_field e); [ exists z0; tauto | ].
  destruct (_ && (KeyboardEvent.key e =? "0")%string);
    [ exists 1%R; split; [ reflexivity | lra ] | ].
  destruct (_ && (KeyboardEvent.key e =? "=")%string).
  - unfold Math_min. hit_cases; eexists; (split; [ reflexivity | lra ]).
  - destruct (_ && (KeyboardEvent.key e =? "-")%string);
      [ | exists z0; tauto ].
    unfold Math_max. hit_cases; eexists; (split; [ reflexivity | lra ]).
Qed.

(** X23: in exact arithmetic, the zoom stays between 0.5 and 3 whatever keys
    are pressed, starting from 1; so the division by the zoom in
    [getMouseCoordinates] gives finite pointer coordinates. *)
Theorem zoom_stays_between_half_and_three :
  forall keys : list KeyboardEvent.t,
  exists z : R,
    fold_left (fun zoom e => zoomShortcut e zoom) keys (js_lit 1) = IFin z /\
    (1 / 2 <= z <= 3)%R /\
    forall clientX clientY left top : R,
    exists x y : R,
      getMouseCoordinates (IFin clientX) (IFin clientY) (IFin left) (IFin top)
        (IFin z) = Point.mk (IFin x) (IFin y).
Proof.
  intros keys.
  assert (H : forall z0 : R, (1 / 2 <= z0 <= 3)%R ->
            exists z : R,
              fold_left (fun zoom e => zoomShortcut e zoom) keys (IFin z0) =
                IFin z /\ (1 / 2 <= z <= 3)%R).
  { induction keys as [ | e keys IH ]; intros z0 Hz; simpl.
    - exists z0. tauto.
    - destruct (zoomShortcut_bounds e z0 Hz) as (z1 & -> & Hz1).
      apply IH, Hz1. }
  destruct (H 1%R) as (z & Hz & Hb); [ lra | ].
  exists z. split; [ exact Hz | ]. split; [ exact Hb | ].
  intros clientX clientY left top. unfold getMouseCoordinates.
  hit_cases; do 2 eexists; reflexivity.
Qed.

(** ** Files *)

Lemma float_JSON_idempotent : forall f : float,
  float_JSON (float_JSON f) = float_JSON f.
Proof.
  intros f. unfold float_JSON.
  destruct (PrimFloat.is_finite f) eqn:Ef;
    [ destruct (PrimFloat.is_zero f) eqn:Ez | ];
    rewrite ?Ef, ?Ez; reflexivity.
Qed.

Lemma JSON_clone_idempotent : forall el : Element.t float,
  JSON_clone (JSON_clone el) = JSON_clone el.
Proof.
  intros [i t x y w h r pts txt f s sw d sel rot]. unfold JSON_clone.
  cbn [Element.id Element.type Element.x Element.y Element.width
       Element.height Element.radius Element.points Element.text Element.fill
       Element.stroke Element.strokeWidth Element.isDragging Element.selected
       Element.rotation JSON_number float_number].
  rewrite !float_JSON_idempotent.
  f_equal; try (destruct w, h, r, rot; cbn; rewrite ?float_JSON_idempotent;
                reflexivity).
  destruct pts as [ points | ]; [ | reflexivity ]. cbn. f_equal.
  rewrite map_map. apply map_ext. intros [px py]. unfold JSON_point.
  cbn [Point.x Point.y JSON_number float_number].
  rewrite !float_JSON_idempotent. reflexivity.
Qed.

(** X24: in binary64, what Save writes is a fixed point of import and save.
    Importing a saved scene commits the parsed document as the present
    scene (the scene of before goes to [past], from where an undo brings it
    back), touches neither the primary selection nor the clipboard, and
    saving the imported scene again gives the same document. *)
Theorem saved_scene_survives_import_and_save :
  forall (scene : list (Element.t float)) (st : State.t float),
  let imported := handleImport (savedDocument scene) st in
  History.present (State.history imported) = savedDocument scene /\
  savedDocument (History.present (State.history imported)) =
    savedDocument scene /\
  History.present (handleUndo (State.history imported)) =
    History.present (State.history st) /\
  State.selectedElement imported = State.selectedElement st /\
  State.clipboard imported = State.clipboard st.
Proof.
  intros scene st imported. subst imported. unfold handleImport.
  cbn [State.history State.setHistory State.selectedElement State.clipboard].
  rewrite handleUndo_updateHistory.
  split; [ reflexivity | ]. split; [ | repeat split ].
  change (savedDocument (savedDocument scene) = savedDocument scene).
  unfold savedDocument. rewrite map_map.
  apply map_ext. intros el. apply JSON_clone_idempotent.
Qed.

(** ** Commands on the selection *)

Lemma filter_nil_existsb : forall (A : Type) (f : A -> bool) (l : list A),
  filter f l = [] <-> existsb f l = false.
Proof.
  intros A f l. induction l as [ | a l IH ]; simpl.
  - tauto.
  - destruct (f a); simpl; [ split; discriminate | exact IH ].
Qed.

Lemma filter_selected_all : forall (num : Type) (l : list (Element.t num)),
  filter (fun el => negb (truthy (Element.selected el)))
    (map (Element.with_selected (Some true)) l) = [].
Proof.
  intros num l. induction l as [ | a l IH ]; simpl; [ reflexivity | exact IH ].
Qed.

Lemma length_filter_split : forall (A : Type) (f : A -> bool) (l : list A),
  (List.length (filter (fun a => negb (f a)) l) + List.length (filter f l) =
   List.length l)%nat.
Proof.
  intros A f l. induction l as [ | a l IH ]; simpl; [ reflexivity | ].
  destruct (f a); simpl; lia.
Qed.

Section Commands.
Context {num : Type} {NUM : JSNumber num}.

Lemma copyElements_not_nil : forall mint (l : list (Element.t num)),
  l <> [] -> copyElements mint l <> [].
Proof.
  intros mint l H. destruct l; [ contradiction | discriminate ].
Qed.

(** An element that JSON cloning leaves as it is, cloned and then pasted. *)
Lemma pasteElement_of_clone :
  forall (id1 id2 : string) (s : Element.t num),
  JSON_clone s = s ->
  pasteElement id2 (Element.with_id id1 (JSON_clone s)) =
  Element.mk id2 (Element.type s)
    (js_add (Element.x s) (js_lit 20)) (js_add (Element.y s) (js_lit 20))
    (Element.width s) (Element.height s) (Element.radius s)
    (match Element.type s with
     | line | arrow =>
         option_map
           (map (fun point =>
                   Point.mk (js_add (Point.x point) (js_lit 20))
                            (js_add (Point.y point) (js_lit 20))))
           (Element.points s)
     | _ => Element.points s
     end)
    (Element.text s) (Element.fill s) (Element.stroke s)
    (Element.strokeWidth s) (Element.isDragging s) (Some true)
    (Element.rotation s).
Proof.
  intros id1 id2 s Hs. rewrite Hs. rewrite pasteElement_fields.
  destruct s as [i t x y w h r pts txt f st sw d sel rot].
  unfold JSON_clone in Hs.
  cbn [Element.id Element.type Element.x Element.y Element.width
       Element.height Element.radius Element.points Element.text
       Element.fill Element.stroke Element.strokeWidth Element.isDragging
       Element.selected Element.rotation Element.with_id] in *.
  injection Hs as Hx Hy Hw Hh Hr Hp Hsw Hrot.
  rewrite Hw, Hh, Hr, Hp, Hsw, Hrot.
  destruct t; reflexivity.
Qed.

(** X25: cut and paste do not put the elements back where they were.  After
    the shortcuts Ctrl+X and Ctrl+V, with something selected and the
    selected elements such that JSON cloning leaves them unchanged, the
    scene holds the elements that were not selected, deselected and
    otherwise as they were, followed by one copy of each cut element in the
    order of the scene: under a new id, selected, with [x] and [y] plus 20
    and, for a line or an arrow, every point plus 20 on both coordinates,
    its other fields those of the cut element.  The scene has as many
    elements as before the cut, and the clipboard holds the cut elements
    under the ids minted by the cut. *)
Theorem cut_then_paste_appends_shifted_copies :
  forall (st : State.t num) (mint1 mint2 : nat -> string),
  let elements := History.present (State.history st) in
  let selectedElements :=
    filter (fun el => truthy (Element.selected el)) elements in
  existsb (fun el => truthy (Element.selected el)) elements = true ->
  Forall (fun el => JSON_clone el = el) selectedElements ->
  let afterCut := handleKeyDown mint1 (ctrlKey "x") st in
  let afterPaste := handleKeyDown mint2 (ctrlKey "v") afterCut in
  let deselected (el : Element.t num) :=
    Element.mk (Element.id el) (Element.type el) (Element.x el) (Element.y el)
      (Element.width el) (Element.height el) (Element.radius el)
      (Element.points el) (Element.text el) (Element.fill el)
      (Element.stroke el) (Element.strokeWidth el) (Element.isDragging el)
      (Some false) (Element.rotation el) in
  let shifted (newId : string) (source : Element.t num) :=
    Element.mk newId (Element.type source)
      (js_add (Element.x source) (js_lit 20))
      (js_add (Element.y source) (js_lit 20))
      (Element.width source) (Element.height source) (Element.radius source)
      (match Element.type source with
       | line | arrow =>
           option_map
             (map (fun point =>
                     Point.mk (js_add (Point.x point) (js_lit 20))
                              (js_add (Point.y point) (js_lit 20))))
             (Element.points source)
       | _ => Element.points source
       end)
      (Element.text source) (Element.fill source) (Element.stroke source)
      (Element.strokeWidth source) (Element.isDragging source) (Some true)
      (Element.rotation source) in
  exists pasted : list (Element.t num),
    History.present (State.history afterPaste) =
      map deselected
        (filter (fun el => negb (truthy (Element.selected el))) elements) ++
      pasted /\
    List.length pasted = List.length selectedElements /\
    (forall (i : nat) (source : Element.t num),
       nth_error selectedElements i = Some source ->
       nth_error pasted i = Some (shifted (mint2 i) source)) /\
    List.length (History.present (State.history afterPaste)) =
      List.length elements /\
    List.length (State.clipboard afterPaste) = List.length selectedElements /\
    (forall (i : nat) (source : Element.t num),
       nth_error selectedElements i = Some source ->
       nth_error (State.clipboard afterPaste) i =
       Some (Element.mk (mint1 i) (Element.type source) (Element.x source)
               (Element.y source) (Element.width source)
               (Element.height source) (Element.radius source)
               (Element.points source) (Element.text source)
               (Element.fill source) (Element.stroke source)
               (Element.strokeWidth source) (Element.isDragging source)
               (Element.selected source) (Element.rotation source))).
Proof.
  intros st mint1 mint2 elements selectedElements Hsel Hclone afterCut
    afterPaste deselected shifted.
  assert (Hne : selectedElements <> []).
  { intros E. apply filter_nil_existsb in E. fold elements in Hsel.
    rewrite E in Hsel. discriminate. }
  assert (Hcut : afterCut =
    State.setSelectedElement None
      (State.setHistory
         (updateHistory
            (filter (fun el => negb (truthy (Element.selected el))) elements))
         (State.setClipboard (copyElements mint1 selectedElements) st))).
  { subst afterCut. change (handleKeyDown mint1 (ctrlKey "x") st)
      with (cut mint1 elements st).
    unfold cut. cbv zeta. fold selectedElements.
    destruct selectedElements; [ contradiction | reflexivity ]. }
  pose proof (copyElements_not_nil mint1 selectedElements Hne) as Hc.
  assert (Hpaste :
    History.present (State.history afterPaste) =
      map deselected
        (filter (fun el => negb (truthy (Element.selected el))) elements) ++
      pasteElements mint2 (copyElements mint1 selectedElements) /\
    State.clipboard afterPaste = copyElements mint1 selectedElements).
  { subst afterPaste.
    change (handleKeyDown mint2 (ctrlKey "v") afterCut)
      with (paste mint2 (History.present (State.history afterCut))
              (State.clipboard afterCut) afterCut).
    rewrite Hcut. read_state. cbn [History.present updateHistory].
    unfold paste. cbv zeta.
    destruct (copyElements mint1 selectedElements) as [ | c cs ] eqn:Ec;
      [ contradiction | ].
    rewrite <- Ec.
    destruct (pasteElements mint2 (copyElements mint1 selectedElements)) eqn:Ep;
      read_state; cbn [History.present updateHistory]; rewrite <- ?Ep;
      split; reflexivity. }
  destruct Hpaste as [Hp Hcb].
  assert (Hlen : List.length (pasteElements mint2 (copyElements mint1 selectedElements)) =
                 List.length selectedElements).
  { unfold pasteElements, copyElements, mapi. rewrite !length_mapi_from.
    reflexivity. }
  exists (pasteElements mint2 (copyElements mint1 selectedElements)).
  split; [ exact Hp | ].
  split; [ exact Hlen | ].
  split.
  { intros i source Hi. unfold pasteElements, copyElements, mapi.
    rewrite !nth_error_mapi_from, Hi. cbn [option_map Nat.add]. f_equal.
    apply pasteElement_of_clone.
    rewrite Forall_forall in Hclone. apply Hclone.
    apply nth_error_In in Hi. exact Hi. }
  split.
  { rewrite Hp, length_app, length_map, Hlen. unfold selectedElements.
    apply (length_filter_split _ (fun el => truthy (Element.selected el))). }
  rewrite Hcb. split.
  { unfold copyElements, mapi. apply length_mapi_from. }
  intros i source Hi. unfold copyElements, mapi.
  rewrite nth_error_mapi_from, Hi. cbn [option_map Nat.add]. f_equal.
  rewrite Forall_forall in Hclone. rewrite Hclone.
  - destruct source. reflexivity.
  - apply nth_error_In in Hi. exact Hi.
Qed.

(** X26: select all, then delete, empties the scene: after Ctrl+A and Delete
    the present scene has no element. *)
Theorem select_all_then_delete_empties_the_scene :
  forall (st : State.t num) (mint1 mint2 : nat -> string),
  History.present
    (State.history
       (handleKeyDown mint2 (plainKey "Delete")
          (handleKeyDown mint1 (ctrlKey "a") st))) = [].
Proof.
  intros st mint1 mint2.
  assert (H1 : History.present
                 (State.history (handleKeyDown mint1 (ctrlKey "a") st)) =
               map (Element.with_selected (Some true))
                 (History.present (State.history st))).
  { cbv beta delta [handleKeyDown ctrlKey].
    cbn [KeyboardEvent.key KeyboardEvent.ctrlKey KeyboardEvent.metaKey
         KeyboardEvent.altKey KeyboardEvent.shiftKey
         KeyboardEvent.target_is_text_field].
    eval_string_tests. cbn [andb orb negb]. cbv zeta.
    unfold selectAll. cbv zeta.
    destruct (State.selectedElement st);
      [ | destruct (map _ (History.present (State.history st))) eqn:E;
          rewrite <- ?E ]; reflexivity. }
  revert H1. generalize (handleKeyDown mint1 (ctrlKey "a") st). intros st1 H1.
  cbv beta delta [handleKeyDown plainKey].
  cbn [KeyboardEvent.key KeyboardEvent.ctrlKey KeyboardEvent.metaKey
       KeyboardEvent.altKey KeyboardEvent.shiftKey
       KeyboardEvent.target_is_text_field].
  eval_string_tests. cbn [andb orb negb]. cbv zeta.
  unfold toolShortcut. cbn [toLowerCase lower_ascii]. eval_string_tests.
  cbv iota. rewrite H1.
  destruct (existsb _ _) eqn:Ex.
  - unfold handleDeleteSelectedElements. cbv zeta. read_state.
    cbn [History.present updateHistory]. apply filter_selected_all.
  - rewrite H1.
    destruct (History.present (State.history st)); [ reflexivity | discriminate ].
Qed.

End Commands.

(** ** The properties panel *)

Lemma float_sub_nan_l : forall a b : float, isNaN a -> isNaN (PrimFloat.sub a b).
Proof.
  unfold isNaN. intros a b H. rewrite FloatAxioms.sub_spec, H. reflexivity.
Qed.









(** X28: the fields [x] and [y] of a line or an arrow are not its position:
    the hit test, the handle test and the box test do not read them, so a
    value typed in the position fields of the panel changes neither, and a
    move of the line leaves them as they were. *)
Theorem position_fields_of_a_line_are_not_its_position :
  forall (num : Type) (NUM : JSNumber num)
    (el : Element.t num) (v qx qy dx dy : num) (box : SelectionBox.t num),
  is_line_or_arrow el = true ->
  isPointInElement qx qy (assignProperty (prop_x v) el) =
    isPointInElement qx qy el /\
  isPointInElement qx qy (assignProperty (prop_y v) el) =
    isPointInElement qx qy el /\
  getHandleAtPosition qx qy (assignProperty (prop_x v) el) =
    getHandleAtPosition qx qy el /\
  getHandleAtPosition qx qy (assignProperty (prop_y v) el) =
    getHandleAtPosition qx qy el /\
  isElementInSelectionBox (assignProperty (prop_x v) el) box =
    isElementInSelectionBox el box /\
  isElementInSelectionBox (assignProperty (prop_y v) el) box =
    isElementInSelectionBox el box /\
  Element.x (moveElement dx dy el) = Element.x el /\
  Element.y (moveElement dx dy el) = Element.y el.
Proof.
  intros num NUM el v qx qy dx dy box Ht. unfold is_line_or_arrow in Ht.
  unfold isPointInElement, getHandleAtPosition, isElementInSelectionBox,
    moveElement, assignProperty.
  cbn [Element.type Element.points Element.with_x Element.with_y].
  destruct (Element.type el); try discriminate; repeat split;
    destruct (truthy (Element.selected el)); try reflexivity;
    destruct (Element.points el); reflexivity.
Qed.

(** ** Examples of the further properties *)

Lemma undos_and_redos_walk_the_commits_witness :
  Nat.iter 2 handleUndo (commitAll [[rectA]; [rectA; rectB]] emptyHistoryF) =
    History.mk [] [] [[rectA]; [rectA; rectB]] /\
  Nat.iter 2 handleRedo (History.mk [] [] [[rectA]; [rectA; rectB]]) =
    commitAll [[rectA]; [rectA; rectB]] emptyHistoryF.
Proof.
  apply (undos_and_redos_walk_the_commits emptyHistoryF [rectA] [[rectA; rectB]]).
  vm_compute. lia.
Defined.

Lemma redo_after_undo_witness : handleRedo (handleUndo historyF) = historyF.
Proof.
  apply (redo_after_undo historyF);
    [ discriminate | vm_compute; lia | vm_compute; lia ].
Defined.

Lemma undo_after_redo_witness : handleUndo (handleRedo historyF) = historyF.
Proof.
  apply (undo_after_redo historyF);
    [ discriminate | vm_compute; lia | vm_compute; lia ].
Defined.

Lemma far_from_the_square :
  noElementHit (mouseI 200 200) oneSquare.
Proof.
  unfold noElementHit. cbn. decide_reals. reflexivity.
Qed.

Lemma zero_is_too_small : js_lt (Math_abs (idl 0)) (idl 5) = true.
Proof.
  cbn. rewrite Rabs_R0. decide_reals; reflexivity.
Qed.

Lemma selection_box_selects_nothing_witness :
  State.history (dragGesture "t" (mouseI 200 200) twoMoves oneSquare) =
    State.history (handleMouseDown "t" (mouseI 200 200) oneSquare) /\
  State.selectionBox (dragGesture "t" (mouseI 200 200) twoMoves oneSquare) = None.
Proof.
  destruct (selection_box_selects_nothing oneSquare "t" (mouseI 200 200) twoMoves)
    as (_ & H1 & _ & H2);
    [ reflexivity | reflexivity | exact far_from_the_square | reflexivity
    | exact zero_is_too_small | ].
  split; [ exact H1 | exact H2 ].
Defined.

Lemma first_undo_after_a_gesture_changes_nothing_visible_witness :
  History.present
    (handleUndo (State.history (handleMouseUp (State.setAction moving overlapping)))) =
  [rectA; rectB; rectC].
Proof.
  destruct (first_undo_after_a_gesture_changes_nothing_visible
              (State.setAction moving overlapping)) as (_ & H & _);
    [ right; left; reflexivity | exact H ].
Defined.

Lemma drawn_shape_is_set_by_the_last_move_witness :
  History.present
    (State.history
       (dragGesture "t" (mouseI 10 10) ([mouseI 20 20] ++ [mouseI 30 40])
          (State.setTool rectangle (initialState "#000000")))) =
  [] ++
  [drawStep rectangle (mouseI 30 40)
     (newShape "t" (idl 10) (idl 10)
        (State.setTool rectangle (initialState "#000000")))].
Proof.
  apply (drawn_shape_is_set_by_the_last_move
           (State.setTool rectangle (initialState "#000000")) "t"
           (mouseI 10 10) [mouseI 20 20] (mouseI 30 40)); reflexivity.
Defined.

Lemma drawing_start_keeps_the_selection_marks_witness :
  State.selectedElement
    (handleMouseDown "t" (mouseF 200 200) drawingOverSelection) = None /\
  existsb (fun el => truthy (Element.selected el))
    (History.present
       (State.history (handleMouseDown "t" (mouseF 200 200) drawingOverSelection)))
  = true.
Proof.
  destruct (drawing_start_keeps_the_selection_marks drawingOverSelection "t"
              (mouseF 200 200)) as (_ & H1 & H2);
    [ reflexivity | reflexivity | vm_compute; reflexivity | reflexivity
    | reflexivity | ].
  split; [ exact H1 | exact H2 ].
Defined.

Lemma alt_drag_moves_the_original_too_witness :
  map (fun el => (Element.id el, Element.x el, Element.y el))
    (History.present
       (State.history
          (dragGesture "t" (MouseEvent.mk (IFin 50) (IFin 50) false true)
             (map (fun p => MouseEvent.mk (IFin (fst p)) (IFin (snd p))
                              false false) [(60, 60); (70, 75)]%R)
             oneSquare))) =
  [("a", ideal_add (IFin 0) (IFin (70 - 50)), ideal_add (IFin 0) (IFin (75 - 50)));
   ("t", ideal_add (IFin 0) (IFin (70 - 50)), ideal_add (IFin 0) (IFin (75 - 50)))].
Proof.
  destruct (alt_drag_moves_the_original_too oneSquare "t" 50 50
              [(60, 60); (70, 75)]%R false squareI) as (_ & _ & _ & H);
    [ reflexivity | exact squareI_hit | reflexivity | ].
  rewrite H. reflexivity.
Defined.

Lemma moves_add_up_witness :
  map (fun el => (Element.x el, Element.y el))
    (History.present
       (State.history
          (run movingSquare
             (map (fun p => MouseMove
                              (MouseEvent.mk (IFin (fst p)) (IFin (snd p))
                                 false false)) [(1, 2); (3, 4)]%R)))) =
  [(ideal_add (IFin 0) (IFin (3 - 0)), ideal_add (IFin 0) (IFin (4 - 0)))].
Proof.
  rewrite (moves_add_up [(1, 2); (3, 4)]%R false movingSquare 0 0);
    [ reflexivity | reflexivity | reflexivity ].
Defined.

(** The states of the examples. *)

Section Click.
Context {num : Type} {NUM : JSNumber num}.

(** A plain click on an element while nothing is primary: the record under
    the pointer becomes the primary selection as it was, and the scene marks
    the elements that carry its id as selected. *)
Lemma plain_click :
  forall (st : State.t num) (now : string) (e : MouseEvent.t num)
    (clicked : Element.t num),
  State.selectedElement st = None ->
  find (fun element => isPointInElement (MouseEvent.x e) (MouseEvent.y e) element)
       (History.present (State.history st)) = Some clicked ->
  MouseEvent.shiftKey e = false ->
  MouseEvent.altKey e = false ->
  let st' := handleMouseUp (handleMouseDown now e st) in
  State.selectedElement st' = Some clicked /\
  History.present (State.history st') =
    map (fun el =>
           Element.with_selected
             (Some (Element.id el =? Element.id clicked)%string) el)
        (History.present (State.history st)) /\
  State.activeHandle st' = None.
Proof.
  intros st now e clicked Hsel Hf Hs Ha st'. subst st'.
  unfold handleMouseDown. cbv zeta. read_state. rewrite Hsel, Hf, Ha, Hs.
  cbn [negb andb orb].
  destruct (truthy (Element.selected clicked)); unfold handleMouseUp; cbv zeta;
    read_state; cbn [History.present updateHistory];
    (split; [ reflexivity | split; [ | reflexivity ] ]);
    try reflexivity.
  apply map_ext. intros el.
  destruct (Element.id el =? Element.id clicked)%string; reflexivity.
Qed.

End Click.

Lemma clickedSquare_state :
  State.selectedElement clickedSquare = Some squareI /\
  History.present (State.history clickedSquare) =
    [rectI "a" 0 0 100 100 (Some true)] /\
  State.activeHandle clickedSquare = None.
Proof.
  apply (plain_click oneSquare "t" (mouseI 50 50) squareI);
    [ reflexivity | exact squareI_hit | reflexivity | reflexivity ].
Qed.

Lemma circleI_hit :
  find (fun element => isPointInElement (idl 50) (idl 50) element)
       (History.present (State.history (sceneI [circleI]))) = Some circleI.
Proof.
  cbn. unfold Rltb.
  destruct (Rlt_dec _ 0) as [ C | _ ].
  { pose proof (sum_of_squares_not_negative (50 + - 50) (50 + - 50)). lra. }
  cbn. unfold Rleb, Reqb.
  destruct (Req_dec_T 20 0) as [ C | _ ]; [ lra | ]. cbn.
  destruct (Rle_dec _ 20) as [ _ | C ]; [ reflexivity | ].
  exfalso. apply C.
  match goal with
  | |- (R_sqrt.sqrt ?a <= _)%R => replace a with 0%R by ring
  end.
  rewrite sqrt_0. lra.
Qed.

Lemma clickedCircle_state :
  State.selectedElement clickedCircle = Some circleI /\
  History.present (State.history clickedCircle) =
    [Element.with_selected (Some true) circleI] /\
  State.activeHandle clickedCircle = None.
Proof.
  apply (plain_click (sceneI [circleI]) "t" (mouseI 50 50) circleI);
    [ reflexivity | exact circleI_hit | reflexivity | reflexivity ].
Qed.

Lemma textI_hit :
  find (fun element => isPointInElement (idl 12) (idl 95) element)
       (History.present (State.history oneText)) = Some textI.
Proof.
  cbn. decide_reals. reflexivity.
Qed.

Lemma clickedText_state :
  State.selectedElement clickedText = Some textI /\
  History.present (State.history clickedText) = [textI] /\
  State.activeHandle clickedText = None.
Proof.
  apply (plain_click oneText "t" (mouseI 12 95) textI);
    [ reflexivity | exact textI_hit | reflexivity | reflexivity ].
Qed.

Lemma resizingSquare_state :
  State.action resizingSquare = resizing /\
  State.startPoint resizingSquare = Some (Point.mk (IFin 0) (IFin 0)) /\
  State.selectedElement resizingSquare = Some squareI /\
  State.activeHandle resizingSquare = Some top_left /\
  History.present (State.history resizingSquare) =
    [rectI "a" 0 0 100 100 (Some true)].
Proof.
  destruct clickedSquare_state as (Hsel & Hp & _).
  assert (Hh : getHandleAtPosition (idl 0) (idl 0) squareI = Some top_left).
  { unfold getHandleAtPosition, inHandle, handleSize.
    cbn [squareI rectI Element.type Element.x Element.y Element.width
         Element.height]. unfold idl. cbn [js_lit ideal_number].
    rewrite !orElse_fin.
    hit_cases. reflexivity. }
  unfold resizingSquare, handleMouseDown. cbv zeta. read_state.
  rewrite Hsel. cbn [mouseI MouseEvent.x MouseEvent.y]. rewrite Hh.
  read_state. repeat split; assumption.
Qed.

Lemma corner_resize_spans_pointer_and_opposite_corner_witness :
  option_map (fun el => (Element.x el, Element.y el, Element.width el,
                         Element.height el))
    (nth_error
       (History.present
          (State.history
             (fold_left (fun s e => handleMouseMove e s)
                (map (fun p => MouseEvent.mk (IFin (fst p)) (IFin (snd p))
                                 false false)
                     ([(10, 20)]%R ++ [(150, 60)]%R)) resizingSquare))) 0) =
  Some (IFin (Rmin 150 (0 + 100)), IFin (Rmin 60 (0 + 100)),
        Some (IFin (Rabs (150 - (0 + 100)))),
        Some (IFin (Rabs (60 - (0 + 100))))).
Proof.
  destruct resizingSquare_state as (Ha & Hs & Hsel & Hh & Hp).
  rewrite (corner_resize_spans_pointer_and_opposite_corner [(10, 20)]%R
             false resizingSquare squareI top_left (Point.mk (IFin 0) (IFin 0))
             150 60 0 (rectI "a" 0 0 100 100 (Some true)) 0 0 100 100
             Ha Hs Hsel Hh eq_refl);
    try reflexivity.
  - rewrite Hp. reflexivity.
  - repeat constructor; cbn; lra.
Defined.

(** The selection of an element whose rotation is 0 is drawn without
    rotating the canvas. *)
Lemma unrotated_selection : forall el : Element.t ideal,
  Element.selected el = Some true ->
  Element.rotation el = Some (IFin 0) ->
  (Element.type el = rectangle \/ Element.type el = circle \/
   Element.type el = text) ->
  exists squares,
    drawSelection el =
      Some (Selection.mk None squares (drawRotationHandle el)) /\
    squares = match Element.type el with
              | rectangle => drawRectangleHandles el
              | circle => drawCircleHandles el
              | _ => drawTextHandles el
              end.
Proof.
  intros el Hs Hr Ht. unfold drawSelection. rewrite Hs, Hr.
  cbn [truthy ToBoolean ideal_number ideal_ToBoolean]. unfold Reqb.
  destruct (Req_dec_T 0 0) as [ _ | C ]; [ | contradiction ].
  cbn [negb]. destruct (rotationCenter el) as [centerX centerY].
  destruct Ht as [ -> | [ -> | -> ] ]; eexists; split; reflexivity.
Qed.

Lemma rectangle_handles_are_hit_where_they_are_drawn_witness :
  map (grabAtCentre "u" false false clickedSquare)
    (drawRectangleHandles (rectI "a" 0 0 100 100 (Some true))) =
    [(resizing, Some top_left); (resizing, Some top);
     (resizing, Some top_right); (resizing, Some left);
     (resizing, Some right); (resizing, Some bottom_left);
     (resizing, Some bottom); (resizing, Some bottom_right)].
Proof.
  destruct clickedSquare_state as (Hsel & Hp & _).
  assert (Hin : In (rectI "a" 0 0 100 100 (Some true))
                  (History.present (State.history clickedSquare)))
    by (rewrite Hp; left; reflexivity).
  destruct (unrotated_selection (rectI "a" 0 0 100 100 (Some true)))
    as (squares & Hd & ->); [ reflexivity | reflexivity | left; reflexivity | ].
  destruct (rectangle_handles_are_hit_where_they_are_drawn clickedSquare "u"
              false false (rectI "a" 0 0 100 100 (Some true)) squareI
              0 0 100 100 _ _
              Hin Hd Hsel)
    as (H & _); try reflexivity; try lra.
  exact H.
Defined.

Lemma circle_handles_are_hit_where_they_are_drawn_witness :
  map (grabAtCentre "u" false false clickedCircle)
    (drawCircleHandles (Element.with_selected (Some true) circleI)) =
    [(resizing, Some top); (resizing, Some right); (resizing, Some bottom);
     (resizing, Some left)].
Proof.
  destruct clickedCircle_state as (Hsel & Hp & _).
  assert (Hin : In (Element.with_selected (Some true) circleI)
                  (History.present (State.history clickedCircle)))
    by (rewrite Hp; left; reflexivity).
  destruct (unrotated_selection (Element.with_selected (Some true) circleI))
    as (squares & Hd & ->);
    [ reflexivity | reflexivity | right; left; reflexivity | ].
  destruct (circle_handles_are_hit_where_they_are_drawn clickedCircle "u"
              false false (Element.with_selected (Some true) circleI) circleI
              50 50 20 _ _
              Hin Hd Hsel)
    as (H & _); try reflexivity; try lra.
  exact H.
Defined.

Lemma line_rotation_handle_is_drawn_but_never_hit_witness :
  is_rotation (getHandleAtPosition (flt 50) (flt (-30)) (lineF "1" 0 0 100 0)) =
  false.
Proof.
  destruct (line_rotation_handle_is_drawn_but_never_hit float float_number
              (lineF "1" 0 0 100 0) (Point.mk (flt 0) (flt 0))
              (Point.mk (flt 100) (flt 0)) [] (flt 50) (flt (-30)))
    as (_ & H); [ reflexivity | reflexivity | exact H ].
Defined.

Lemma text_rotation_handle_is_tested_above_where_it_is_drawn_witness :
  exists tw : R,
    textWidth_of textI = IFin tw /\
    grab "u" false false clickedText (IFin (10 + tw / 2)) (IFin (100 - 16 - 30)) =
      (resizing, Some rotation_).
Proof.
  destruct clickedText_state as (Hsel & Hp & Hact).
  assert (Hin : In textI (History.present (State.history clickedText)))
    by (rewrite Hp; left; reflexivity).
  destruct (unrotated_selection textI)
    as (squares & Hd & _);
    [ reflexivity | reflexivity | right; right; reflexivity | ].
  destruct (text_rotation_handle_is_tested_above_where_it_is_drawn clickedText
              "u" false false textI textI 10 100 _ _
              Hin Hd Hsel Hact)
    as (tw & Hw & _ & _ & H & _); try reflexivity.
  exists tw. split; [ exact Hw | exact H ].
Defined.

Lemma pointer_is_on_the_circle_it_draws_witness :
  isPointInElement (IFin 80) (IFin 90) (drawCircle (IFin 80) (IFin 90) circleI) =
  true.
Proof.
  destruct (pointer_is_on_the_circle_it_draws 50 50 80 90 circleI) as (_ & H);
    [ reflexivity | reflexivity | reflexivity | exact H ].
Defined.

Lemma shift_draws_a_square_witness :
  exists w h : R,
    Element.width (drawRectangle (IFin 30) (IFin (-50)) true squareI) =
      Some (IFin w) /\
    Element.height (drawRectangle (IFin 30) (IFin (-50)) true squareI) =
      Some (IFin h) /\
    Rabs w = Rmax (Rabs (30 - 0)) (Rabs (-50 - 0)) /\
    Rabs h = Rmax (Rabs (30 - 0)) (Rabs (-50 - 0)) /\
    (0 <= w * (30 - 0))%R /\ (0 <= h * (-50 - 0))%R.
Proof.
  apply (shift_draws_a_square 0 0 30 (-50) squareI); reflexivity.
Defined.

Lemma double_click_on_the_text :
  find (fun element =>
          ElementType_eqb (Element.type element) text &&
          isPointInElement (MouseEvent.x (mouseI 12 95))
            (MouseEvent.y (mouseI 12 95)) element)
       (History.present (State.history oneText)) = Some textI.
Proof.
  cbn. decide_reals. reflexivity.
Qed.

Lemma saving_a_text_restores_the_scene_of_the_double_click_witness :
  State.history
    (run oneText
       (DoubleClick (mouseI 12 95) ::
        [KeyDown letters (ctrlKey "a"); ClickDelete] ++ [SaveText 0 "hello"])) =
  updateHistory
    (map (fun el =>
            if (Element.id el =? Element.id textI)%string
            then Element.with_text (Some "hello") el else el)
         (History.present (State.history oneText)))
    (State.history
       (run oneText
          (DoubleClick (mouseI 12 95) ::
           [KeyDown letters (ctrlKey "a"); ClickDelete]))).
Proof.
  apply (saving_a_text_restores_the_scene_of_the_double_click oneText
           (mouseI 12 95) textI [KeyDown letters (ctrlKey "a"); ClickDelete]
           "hello");
    [ reflexivity | exact double_click_on_the_text | reflexivity ].
Defined.

Lemma cut_then_paste_appends_shifted_copies_witness :
  map (fun el => (Element.id el, Element.x el, Element.y el,
                  Element.selected el))
    (History.present
       (State.history
          (handleKeyDown digits (ctrlKey "v")
             (handleKeyDown letters (ctrlKey "x") drawingOverSelection)))) =
  [("b", flt 0, flt 0, Some false); ("d0", flt 20, flt 20, Some true)].
Proof.
  destruct (cut_then_paste_appends_shifted_copies drawingOverSelection
              letters digits) as (pasted & H & Hl & Hn & _);
    [ reflexivity | repeat constructor | ].
  rewrite H.
  destruct pasted as [ | copy [ | ] ]; try discriminate.
  specialize (Hn 0%nat selectedRect eq_refl). injection Hn as ->.
  reflexivity.
Defined.


Lemma position_fields_of_a_line_are_not_its_position_witness :
  isPointInElement (flt 50) (flt 5)
    (assignProperty (prop_x (flt 1000)) (lineF "1" 0 0 100 0)) =
  isPointInElement (flt 50) (flt 5) (lineF "1" 0 0 100 0).
Proof.
  destruct (position_fields_of_a_line_are_not_its_position float float_number
              (lineF "1" 0 0 100 0) (flt 1000) (flt 50) (flt 5) (flt 0) (flt 0)
              box20) as (H & _); [ reflexivity | exact H ].
Defined.

(* ------------------------------------------------------------------ *)
(** ** Angles: the rotation handle and the Shift-constrained line *)

(** [Math.atan2] of finite arguments lies in (-pi, pi], and is -pi/2 straight
    up the canvas (negative y, zero x). *)
Lemma ideal_atan2_range : forall v u : R,
  exists a : R, ideal_atan2 (IFin v) (IFin u) = IFin a /\ (- PI < a <= PI)%R /\
    (u = 0 -> v < 0 -> a = - (PI / 2))%R.
Proof.
  intros v u. unfold ideal_atan2, Rltb.
  pose proof PI_RGT_0 as Hpi.
  pose proof (atan_bound (v / u)) as [Hlo Hhi].
  destruct (Rlt_dec 0 u) as [ Hu | Hu ].
  - eexists. split; [ reflexivity | ]. split; lra.
  - destruct (Rlt_dec u 0) as [ Hu' | Hu' ].
    + destruct (Rlt_dec v 0) as [ Hv | Hv ].
      * eexists. split; [ reflexivity | ].
        assert (0 < v / u)%R.
        { unfold Rdiv. replace (v * / u)%R with ((- v) * / (- u))%R
            by (field; lra).
          apply Rmult_lt_0_compat; [ lra | apply Rinv_0_lt_compat; lra ]. }
        pose proof (atan_increasing 0 (v / u) H) as Hinc. rewrite atan_0 in Hinc.
        split; lra.
      * eexists. split; [ reflexivity | ].
        assert (v / u <= 0)%R.
        { unfold Rdiv. replace (v * / u)%R with (- (v * / (- u)))%R
            by (field; lra).
          assert (0 <= v * / - u)%R; [ | lra ].
          apply Rmult_le_pos; [ lra | left; apply Rinv_0_lt_compat; lra ]. }
        assert (atan (v / u) <= 0)%R.
        { destruct H as [ H | H ].
          - pose proof (atan_increasing (v / u) 0 H) as Hinc.
            rewrite atan_0 in Hinc. lra.
          - rewrite H, atan_0. lra. }
        split; lra.
    + destruct (Rlt_dec 0 v); [ | destruct (Rlt_dec v 0) ];
        (eexists; split; [ reflexivity | split; lra ]).
Qed.

(** [Math.round] gives an integer within a half of its argument. *)
Lemma ideal_round_integer : forall r : R,
  exists k : Z, ideal_round (IFin r) = IFin (IZR k) /\
    (r - 1 / 2 < IZR k <= r + 1 / 2)%R.
Proof.
  intros r. exists (up (r + / 2) - 1)%Z. split; [ reflexivity | ].
  destruct (archimed (r + / 2)) as [H1 H2]. rewrite minus_IZR. lra.
Qed.

(** The length of [(u, v)] when [u] is not zero. *)
Lemma hypotenuse : forall u v : R, u <> 0%R ->
  R_sqrt.sqrt (u * u + v * v) =
  (Rabs u * R_sqrt.sqrt (1 + Rsqr (v / u)))%R.
Proof.
  intros u v Hu.
  replace (u * u + v * v)%R with (Rsqr u * (1 + Rsqr (v / u)))%R
    by (unfold Rsqr; field; exact Hu).
  rewrite sqrt_mult_alt by apply Rle_0_sqr.
  rewrite sqrt_Rsqr_abs. reflexivity.
Qed.

(** [Math.atan2] gives the polar angle: [(u, v)] is at its distance from the
    origin in the direction of the angle. *)
Lemma ideal_atan2_polar : forall v u : R,
  exists a : R,
    ideal_atan2 (IFin v) (IFin u) = IFin a /\
    u = (R_sqrt.sqrt (u * u + v * v) * cos a)%R /\
    v = (R_sqrt.sqrt (u * u + v * v) * sin a)%R.
Proof.
  intros v u. unfold ideal_atan2, Rltb.
  assert (Hs : (0 < R_sqrt.sqrt (1 + Rsqr (v / u)))%R).
  { apply sqrt_lt_R0. pose proof (Rle_0_sqr (v / u)). lra. }
  destruct (Rlt_dec 0 u) as [ Hu | Hu ].
  - eexists. split; [ reflexivity | ].
    rewrite hypotenuse by lra. rewrite Rabs_right by lra.
    rewrite cos_atan, sin_atan. split; field; lra.
  - destruct (Rlt_dec u 0) as [ Hu' | Hu' ].
    + destruct (Rlt_dec v 0) as [ Hv | Hv ]; (eexists; split; [ reflexivity | ]);
        rewrite hypotenuse by lra; rewrite Rabs_left by lra.
      * rewrite cos_minus, sin_minus, cos_PI, sin_PI, cos_atan, sin_atan.
        split; field; lra.
      * rewrite neg_cos, neg_sin, cos_atan, sin_atan. split; field; lra.
    + assert (E : u = 0%R) by lra. subst u.
      replace (0 * 0 + v * v)%R with (v * v)%R by ring.
      destruct (Rlt_dec 0 v) as [ Hv | Hv ];
        [ | destruct (Rlt_dec v 0) as [ Hv' | Hv' ] ];
        (eexists; split; [ reflexivity | ]).
      * rewrite sqrt_square by lra. rewrite cos_PI2, sin_PI2. split; ring.
      * replace (v * v)%R with ((- v) * (- v))%R by ring.
        rewrite sqrt_square by lra. rewrite cos_neg, sin_neg, cos_PI2, sin_PI2.
        split; ring.
      * assert (E : v = 0%R) by lra. subst v.
        rewrite cos_0, sin_0. replace (0 * 0)%R with 0%R by ring.
        rewrite sqrt_0. split; ring.
Qed.

(** X29: in exact arithmetic, dragging the rotation handle with a finite
    pointer around a finite pivot sets the rotation of the element to the
    angle of the pointer from the upward vertical, clockwise on the screen:
    a number [r] of degrees in (-90, 270] such that the pointer is at its
    distance from the pivot in the direction [(sin r, - cos r)]; it is 0
    when the pointer is straight above the pivot.  With Shift held the
    rotation is the multiple of 15 degrees nearest to [r] (the upper one of
    two equally near). *)
Theorem rotation_handle_sets_the_angle_from_the_vertical :
  forall (cx cy px py : R) (el : Element.t ideal),
  rotationCenter el = (IFin cx, IFin cy) ->
  let distance :=
    R_sqrt.sqrt ((px - cx) * (px - cx) + (py - cy) * (py - cy)) in
  exists (r : R) (k : Z),
    Element.rotation (rotateElement (IFin px) (IFin py) false el) =
      Some (IFin r) /\
    (-90 < r <= 270)%R /\
    (px - cx = distance * sin (r * (PI / 180)))%R /\
    (py - cy = - (distance * cos (r * (PI / 180))))%R /\
    (px = cx -> (py < cy)%R -> r = 0%R) /\
    Element.rotation (rotateElement (IFin px) (IFin py) true el) =
      Some (IFin (IZR k * 15)) /\
    (r - 15 / 2 < IZR k * 15 <= r + 15 / 2)%R.
Proof.
  intros cx cy px py el Hc distance.
  pose proof PI_RGT_0 as Hpi.
  destruct (ideal_atan2_range (py - cy) (px - cx)) as (a & Ha & Hr & Hup).
  destruct (ideal_atan2_polar (py - cy) (px - cx)) as (a' & Ha' & Hu & Hv).
  assert (E : a' = a) by congruence. subst a'. fold distance in Hu, Hv.
  set (r := (a * (180 / PI) + 90)%R).
  assert (Hrot : forall shift,
    Element.rotation (rotateElement (IFin px) (IFin py) shift el) =
    Some (if shift
          then ideal_mul (ideal_round (ideal_div (IFin r) (IFin 15))) (IFin 15)
          else IFin r)).
  { intros shift. unfold rotateElement. rewrite Hc.
    cbn [Element.rotation Element.with_rotation Math_atan2 Math_PI Math_round
         ideal_math].
    ideal_ops. fold (Rminus py cy). fold (Rminus px cx). rewrite Ha.
    unfold Reqb.
    destruct (Req_dec_T PI 0) as [ E | _ ]; [ lra | ].
    ideal_ops. destruct shift; reflexivity. }
  destruct (ideal_round_integer (r / 15)) as (k & Hk & Hb).
  exists r, k.
  split; [ apply (Hrot false) | ].
  assert (Hangle : (r * (PI / 180) = a + PI / 2)%R) by (unfold r; field; lra).
  split; [ | split; [ | split; [ | split; [ | split ] ] ] ].
  - assert (H1 : (a * (180 / PI) = (a / PI) * 180)%R) by (field; lra).
    unfold r. rewrite H1.
    assert (H2 : (-1 < a / PI <= 1)%R).
    { split.
      - apply (Rmult_lt_reg_r PI); [ lra | ].
        unfold Rdiv. rewrite Rmult_assoc, Rinv_l by lra. lra.
      - apply (Rmult_le_reg_r PI); [ lra | ].
        unfold Rdiv. rewrite Rmult_assoc, Rinv_l by lra. lra. }
    lra.
  - rewrite Hangle, sin_plus, cos_PI2, sin_PI2. rewrite Hu at 1. ring.
  - rewrite Hangle, cos_plus, cos_PI2, sin_PI2. rewrite Hv at 1. ring.
  - intros Hx Hy. unfold r. rewrite Hup by lra. field. lra.
  - rewrite (Hrot true). ideal_ops. unfold Reqb.
    destruct (Req_dec_T 15 0) as [ E | _ ]; [ lra | ].
    rewrite Hk. reflexivity.
  - lra.
Qed.

(** The snapped offset in polar form: the distance of the pointer, in one of
    the eight directions [k * pi/4]. *)
Lemma snapOffset_polar : forall dx dy : R,
  exists k : Z,
    (-4 <= k <= 4)%Z /\
    snapOffset (IFin dx) (IFin dy) =
      (IFin (R_sqrt.sqrt (dx * dx + dy * dy) * cos (IZR k * (PI / 4))),
       IFin (R_sqrt.sqrt (dx * dx + dy * dy) * sin (IZR k * (PI / 4)))).
Proof.
  intros dx dy. pose proof PI_RGT_0 as Hpi.
  destruct (ideal_atan2_range dy dx) as (a & Ha & Hr & _).
  destruct (ideal_round_integer (a / (PI / 4))) as (k & Hk & Hb).
  exists k. split.
  - assert (Hq : (-4 < a / (PI / 4) <= 4)%R).
    { assert (E : (a / (PI / 4) = a / PI * 4)%R) by (field; lra).
      rewrite E.
      assert (H2 : (-1 < a / PI <= 1)%R).
      { split.
        - apply (Rmult_lt_reg_r PI); [ lra | ].
          unfold Rdiv. rewrite Rmult_assoc, Rinv_l by lra. lra.
        - apply (Rmult_le_reg_r PI); [ lra | ].
          unfold Rdiv. rewrite Rmult_assoc, Rinv_l by lra. lra. }
      lra. }
    assert (H5 : (IZR (-5) < IZR k < IZR 5)%R) by lra.
    destruct H5 as [Hlo Hhi]. apply lt_IZR in Hlo. apply lt_IZR in Hhi. lia.
  - unfold snapOffset.
    cbn [Math_atan2 Math_PI Math_round Math_cos Math_sin ideal_math].
    rewrite Ha. ideal_ops. unfold Reqb, Rltb.
    destruct (Req_dec_T 4 0) as [ E | _ ]; [ lra | ].
    ideal_ops. unfold Reqb.
    destruct (Req_dec_T (PI / 4) 0) as [ E | _ ]; [ lra | ].
    rewrite Hk. ideal_ops.
    destruct (Rlt_dec (dx * dx + dy * dy) 0) as [ E | _ ];
      [ pose proof (sum_of_squares_not_negative dx dy); lra | ].
    reflexivity.
Qed.

(** X30: in exact arithmetic, drawing a line with Shift held puts its end
    point in one of the eight directions [k * 45] degrees from its start
    point ([-4 <= k <= 4]), at exactly the distance of the pointer from the
    start point; the start point is kept. *)
Theorem shift_line_keeps_its_length_and_snaps_to_45_degrees :
  forall (sx sy px py : R) (rest : list (Point.t ideal)) (el : Element.t ideal),
  Element.points el = Some (Point.mk (IFin sx) (IFin sy) :: rest) ->
  exists (k : Z) (ex ey : R),
    Element.points (drawLine (IFin px) (IFin py) true el) =
      Some [Point.mk (IFin sx) (IFin sy); Point.mk (IFin ex) (IFin ey)] /\
    (-4 <= k <= 4)%Z /\
    (ex - sx = R_sqrt.sqrt ((px - sx) * (px - sx) + (py - sy) * (py - sy)) *
               cos (IZR k * (PI / 4)))%R /\
    (ey - sy = R_sqrt.sqrt ((px - sx) * (px - sx) + (py - sy) * (py - sy)) *
               sin (IZR k * (PI / 4)))%R /\
    ((ex - sx) * (ex - sx) + (ey - sy) * (ey - sy) =
     (px - sx) * (px - sx) + (py - sy) * (py - sy))%R.
Proof.
  intros sx sy px py rest el Hp.
  destruct (snapOffset_polar (px - sx) (py - sy)) as (k & Hk & Hs).
  set (d := R_sqrt.sqrt ((px - sx) * (px - sx) + (py - sy) * (py - sy))) in *.
  exists k, (sx + d * cos (IZR k * (PI / 4)))%R,
            (sy + d * sin (IZR k * (PI / 4)))%R.
  split; [ | split; [ exact Hk | split; [ ring | split; [ ring | ] ] ] ].
  - unfold drawLine. rewrite Hp. cbn [Point.x Point.y].
    change (snapOffset (js_sub (IFin px) (IFin sx))
                       (js_sub (IFin py) (IFin sy)))
      with (snapOffset (IFin (px - sx)) (IFin (py - sy))).
    rewrite Hs. reflexivity.
  - replace (sx + d * cos (IZR k * (PI / 4)) - sx)%R
      with (d * cos (IZR k * (PI / 4)))%R by ring.
    replace (sy + d * sin (IZR k * (PI / 4)) - sy)%R
      with (d * sin (IZR k * (PI / 4)))%R by ring.
    pose proof (sin2_cos2 (IZR k * (PI / 4))) as Hsc. unfold Rsqr in Hsc.
    assert (Hd : (d * d = (px - sx) * (px - sx) + (py - sy) * (py - sy))%R).
    { unfold d. apply R_sqrt.sqrt_sqrt. apply sum_of_squares_not_negative. }
    set (c := cos (IZR k * (PI / 4))) in *.
    set (s := sin (IZR k * (PI / 4))) in *.
    rewrite <- Hd.
    replace (d * c * (d * c) + d * s * (d * s))%R
      with (d * d * (s * s + c * c))%R by ring.
    rewrite Hsc. ring.
Qed.

Lemma rotation_handle_sets_the_angle_from_the_vertical_witness :
  Element.rotation (rotateElement (IFin 50) (IFin 0) false circleI) =
    Some (IFin 0).
Proof.
  destruct (rotation_handle_sets_the_angle_from_the_vertical 50 50 50 0
              circleI eq_refl) as (r & k & Hr & _ & _ & _ & Hup & _).
  rewrite Hr. rewrite (Hup eq_refl) by lra. reflexivity.
Defined.

Lemma shift_line_keeps_its_length_and_snaps_to_45_degrees_witness :
  exists (k : Z) (ex ey : R),
    Element.points (drawLine (IFin 30) (IFin 40) true (lineI "1" 0 0 100 0)) =
      Some [Point.mk (IFin 0) (IFin 0); Point.mk (IFin ex) (IFin ey)] /\
    (-4 <= k <= 4)%Z /\
    (ex - 0 = R_sqrt.sqrt ((30 - 0) * (30 - 0) + (40 - 0) * (40 - 0)) *
              cos (IZR k * (PI / 4)))%R /\
    (ey - 0 = R_sqrt.sqrt ((30 - 0) * (30 - 0) + (40 - 0) * (40 - 0)) *
              sin (IZR k * (PI / 4)))%R /\
    ((ex - 0) * (ex - 0) + (ey - 0) * (ey - 0) =
     (30 - 0) * (30 - 0) + (40 - 0) * (40 - 0))%R.
Proof.
  exact (shift_line_keeps_its_length_and_snaps_to_45_degrees 0 0 30 40
           [Point.mk (idl 100) (idl 0)] (lineI "1" 0 0 100 0) eq_refl).
Defined.
